(** * Simple-Contracts: access control, workflow and persistence rules

    A shallow embedding of the contract-management application
    (contracts/models.py, permissions.py, forms.py, services.py, views.py,
    middleware.py and templatetags/contracts_extras.py) together with the
    properties its specification states about it and further properties
    of the code.

    Conventions of the embedding:
    - primary keys are integers ([Z]); a contract's UUID is the 128-bit
      integer behind it; a foreign key is the key of the row it points to,
      [None] when the column is NULL;
    - a Python [str] is a [string] with one [ascii] per character: the
      embedding carries the texts whose characters are U+0000 to U+00FF
      (every HTTP header is such a text), and [strip], [len] and slicing
      are Python's on them; a text column holds such a [string], and a
      [bytes] value is a [string] with one [ascii] per byte;
    - the relational store is an explicit [Store] value threaded through
      every operation that reads or writes the database; a row carries the
      columns the rules below read or write, not its timestamps, blobs or
      free-form metadata;
    - Python exceptions are the [Raise] results of [PyResult]. *)

From Stdlib Require Import ZArith String Ascii List Bool Lia.
From stdpp Require Import base option list gmap strings.

Local Open Scope string_scope.
Local Open Scope Z_scope.

(** ** Python values and exceptions *)

Inductive PyExn : Type :=
| AttributeError
| InvalidOperation
| Http404.

Inductive PyResult (A : Type) : Type :=
| Ok (a : A)
| Raise (e : PyExn).

Arguments Ok {A} a.
Arguments Raise {A} e.

#[global] Instance PyResult_ret : MRet PyResult := fun A a => Ok a.

#[global] Instance PyResult_bind : MBind PyResult :=
  fun A B f m => match m with Ok a => f a | Raise e => Raise e end.

(** [not s] for a Python string. *)
Definition str_falsy (s : string) : bool := String.eqb s "".

(** [str.upper] of a character of an ASCII text (the code applies it to
    the digits of a UUID). *)
Definition ascii_upper (a : ascii) : ascii :=
  let n := N_of_ascii a in
  if ((97 <=? n) && (n <=? 122))%N then ascii_of_N (n - 32)%N else a.

Fixpoint upper (s : string) : string :=
  match s with
  | EmptyString => EmptyString
  | String a rest => String (ascii_upper a) (upper rest)
  end.

(** [s[:n]] *)
Fixpoint py_prefix (n : nat) (s : string) : string :=
  match n, s with
  | S k, String a rest => String a (py_prefix k rest)
  | _, _ => EmptyString
  end.

(** [str.isspace] of a character, which is what [str.strip] removes: up
    to U+00FF these are U+0009 to U+000D, U+001C to U+0020, U+0085 (next
    line) and U+00A0 (no-break space). *)
Definition char_isspace (a : ascii) : bool :=
  let n := N_of_ascii a in
  (((9 <=? n) && (n <=? 13)) || ((28 <=? n) && (n <=? 32))
   || (n =? 133) || (n =? 160))%N.

Fixpoint lstrip (s : string) : string :=
  match s with
  | EmptyString => EmptyString
  | String a rest => if char_isspace a then lstrip rest else s
  end.

Fixpoint rstrip (s : string) : string :=
  match s with
  | EmptyString => EmptyString
  | String a rest =>
      match rstrip rest with
      | EmptyString => if char_isspace a then EmptyString else String a EmptyString
      | r => String a r
      end
  end.

Definition strip (s : string) : string := rstrip (lstrip s).

Fixpoint contains_nul (s : string) : bool :=
  match s with
  | EmptyString => false
  | String a rest => (N_of_ascii a =? 0)%N || contains_nul rest
  end.

(** ** Time and identifiers *)

(** What [timezone.now()] contributes to the code below. *)
Record DateTime : Type := {
  dt_year : Z;
  dt_month : Z;
  dt_stamp : Z
}.

Definition digit_char (d : Z) : ascii := ascii_of_N (48 + Z.to_N d).

Definition hex_char (d : Z) : ascii :=
  if d <? 10 then ascii_of_N (48 + Z.to_N d) else ascii_of_N (87 + Z.to_N d).

(** [now.strftime('%Y%m')]: four year digits, two month digits. *)
Definition strftime_Ym (now : DateTime) : string :=
  let y := dt_year now in
  let m := dt_month now in
  String (digit_char (y / 1000 mod 10))
    (String (digit_char (y / 100 mod 10))
      (String (digit_char (y / 10 mod 10))
        (String (digit_char (y mod 10))
          (String (digit_char (m / 10 mod 10))
            (String (digit_char (m mod 10)) EmptyString))))).

(** Hex digits [hi-1 .. lo] (counted from the least significant) of [u]. *)
Fixpoint hex_digits (u : Z) (lo : nat) (count : nat) : string :=
  match count with
  | O => EmptyString
  | S k =>
      String (hex_char (u / 16 ^ Z.of_nat (lo + k) mod 16)) (hex_digits u lo k)
  end.

(** [str(uuid)]: 32 lowercase hex digits grouped 8-4-4-4-12. *)
Definition uuid_str (u : Z) : string :=
  hex_digits u 24 8 +:+ "-" +:+ hex_digits u 20 4 +:+ "-" +:+ hex_digits u 16 4
    +:+ "-" +:+ hex_digits u 12 4 +:+ "-" +:+ hex_digits u 0 12.

(** ** models.py *)

Definition DRAFT : string := "DRAFT".
Definition PENDING : string := "PENDING".
Definition ACTIVE : string := "ACTIVE".
Definition EXPIRED : string := "EXPIRED".
Definition TERMINATED : string := "TERMINATED".
Definition ARCHIVED : string := "ARCHIVED".

Definition REJECTED : string := "REJECTED".
Definition CANCELLED : string := "CANCELLED".

(** Decimal values: coefficient and exponent. *)
Definition Decimal : Type := (Z * Z)%type.

(** class Contract(models.Model) *)
Record Contract : Type := {
  c_id : Z;
  c_contract_number : string;
  c_title : string;
  c_status : string;
  c_category : string;
  c_sub_category : string;
  c_org_entity : string;
  c_region_country : string;
  c_bu_team : option Z;
  c_customer_or_vendor_name : string;
  c_customer_or_vendor_address : string;
  c_contract_type : option Z;
  c_value_amount : option Decimal;
  c_currency : string;
  c_opportunity_id : string;
  c_effective_date : option Z;
  c_end_date : option Z;
  c_auto_renewal : bool;
  c_renewal_notice_date : option Z;
  c_assignment_status : string;
  c_owner : option Z;
  c_is_confidential : bool;
  c_created_by : option Z
}.

Definition set_contract_number (n : string) (c : Contract) : Contract :=
  {| c_id := c_id c;
     c_contract_number := n;
     c_title := c_title c;
     c_status := c_status c;
     c_category := c_category c;
     c_sub_category := c_sub_category c;
     c_org_entity := c_org_entity c;
     c_region_country := c_region_country c;
     c_bu_team := c_bu_team c;
     c_customer_or_vendor_name := c_customer_or_vendor_name c;
     c_customer_or_vendor_address := c_customer_or_vendor_address c;
     c_contract_type := c_contract_type c;
     c_value_amount := c_value_amount c;
     c_currency := c_currency c;
     c_opportunity_id := c_opportunity_id c;
     c_effective_date := c_effective_date c;
     c_end_date := c_end_date c;
     c_auto_renewal := c_auto_renewal c;
     c_renewal_notice_date := c_renewal_notice_date c;
     c_assignment_status := c_assignment_status c;
     c_owner := c_owner c;
     c_is_confidential := c_is_confidential c;
     c_created_by := c_created_by c |}.

(** class ContractTag(models.Model): the through table of Contract.tags *)
Record ContractTag : Type := {
  ct_contract : Z;
  ct_tag : Z
}.

(** class ContractFile(models.Model); the row's key is kept by the table. *)
Record ContractFile : Type := {
  cf_contract : Z;
  cf_original_filename : string;
  cf_file_size : Z;
  cf_is_primary : bool;
  cf_description : string;
  cf_uploaded_by : option Z
}.

Definition set_is_primary (b : bool) (f : ContractFile) : ContractFile :=
  {| cf_contract := cf_contract f;
     cf_original_filename := cf_original_filename f;
     cf_file_size := cf_file_size f;
     cf_is_primary := b;
     cf_description := cf_description f;
     cf_uploaded_by := cf_uploaded_by f |}.

(** class ContractVersion(models.Model) *)
Record ContractVersion : Type := {
  cv_contract : Z;
  cv_version_number : Z;
  cv_label : string;
  cv_has_file : bool;
  cv_notes : string;
  cv_created_by : option Z
}.

(** class ContractShare(models.Model) *)
Record ContractShare : Type := {
  cs_contract : Z;
  cs_shared_with_user : option Z;
  cs_shared_with_department : option Z;
  cs_access_level : string;
  cs_shared_by : option Z
}.

(** class AdditionalApproval(models.Model); keyed by pk in its table. *)
Record AdditionalApproval : Type := {
  aa_contract : Z;
  aa_requested_by : Z;
  aa_approver : Z;
  aa_status : string;
  aa_reason : string;
  aa_decided_at : option Z;
  aa_decision_comment : string
}.

(** class Clause(models.Model) *)
Record Clause : Type := {
  cl_pk : Z;
  cl_contract : Z;
  cl_label : string
}.

(** class Deviation(models.Model) *)
Record Deviation : Type := {
  dv_contract : Z;
  dv_clause : option Z;
  dv_description : string
}.

(** class RiskItem(models.Model) *)
Record RiskItem : Type := {
  ri_contract : Z;
  ri_severity : string;
  ri_status : string
}.

(** class SignatureRecord(models.Model) *)
Record SignatureRecord : Type := {
  sr_contract : Z;
  sr_signatory_name : string
}.

(** JSON values stored in AuditLog.metadata. *)
Inductive Json : Type :=
| JNull
| JStr (s : string)
| JInt (n : Z)
| JBool (b : bool)
| JStrs (l : list string).

(** class AuditLog(models.Model) *)
Record AuditLog : Type := {
  al_contract : option Z;
  al_action : string;
  al_actor : option Z;
  al_metadata : list (string * Json);
  al_created_at : Z
}.

(** The tables of the application. [sequences] is the database's own
    record of the greatest key it has given in a table with an AutoField,
    by table name. *)
Record Store : Type := {
  contracts : gmap Z Contract;
  contract_tags : list ContractTag;
  files : gmap Z ContractFile;
  versions : list ContractVersion;
  shares : list ContractShare;
  approvals : gmap Z AdditionalApproval;
  clauses : list Clause;
  deviations : list Deviation;
  risks : list RiskItem;
  signatures : list SignatureRecord;
  audit_logs : list AuditLog;
  sequences : gmap string Z
}.

Definition empty_store : Store :=
  {| contracts := ∅; contract_tags := []; files := ∅; versions := [];
     shares := []; approvals := ∅; clauses := []; deviations := [];
     risks := []; signatures := []; audit_logs := []; sequences := ∅ |}.

Definition set_contracts (t : gmap Z Contract) (st : Store) : Store :=
  {| contracts := t; contract_tags := contract_tags st; files := files st;
     versions := versions st; shares := shares st; approvals := approvals st;
     clauses := clauses st; deviations := deviations st; risks := risks st;
     signatures := signatures st; audit_logs := audit_logs st;
     sequences := sequences st |}.

Definition set_contract_tags (t : list ContractTag) (st : Store) : Store :=
  {| contracts := contracts st; contract_tags := t; files := files st;
     versions := versions st; shares := shares st; approvals := approvals st;
     clauses := clauses st; deviations := deviations st; risks := risks st;
     signatures := signatures st; audit_logs := audit_logs st;
     sequences := sequences st |}.

Definition set_files (t : gmap Z ContractFile) (st : Store) : Store :=
  {| contracts := contracts st; contract_tags := contract_tags st; files := t;
     versions := versions st; shares := shares st; approvals := approvals st;
     clauses := clauses st; deviations := deviations st; risks := risks st;
     signatures := signatures st; audit_logs := audit_logs st;
     sequences := sequences st |}.

Definition set_versions (t : list ContractVersion) (st : Store) : Store :=
  {| contracts := contracts st; contract_tags := contract_tags st;
     files := files st; versions := t; shares := shares st;
     approvals := approvals st; clauses := clauses st;
     deviations := deviations st; risks := risks st;
     signatures := signatures st; audit_logs := audit_logs st;
     sequences := sequences st |}.

Definition set_approvals (t : gmap Z AdditionalApproval) (st : Store) : Store :=
  {| contracts := contracts st; contract_tags := contract_tags st;
     files := files st; versions := versions st; shares := shares st;
     approvals := t; clauses := clauses st; deviations := deviations st;
     risks := risks st; signatures := signatures st;
     audit_logs := audit_logs st; sequences := sequences st |}.

Definition set_audit_logs (t : list AuditLog) (st : Store) : Store :=
  {| contracts := contracts st; contract_tags := contract_tags st;
     files := files st; versions := versions st; shares := shares st;
     approvals := approvals st; clauses := clauses st;
     deviations := deviations st; risks := risks st;
     signatures := signatures st; audit_logs := t;
     sequences := sequences st |}.

Definition set_sequences (t : gmap string Z) (st : Store) : Store :=
  {| contracts := contracts st; contract_tags := contract_tags st;
     files := files st; versions := versions st; shares := shares st;
     approvals := approvals st; clauses := clauses st;
     deviations := deviations st; risks := risks st;
     signatures := signatures st; audit_logs := audit_logs st;
     sequences := t |}.

(** The acting user, as the permission helpers see it.  [u_role],
    [u_groups] and [u_department] are attributes a user model may or may
    not have ([hasattr]); the outer [None] is a missing attribute, an inner
    [None] is the Python value [None]. [u_groups] lists the names of the
    user's groups. *)
Record User : Type := {
  u_pk : Z;
  u_is_authenticated : bool;
  u_is_superuser : bool;
  u_is_staff : bool;
  u_role : option (option string);
  u_groups : option (list string);
  u_department : option (option Z)
}.

(** ** permissions.py *)

(** class Roles *)
Definition LEGAL_ADMIN : string := "LEGAL_ADMIN".
Definition LEGAL_USER : string := "LEGAL_USER".
Definition FINANCE_VIEWER : string := "FINANCE_VIEWER".
Definition USER : string := "USER".

(** [x in names] *)
Definition group_in (x : string) (names : list string) : bool :=
  existsb (String.eqb x) names.

(** [not user or not user.is_authenticated] *)
Definition not_authenticated (user : option User) : bool :=
  match user with
  | None => true
  | Some u => negb (u_is_authenticated u)
  end.

Definition get_user_role (user : option User) : option string :=
  match user with
  | None => None
  | Some u =>
      if negb (u_is_authenticated u) then None
      else if u_is_superuser u then Some LEGAL_ADMIN
      else
        match u_role u with
        | Some role => role
        | None =>
            let by_staff :=
              if u_is_staff u then Some LEGAL_USER else Some USER in
            match u_groups u with
            | Some group_names =>
                if group_in "Legal Admin" group_names
                   || group_in "legal_admin" group_names
                then Some LEGAL_ADMIN
                else if group_in "Legal User" group_names
                        || group_in "legal_user" group_names
                then Some LEGAL_USER
                else if group_in "Finance Viewer" group_names
                        || group_in "finance_viewer" group_names
                then Some FINANCE_VIEWER
                else by_staff
            | None => by_staff
            end
        end
  end.

(** [role == name] where [role] may be [None]. *)
Definition role_is (role : option string) (name : string) : bool :=
  match role with
  | Some r => String.eqb r name
  | None => false
  end.

Definition is_legal_admin (user : option User) : bool :=
  role_is (get_user_role user) LEGAL_ADMIN.

Definition is_legal_user (user : option User) : bool :=
  let role := get_user_role user in
  role_is role LEGAL_ADMIN || role_is role LEGAL_USER.

Definition is_finance_viewer (user : option User) : bool :=
  role_is (get_user_role user) FINANCE_VIEWER.

Definition can_admin_contracts (user : option User) : bool :=
  is_legal_admin user.

Definition can_create_contract (user : option User) : bool :=
  is_legal_user user.

(** [fk == user] for a nullable foreign key to the user table. *)
Definition fk_is (fk : option Z) (pk : Z) : bool :=
  match fk with
  | Some k => k =? pk
  | None => false
  end.

(** Reading an attribute of the [contract] (or [approval]) argument:
    AttributeError when the argument is [None]. *)
Definition getattr_of {A : Type} (obj : option A) : PyResult A :=
  match obj with
  | Some o => Ok o
  | None => Raise AttributeError
  end.

(** [hasattr(user, 'department') and user.department] *)
Definition user_department (u : User) : option Z :=
  match u_department u with
  | Some (Some d) => Some d
  | _ => None
  end.

(** [ContractShare.objects.filter(contract=contract, shared_with_user=user)] *)
Definition shares_with_user (st : Store) (c : Contract) (u : User)
  : list ContractShare :=
  List.filter
    (fun s => (cs_contract s =? c_id c) && fk_is (cs_shared_with_user s) (u_pk u))
    (shares st).

(** [ContractShare.objects.filter(contract=contract,
      shared_with_department=department)] *)
Definition shares_with_department (st : Store) (c : Contract) (d : Z)
  : list ContractShare :=
  List.filter
    (fun s => (cs_contract s =? c_id c) && fk_is (cs_shared_with_department s) d)
    (shares st).

(** [.filter(access_level='EDIT')] *)
Definition edit_level (l : list ContractShare) : list ContractShare :=
  List.filter (fun s => String.eqb (cs_access_level s) "EDIT") l.

(** [queryset.exists()] *)
Definition exists_ {A : Type} (l : list A) : bool :=
  match l with
  | [] => false
  | _ :: _ => true
  end.

(** [contract.approvals]: the approval rows of the contract. *)
Definition contract_approvals (st : Store) (c : Contract)
  : list AdditionalApproval :=
  List.filter (fun a => aa_contract a =? c_id c)
    (List.map snd (map_to_list (approvals st))).

Definition can_view_contract (st : Store) (user : option User)
    (contract : option Contract) : PyResult bool :=
  match user with
  | None => Ok false
  | Some u =>
      if negb (u_is_authenticated u) then Ok false
      else if is_legal_admin user then Ok true
      else
        c ← getattr_of contract;
        if fk_is (c_owner c) (u_pk u) || fk_is (c_created_by c) (u_pk u)
        then Ok true
        else if exists_ (shares_with_user st c u) then Ok true
        else if match user_department u with
                | Some d => exists_ (shares_with_department st c d)
                | None => false
                end
        then Ok true
        else if match user_department u, c_bu_team c with
                | Some d, Some bu => d =? bu
                | _, _ => false
                end
        then Ok true
        else if is_finance_viewer user && negb (c_is_confidential c)
        then Ok true
        else if is_legal_user user
                && (exists_ (List.filter (fun a => aa_approver a =? u_pk u)
                               (contract_approvals st c))
                    || exists_ (List.filter (fun a => aa_requested_by a =? u_pk u)
                                  (contract_approvals st c)))
        then Ok true
        else Ok false
  end.

Definition can_edit_contract (st : Store) (user : option User)
    (contract : option Contract) : PyResult bool :=
  match user with
  | None => Ok false
  | Some u =>
      if negb (u_is_authenticated u) then Ok false
      else if is_legal_admin user then Ok true
      else
        c ← getattr_of contract;
        if fk_is (c_owner c) (u_pk u) then Ok true
        else if exists_ (edit_level (shares_with_user st c u)) then Ok true
        else if match user_department u with
                | Some d => exists_ (edit_level (shares_with_department st c d))
                | None => false
                end
        then Ok true
        else Ok false
  end.

Definition can_delete_contract (user : option User)
    (contract : option Contract) : PyResult bool :=
  match user with
  | None => Ok false
  | Some u =>
      if negb (u_is_authenticated u) then Ok false
      else if is_legal_admin user then Ok true
      else
        c ← getattr_of contract;
        if fk_is (c_owner c) (u_pk u) && String.eqb (c_status c) "DRAFT"
        then Ok true
        else Ok false
  end.

Definition can_manage_approvals (st : Store) (user : option User)
    (contract : option Contract) : PyResult bool :=
  match user with
  | None => Ok false
  | Some u =>
      if negb (u_is_authenticated u) then Ok false
      else if is_legal_admin user then Ok true
      else
        c ← getattr_of contract;
        if fk_is (c_owner c) (u_pk u) then Ok true
        else can_edit_contract st user contract
  end.

Definition can_approve_request (user : option User)
    (approval : option AdditionalApproval) : PyResult bool :=
  match user with
  | None => Ok false
  | Some u =>
      if negb (u_is_authenticated u) then Ok false
      else
        a ← getattr_of approval;
        if aa_approver a =? u_pk u then Ok true
        else if is_legal_admin user then Ok true
        else Ok false
  end.

Definition can_change_status (st : Store) (user : option User)
    (contract : option Contract) : PyResult bool :=
  match user with
  | None => Ok false
  | Some u =>
      if negb (u_is_authenticated u) then Ok false
      else if is_legal_admin user then Ok true
      else
        c ← getattr_of contract;
        if fk_is (c_owner c) (u_pk u) then Ok true
        else can_edit_contract st user contract
  end.

Definition can_share_contract (user : option User)
    (contract : option Contract) : PyResult bool :=
  match user with
  | None => Ok false
  | Some u =>
      if negb (u_is_authenticated u) then Ok false
      else if is_legal_admin user then Ok true
      else
        c ← getattr_of contract;
        if fk_is (c_owner c) (u_pk u) then Ok true
        else Ok false
  end.

(** ** Django's model layer, as the application relies on it *)

(** The greatest of [keys], 0 when there is none. *)
Definition max_pk (keys : list Z) : Z := foldr Z.max 0 keys.

(** The greatest key the database has given in [table] so far, 0 when it
    has given none. *)
Definition last_pk (st : Store) (table : string) : Z :=
  default 0 (sequences st !! table).

(** The key an AutoField gives a new row of [table], whose rows have
    [keys]: keys count from 1, and the new one follows the greatest key
    the table holds or has held, so the key of a deleted row does not come
    back (AUTOINCREMENT, as Django declares an AutoField on SQLite). *)
Definition next_pk (st : Store) (table : string) (keys : list Z) : Z :=
  1 + Z.max (last_pk st table) (max_pk keys).

(** The database remembers that [k] is a key of [table]. *)
Definition note_pk (table : string) (k : Z) (st : Store) : Store :=
  set_sequences (<[table := Z.max (last_pk st table) k]> (sequences st)) st.

(** The keys of a table kept by primary key. *)
Definition pks {R : Type} (t : gmap Z R) : list Z := (map_to_list t).*1.

(** [fk in targets] for a foreign key column. *)
Definition fk_among (targets : list Z) (fk : option Z) : bool :=
  match fk with
  | Some k => existsb (Z.eqb k) targets
  | None => false
  end.

(** [on_delete=models.CASCADE]: rows pointing to a deleted row go too. *)
Definition CASCADE {R : Type} (fk : R -> option Z) (targets : list Z)
    (rows : list R) : list R :=
  List.filter (fun r => negb (fk_among targets (fk r))) rows.

(** [CASCADE] for a table kept by primary key. *)
Definition CASCADE_keyed {R : Type} (fk : R -> option Z) (targets : list Z)
    (rows : gmap Z R) : gmap Z R :=
  filter (fun kr => fk_among targets (fk (snd kr)) = false) rows.

(** [on_delete=models.SET_NULL]: rows pointing to a deleted row stay, with
    the column set to NULL by [null_fk]. *)
Definition SET_NULL {R : Type} (fk : R -> option Z) (null_fk : R -> R)
    (targets : list Z) (rows : list R) : list R :=
  List.map (fun r => if fk_among targets (fk r) then null_fk r else r) rows.

Definition null_clause (d : Deviation) : Deviation :=
  {| dv_contract := dv_contract d; dv_clause := None;
     dv_description := dv_description d |}.

(** [contract.delete()]: the row and everything the [on_delete] options of
    models.py collect with it. Every ForeignKey to Contract is declared
    CASCADE (ContractTag, ContractFile, ContractVersion, ContractShare,
    AdditionalApproval, Clause, Deviation, RiskItem, SignatureRecord and
    AuditLog); Deviation.clause is SET_NULL towards the deleted clauses. *)
Definition Contract_delete (st : Store) (pk : Z) : Store :=
  let deleted_clauses :=
    List.map cl_pk (List.filter (fun cl => cl_contract cl =? pk) (clauses st)) in
  {| contracts := delete pk (contracts st);
     contract_tags := CASCADE (fun r => Some (ct_contract r)) [pk] (contract_tags st);
     files := CASCADE_keyed (fun r => Some (cf_contract r)) [pk] (files st);
     versions := CASCADE (fun r => Some (cv_contract r)) [pk] (versions st);
     shares := CASCADE (fun r => Some (cs_contract r)) [pk] (shares st);
     approvals := CASCADE_keyed (fun r => Some (aa_contract r)) [pk] (approvals st);
     clauses := CASCADE (fun r => Some (cl_contract r)) [pk] (clauses st);
     deviations :=
       SET_NULL dv_clause null_clause deleted_clauses
         (CASCADE (fun r => Some (dv_contract r)) [pk] (deviations st));
     risks := CASCADE (fun r => Some (ri_contract r)) [pk] (risks st);
     signatures := CASCADE (fun r => Some (sr_contract r)) [pk] (signatures st);
     audit_logs := CASCADE al_contract [pk] (audit_logs st);
     sequences := sequences st |}.

(** Contract.save *)
Definition Contract_save (now : DateTime) (st : Store) (self : Contract)
  : Store * Contract :=
  if str_falsy (c_contract_number self) then
    let saved := <[c_id self := self]> (contracts st) in
    let number :=
      "CNT-" +:+ strftime_Ym now +:+ "-"
        +:+ upper (py_prefix 8 (uuid_str (c_id self))) in
    let self' := set_contract_number number self in
    (set_contracts (alter (set_contract_number number) (c_id self) saved) st,
     self')
  else
    (set_contracts (<[c_id self := self]> (contracts st)) st, self).

(** [.exclude(pk=self.pk)]: a row is excluded when it is the saved one; an
    instance without a key yet excludes nothing. *)
Definition is_pk (self_pk : option Z) (k : Z) : bool :=
  match self_pk with
  | Some p => k =? p
  | None => false
  end.

(** The update that opens ContractFile.save when [self.is_primary]:
    [ContractFile.objects.filter(contract=self.contract, is_primary=True)
       .exclude(pk=self.pk).update(is_primary=False)]. *)
Definition demote_other_primaries (t : gmap Z ContractFile)
    (self_pk : option Z) (self : ContractFile) : gmap Z ContractFile :=
  if cf_is_primary self then
    map_imap
      (fun k f =>
         Some (if (cf_contract f =? cf_contract self) && cf_is_primary f
                  && negb (is_pk self_pk k)
               then set_is_primary false f else f))
      t
  else t.

(** The first statement of ContractFile.save, run against the store. *)
Definition ContractFile_save_update (st : Store) (self_pk : option Z)
    (self : ContractFile) : Store :=
  set_files (demote_other_primaries (files st) self_pk self) st.

(** The second statement of ContractFile.save, [super().save()]: the row
    is written under its key, a new one for an instance not stored yet.
    Returns the store and the key of the row. *)
Definition ContractFile_save_super (st : Store) (self_pk : option Z)
    (self : ContractFile) : Store * Z :=
  let k := match self_pk with
           | Some p => p
           | None => next_pk st "contracts_contract_file" (pks (files st))
           end in
  (set_files (<[k := self]> (files st))
     (note_pk "contracts_contract_file" k st),
   k).

(** ContractFile.save, its two statements run one after the other with no
    other write in between; [self_pk] is [None] for an instance not
    stored yet. Returns the store and the key of the saved row. *)
Definition ContractFile_save (st : Store) (self_pk : option Z)
    (self : ContractFile) : Store * Z :=
  ContractFile_save_super (ContractFile_save_update st self_pk self)
    self_pk self.

(** Two requests that each save a new file through ContractFile.save, the
    second starting before the first has written its row: both run the
    first statement, then both run the second. Returns the store and the
    keys of the two rows. *)
Definition interleaved_saves (st : Store) (a b : ContractFile)
  : Store * Z * Z :=
  let st1 := ContractFile_save_update st None a in
  let st2 := ContractFile_save_update st1 None b in
  let (st3, key_a) := ContractFile_save_super st2 None a in
  let (st4, key_b) := ContractFile_save_super st3 None b in
  (st4, key_a, key_b).

(** ** forms.py *)

(** The two fields of a posted decision form, [None] when absent. *)
Record DecisionPost : Type := {
  post_decision : option string;
  post_comment : option string
}.

(** [cleaned_data] of ApprovalDecisionForm: a field is [None] when it is
    not among the cleaned values (its own validation failed). *)
Record DecisionCleaned : Type := {
  cd_decision : option string;
  cd_comment : option string
}.

Definition DECISION_CHOICES : list string := ["APPROVED"; "REJECTED"].

(** forms.ChoiceField(choices=DECISION_CHOICES): required, and the value
    must be one of the choices. *)
Definition clean_decision_field (raw : option string) : option string :=
  match raw with
  | Some v => if existsb (String.eqb v) DECISION_CHOICES then Some v else None
  | None => None
  end.

(** forms.CharField(required=False): a missing value is the empty string,
    surrounding whitespace is stripped, a NUL character is refused. *)
Definition clean_comment_field (raw : option string) : option string :=
  let v := match raw with
           | Some s => strip s
           | None => ""
           end in
  if contains_nul v then None else Some v.

(** [decision == 'REJECTED'] *)
Definition decision_is (decision : option string) (name : string) : bool :=
  match decision with
  | Some d => String.eqb d name
  | None => false
  end.

(** [not comment] *)
Definition comment_falsy (comment : option string) : bool :=
  match comment with
  | Some s => str_falsy s
  | None => true
  end.

(** ApprovalDecisionForm.clean: [inr] is the raised ValidationError. *)
Definition ApprovalDecisionForm_clean (cleaned_data : DecisionCleaned)
  : DecisionCleaned + string :=
  let decision := cd_decision cleaned_data in
  let comment := cd_comment cleaned_data in
  if decision_is decision "REJECTED" && comment_falsy comment
  then inr "Please provide a reason for rejection."
  else inl cleaned_data.

(** [form.is_valid()] with [form.cleaned_data]: the fields are cleaned,
    then [clean] runs on what passed; the form is valid when neither
    step reported an error. *)
Definition ApprovalDecisionForm_is_valid (post : DecisionPost)
  : option DecisionCleaned :=
  let cleaned :=
    {| cd_decision := clean_decision_field (post_decision post);
       cd_comment := clean_comment_field (post_comment post) |} in
  match ApprovalDecisionForm_clean cleaned with
  | inl cleaned' =>
      match cd_decision cleaned', cd_comment cleaned' with
      | Some _, Some _ => Some cleaned'
      | _, _ => None
      end
  | inr _ => None
  end.

(** ** services.py *)

(** AuditLogService.log (called without a request: no address, no agent) *)
Definition AuditLogService_log (now : DateTime) (st : Store)
    (contract : option Z) (action : string) (actor : User)
    (metadata : list (string * Json)) : Store :=
  set_audit_logs
    (audit_logs st ++
       [{| al_contract := contract; al_action := action;
           al_actor := Some (u_pk actor); al_metadata := metadata;
           al_created_at := dt_stamp now |}])
    st.

(** ApprovalService.process_decision; [pk] is the key of [approval]. *)
Definition ApprovalService_process_decision (now : DateTime) (st : Store)
    (user : User) (pk : Z) (approval : AdditionalApproval)
    (decision : string) (comment : string) : Store * AdditionalApproval :=
  let approval' :=
    {| aa_contract := aa_contract approval;
       aa_requested_by := aa_requested_by approval;
       aa_approver := aa_approver approval;
       aa_status := decision;
       aa_reason := aa_reason approval;
       aa_decided_at := Some (dt_stamp now);
       aa_decision_comment := comment |} in
  let st1 := set_approvals (<[pk := approval']> (approvals st)) st in
  let action := if String.eqb decision "APPROVED" then "APPROVE" else "REJECT" in
  (AuditLogService_log now st1 (Some (aa_contract approval)) action user
     [("approval_id", JInt pk); ("comment", JStr comment)],
   approval').

(** A dict of Contract field values ([**data]): [None] is an absent key. *)
Record ContractData : Type := {
  d_title : option string;
  d_contract_number : option string;
  d_status : option string;
  d_category : option string;
  d_sub_category : option string;
  d_org_entity : option string;
  d_region_country : option string;
  d_bu_team : option (option Z);
  d_customer_or_vendor_name : option string;
  d_customer_or_vendor_address : option string;
  d_contract_type : option (option Z);
  d_value_amount : option (option Decimal);
  d_currency : option string;
  d_opportunity_id : option string;
  d_effective_date : option (option Z);
  d_end_date : option (option Z);
  d_auto_renewal : option bool;
  d_renewal_notice_date : option (option Z);
  d_assignment_status : option string;
  d_owner : option (option Z);
  d_is_confidential : option bool;
  d_created_by : option (option Z);
  d_tags : option (list Z)
}.

(** [Contract(id=new_id, **data)]: absent columns take the defaults
    declared in models.py. *)
Definition Contract_init (new_id : Z) (data : ContractData) : Contract :=
  {| c_id := new_id;
     c_contract_number := default "" (d_contract_number data);
     c_title := default "" (d_title data);
     c_status := default DRAFT (d_status data);
     c_category := default "OTHER" (d_category data);
     c_sub_category := default "" (d_sub_category data);
     c_org_entity := default "" (d_org_entity data);
     c_region_country := default "" (d_region_country data);
     c_bu_team := default None (d_bu_team data);
     c_customer_or_vendor_name := default "" (d_customer_or_vendor_name data);
     c_customer_or_vendor_address :=
       default "" (d_customer_or_vendor_address data);
     c_contract_type := default None (d_contract_type data);
     c_value_amount := default None (d_value_amount data);
     c_currency := default "INR" (d_currency data);
     c_opportunity_id := default "" (d_opportunity_id data);
     c_effective_date := default None (d_effective_date data);
     c_end_date := default None (d_end_date data);
     c_auto_renewal := default false (d_auto_renewal data);
     c_renewal_notice_date := default None (d_renewal_notice_date data);
     c_assignment_status := default "NOT_ASSIGNED" (d_assignment_status data);
     c_owner := default None (d_owner data);
     c_is_confidential := default false (d_is_confidential data);
     c_created_by := default None (d_created_by data) |}.

(** [for field, value in data.items(): setattr(contract, field, value)] *)
Definition Contract_setattrs (data : ContractData) (c : Contract) : Contract :=
  {| c_id := c_id c;
     c_contract_number := default (c_contract_number c) (d_contract_number data);
     c_title := default (c_title c) (d_title data);
     c_status := default (c_status c) (d_status data);
     c_category := default (c_category c) (d_category data);
     c_sub_category := default (c_sub_category c) (d_sub_category data);
     c_org_entity := default (c_org_entity c) (d_org_entity data);
     c_region_country := default (c_region_country c) (d_region_country data);
     c_bu_team := default (c_bu_team c) (d_bu_team data);
     c_customer_or_vendor_name :=
       default (c_customer_or_vendor_name c) (d_customer_or_vendor_name data);
     c_customer_or_vendor_address :=
       default (c_customer_or_vendor_address c)
         (d_customer_or_vendor_address data);
     c_contract_type := default (c_contract_type c) (d_contract_type data);
     c_value_amount := default (c_value_amount c) (d_value_amount data);
     c_currency := default (c_currency c) (d_currency data);
     c_opportunity_id := default (c_opportunity_id c) (d_opportunity_id data);
     c_effective_date := default (c_effective_date c) (d_effective_date data);
     c_end_date := default (c_end_date c) (d_end_date data);
     c_auto_renewal := default (c_auto_renewal c) (d_auto_renewal data);
     c_renewal_notice_date :=
       default (c_renewal_notice_date c) (d_renewal_notice_date data);
     c_assignment_status :=
       default (c_assignment_status c) (d_assignment_status data);
     c_owner := default (c_owner c) (d_owner data);
     c_is_confidential := default (c_is_confidential c) (d_is_confidential data);
     c_created_by := default (c_created_by c) (d_created_by data) |}.

(** [contract.tags.set(tags)] *)
Definition tags_set (st : Store) (contract : Z) (tags : list Z) : Store :=
  set_contract_tags
    (List.filter (fun r => negb (ct_contract r =? contract)) (contract_tags st)
       ++ List.map (fun t => {| ct_contract := contract; ct_tag := t |})
            (remove_dups tags))
    st.

(** An uploaded file object. *)
Record UploadedFile : Type := {
  uf_name : string;
  uf_size : Z;
  uf_content : string
}.

(** ContractOperationsService._create_contract_file *)
Definition ContractOperationsService__create_contract_file (st : Store)
    (user : User) (contract : Contract) (file : UploadedFile)
    (is_primary : bool) (description : string) : Store * Z :=
  ContractFile_save st None
    {| cf_contract := c_id contract;
       cf_original_filename := uf_name file;
       cf_file_size := uf_size file;
       cf_is_primary := is_primary;
       cf_description := description;
       cf_uploaded_by := Some (u_pk user) |}.

(** ContractOperationsService.create_contract; [new_id] is the UUID the
    new instance draws. *)
Definition ContractOperationsService_create_contract (now : DateTime)
    (new_id : Z) (st : Store) (user : User) (data : ContractData)
    (file : option UploadedFile) : Store * Contract :=
  let owner :=
    match d_owner data with
    | Some (Some o) => Some o
    | _ => Some (u_pk user)
    end in
  let tags := default [] (d_tags data) in
  let instance :=
    Contract_setattrs
      {| d_title := None; d_contract_number := None; d_status := None;
         d_category := None; d_sub_category := None; d_org_entity := None;
         d_region_country := None; d_bu_team := None;
         d_customer_or_vendor_name := None;
         d_customer_or_vendor_address := None; d_contract_type := None;
         d_value_amount := None; d_currency := None; d_opportunity_id := None;
         d_effective_date := None; d_end_date := None; d_auto_renewal := None;
         d_renewal_notice_date := None; d_assignment_status := None;
         d_owner := Some owner; d_is_confidential := None;
         d_created_by := Some (Some (u_pk user)); d_tags := None |}
      (Contract_init new_id data) in
  let '(st1, contract) := Contract_save now st instance in
  let st2 := match tags with
             | [] => st1
             | _ :: _ => tags_set st1 (c_id contract) tags
             end in
  let st3 :=
    match file with
    | Some f =>
        if str_falsy (uf_name f) then st2
        else fst (ContractOperationsService__create_contract_file
                    st2 user contract f true "")
    | None => st2
    end in
  let st4 :=
    set_versions
      (versions st3 ++
         [{| cv_contract := c_id contract; cv_version_number := 1;
             cv_label := "Initial Version"; cv_has_file := false;
             cv_notes := ""; cv_created_by := Some (u_pk user) |}])
      st3 in
  (AuditLogService_log now st4 (Some (c_id contract)) "CREATE_CONTRACT" user
     [("title", JStr (c_title contract)); ("status", JStr (c_status contract))],
   contract).

(** [list(data.keys())], in the order of the record. *)
Definition ContractData_keys (data : ContractData) : list string :=
  let key {A : Type} (name : string) (v : option A) : list string :=
    match v with Some _ => [name] | None => [] end in
  key "title" (d_title data) ++ key "contract_number" (d_contract_number data)
  ++ key "status" (d_status data) ++ key "category" (d_category data)
  ++ key "sub_category" (d_sub_category data)
  ++ key "org_entity" (d_org_entity data)
  ++ key "region_country" (d_region_country data)
  ++ key "bu_team" (d_bu_team data)
  ++ key "customer_or_vendor_name" (d_customer_or_vendor_name data)
  ++ key "customer_or_vendor_address" (d_customer_or_vendor_address data)
  ++ key "contract_type" (d_contract_type data)
  ++ key "value_amount" (d_value_amount data)
  ++ key "currency" (d_currency data)
  ++ key "opportunity_id" (d_opportunity_id data)
  ++ key "effective_date" (d_effective_date data)
  ++ key "end_date" (d_end_date data)
  ++ key "auto_renewal" (d_auto_renewal data)
  ++ key "renewal_notice_date" (d_renewal_notice_date data)
  ++ key "assignment_status" (d_assignment_status data)
  ++ key "owner" (d_owner data)
  ++ key "is_confidential" (d_is_confidential data)
  ++ key "created_by" (d_created_by data).

(** ContractOperationsService.update_contract *)
Definition ContractOperationsService_update_contract (now : DateTime)
    (st : Store) (user : User) (contract : Contract) (data : ContractData)
  : Store * Contract :=
  let old_status := c_status contract in
  let tags := d_tags data in
  let '(st1, contract') := Contract_save now st (Contract_setattrs data contract) in
  let st2 := match tags with
             | Some ts => tags_set st1 (c_id contract') ts
             | None => st1
             end in
  if negb (String.eqb (c_status contract') old_status) then
    (AuditLogService_log now st2 (Some (c_id contract')) "CHANGE_STATUS" user
       [("old_status", JStr old_status);
        ("new_status", JStr (c_status contract'))],
     contract')
  else
    (AuditLogService_log now st2 (Some (c_id contract')) "UPDATE_CONTRACT" user
       [("updated_fields", JStrs (ContractData_keys data))],
     contract').

(** [contract.versions], the version rows of the contract. *)
Definition contract_versions (st : Store) (contract : Z)
  : list ContractVersion :=
  List.filter (fun v => cv_contract v =? contract) (versions st).

(** [order_by('-version_number').first()]: a row of greatest number. *)
Fixpoint last_version (rows : list ContractVersion) : option ContractVersion :=
  match rows with
  | [] => None
  | v :: rest =>
      match last_version rest with
      | Some w => if cv_version_number v <? cv_version_number w
                  then Some w else Some v
      | None => Some v
      end
  end.

(** ContractOperationsService.add_version *)
Definition ContractOperationsService_add_version (now : DateTime)
    (st : Store) (user : User) (contract : Contract) (label : string)
    (file : option UploadedFile) (notes : string) : Store * ContractVersion :=
  let next_version :=
    match last_version (contract_versions st (c_id contract)) with
    | Some lv => cv_version_number lv + 1
    | None => 1
    end in
  let version :=
    {| cv_contract := c_id contract; cv_version_number := next_version;
       cv_label := label; cv_has_file := bool_decide (is_Some file);
       cv_notes := notes; cv_created_by := Some (u_pk user) |} in
  let st1 := set_versions (versions st ++ [version]) st in
  (AuditLogService_log now st1 (Some (c_id contract)) "ADD_VERSION" user
     [("version_number", JInt next_version); ("label", JStr label)],
   version).

(** ** views.py *)

Inductive Response : Type :=
| Redirect (name : string) (pk : option Z)
| RedirectStep (step : string)
| Render (template : string) (form_has_errors : bool).

(** ApprovalDetailView.post.  [get_object_or_404] raises Http404 when no
    approval has the key. *)
Definition ApprovalDetailView_post (now : DateTime) (st : Store)
    (request_user : User) (post : DecisionPost) (pk : Z)
  : PyResult (Store * Response) :=
  match approvals st !! pk with
  | None => Raise Http404
  | Some approval =>
      allowed ← can_approve_request (Some request_user) (Some approval);
      if negb allowed then Ok (st, Redirect "contracts:approvals" None)
      else if negb (String.eqb (aa_status approval) PENDING)
      then Ok (st, Redirect "contracts:approval_detail" (Some pk))
      else
        match ApprovalDecisionForm_is_valid post with
        | Some cleaned_data =>
            let decision := default "" (cd_decision cleaned_data) in
            let comment := default "" (cd_comment cleaned_data) in
            Ok (fst (ApprovalService_process_decision now st request_user pk
                       approval decision comment),
                Redirect "contracts:approvals" None)
        | None => Ok (st, Render "contracts/approval_detail.html" true)
        end
  end.

(** What one wizard step leaves in the session: the dict of its form's
    cleaned values. *)
Inductive StepData : Type :=
| MethodData (method : string)
| UploadData (file_name : string)
| NameData (title : string)
| BasicData (org_entity region_country : string) (bu_team : option Z)
    (category sub_category : string)
| PartyData (customer_or_vendor_name customer_or_vendor_address : string)
    (contract_type : option Z)
| DatesData (effective_date : Z) (end_date : option Z) (auto_renewal : bool)
    (renewal_notice_date : option Z)
| ValueData (value_amount : option string) (currency opportunity_id : string)
| OwnerTagsData (owner : option Z) (tags : list Z) (is_confidential : bool)
| UploadedFileInfo (name : string) (size : Z).

(** The session keys the wizard uses. *)
Record Session : Type := {
  contract_wizard : option (gmap string StepData);
  contract_wizard_file : option string;
  contract_wizard_file_name : option string
}.

(** A POST to the wizard.  [req_validate] is the outcome of validating the
    posted fields against a form class: its cleaned data, or [None] when
    the form is not valid. *)
Record WizardRequest : Type := {
  req_user : User;
  req_current_step : option string;
  req_action : option string;
  req_value_amount : option string;
  req_currency : option string;
  req_opportunity_id : option string;
  req_file : option UploadedFile;
  req_validate : string -> option StepData
}.

Definition STEPS : list string :=
  ["method"; "upload"; "name"; "basic"; "party"; "dates"; "value"; "owner_tags"].

(** [STEP_FORMS.get(step, ContractMethodForm)] *)
Definition STEP_FORMS (step : string) : string :=
  if String.eqb step "method" then "ContractMethodForm"
  else if String.eqb step "upload" then "ContractUploadForm"
  else if String.eqb step "name" then "ContractNameForm"
  else if String.eqb step "basic" then "ContractBasicInfoForm"
  else if String.eqb step "party" then "ContractPartyInfoForm"
  else if String.eqb step "dates" then "ContractDatesForm"
  else if String.eqb step "value" then "ContractValueForm"
  else if String.eqb step "owner_tags" then "ContractOwnerTagsForm"
  else "ContractMethodForm".

(** [STEPS.index(step) if step in STEPS else 0] *)
Fixpoint index_or_0 (step : string) (steps : list string) : nat :=
  match steps with
  | [] => O
  | s :: rest =>
      if String.eqb step s then O
      else if existsb (String.eqb step) rest then S (index_or_0 step rest)
      else O
  end.

(** [wizard_data.get('method', {}).get('method') == 'template'] *)
Definition method_is_template (wizard_data : gmap string StepData) : bool :=
  match wizard_data !! "method" with
  | Some (MethodData m) => String.eqb m "template"
  | _ => false
  end.

Section Wizard.

(** [Decimal(s)] of the decimal module: the value, or [None] where the
    constructor raises [InvalidOperation]. *)
Variable Decimal_of_str : string -> option Decimal.

(** ContractCreateWizardView._parse_decimal *)
Definition ContractCreateWizardView__parse_decimal (value : option string)
  : PyResult (option Decimal) :=
  match value with
  | None => Ok None
  | Some s =>
      if String.eqb s "" then Ok None
      else match Decimal_of_str s with
           | Some d => Ok (Some d)
           | None => Raise InvalidOperation
           end
  end.

(** ContractCreateWizardView._save_contract; the session holds the
    content and the name of the file of the upload step, and
    [SimpleUploadedFile] makes of them a file of that name whose size is
    the length of the content. *)
Definition ContractCreateWizardView__save_contract (now : DateTime)
    (new_id : Z) (st : Store) (request_user : User) (session : Session)
    (wizard_data : gmap string StepData) (as_draft : bool)
  : PyResult (Store * Session * Response) :=
  let name := wizard_data !! "name" in
  let basic := wizard_data !! "basic" in
  let party := wizard_data !! "party" in
  let dates := wizard_data !! "dates" in
  let value := wizard_data !! "value" in
  let owner_tags := wizard_data !! "owner_tags" in
  value_amount ←
    ContractCreateWizardView__parse_decimal
      match value with Some (ValueData v _ _) => v | _ => None end;
  let contract_data :=
    {| d_title :=
         Some match name with
              | Some (NameData t) => t
              | _ => "Untitled Contract"
              end;
       d_contract_number := None;
       d_status := Some (if as_draft then DRAFT else PENDING);
       d_category :=
         Some match basic with
              | Some (BasicData _ _ _ c _) => c
              | _ => "OTHER"
              end;
       d_sub_category :=
         Some match basic with Some (BasicData _ _ _ _ s) => s | _ => "" end;
       d_org_entity :=
         Some match basic with Some (BasicData o _ _ _ _) => o | _ => "" end;
       d_region_country :=
         Some match basic with Some (BasicData _ r _ _ _) => r | _ => "" end;
       d_bu_team :=
         Some match basic with Some (BasicData _ _ b _ _) => b | _ => None end;
       d_customer_or_vendor_name :=
         Some match party with Some (PartyData n _ _) => n | _ => "" end;
       d_customer_or_vendor_address :=
         Some match party with Some (PartyData _ a _) => a | _ => "" end;
       d_contract_type :=
         Some match party with Some (PartyData _ _ t) => t | _ => None end;
       d_value_amount := Some value_amount;
       d_currency :=
         Some match value with Some (ValueData _ c _) => c | _ => "INR" end;
       d_opportunity_id :=
         Some match value with Some (ValueData _ _ o) => o | _ => "" end;
       d_effective_date :=
         Some match dates with
              | Some (DatesData e _ _ _) => Some e
              | _ => None
              end;
       d_end_date :=
         Some match dates with Some (DatesData _ e _ _) => e | _ => None end;
       d_auto_renewal :=
         Some match dates with
              | Some (DatesData _ _ a _) => a
              | _ => false
              end;
       d_renewal_notice_date :=
         Some match dates with Some (DatesData _ _ _ r) => r | _ => None end;
       d_assignment_status := None;
       d_owner :=
         Some match owner_tags with
              | Some (OwnerTagsData (Some o) _ _) => Some o
              | _ => Some (u_pk request_user)
              end;
       d_is_confidential :=
         Some match owner_tags with
              | Some (OwnerTagsData _ _ c) => c
              | _ => false
              end;
       d_created_by := None;
       d_tags :=
         Some match owner_tags with
              | Some (OwnerTagsData _ t _) => t
              | _ => []
              end |} in
  let uploaded_file :=
    match contract_wizard_file session, contract_wizard_file_name session with
    | Some file_data, Some file_name =>
        if str_falsy file_data || str_falsy file_name then None
        else Some {| uf_name := file_name;
                     uf_size := Z.of_nat (String.length file_data);
                     uf_content := file_data |}
    | _, _ => None
    end in
  let '(st', contract) :=
    ContractOperationsService_create_contract now new_id st request_user
      contract_data uploaded_file in
  Ok (st',
      {| contract_wizard := None; contract_wizard_file := None;
         contract_wizard_file_name := None |},
      Redirect "contracts:detail" (Some (c_id contract))).

(** ContractCreateWizardView.post *)
Definition ContractCreateWizardView_post (now : DateTime) (new_id : Z)
    (st : Store) (session : Session) (request : WizardRequest)
  : PyResult (Store * Session * Response) :=
  let step := default "method" (req_current_step request) in
  let action := default "next" (req_action request) in
  let wizard_data := default ∅ (contract_wizard session) in
  if String.eqb action "back" then
    let current_index := index_or_0 step STEPS in
    match current_index with
    | S prev =>
        let prev_step := nth prev STEPS "method" in
        if String.eqb prev_step "upload" && method_is_template wizard_data
        then Ok (st, session, RedirectStep "method")
        else Ok (st, session, RedirectStep prev_step)
    | O => Ok (st, session, RedirectStep "method")
    end
  else if String.eqb action "save_draft" then
    ContractCreateWizardView__save_contract now new_id st (req_user request)
      session wizard_data true
  else if String.eqb step "value" then
    let value_amount := default "" (req_value_amount request) in
    let wizard_data' :=
      <[step := ValueData (if str_falsy value_amount then None
                           else Some value_amount)
                  (default "INR" (req_currency request))
                  (default "" (req_opportunity_id request))]> wizard_data in
    Ok (st,
        {| contract_wizard := Some wizard_data';
           contract_wizard_file := contract_wizard_file session;
           contract_wizard_file_name := contract_wizard_file_name session |},
        RedirectStep "owner_tags")
  else
    match req_validate request (STEP_FORMS step) with
    | Some cleaned_data =>
        let stored := <[step := cleaned_data]> wizard_data in
        let '(wizard_data', file_data, file_name) :=
          match req_file request with
          | Some f =>
              if String.eqb step "upload" then
                (<["uploaded_file" := UploadedFileInfo (uf_name f) (uf_size f)]>
                   stored,
                 Some (uf_content f), Some (uf_name f))
              else (stored, contract_wizard_file session,
                    contract_wizard_file_name session)
          | None => (stored, contract_wizard_file session,
                     contract_wizard_file_name session)
          end in
        let session' :=
          {| contract_wizard := Some wizard_data';
             contract_wizard_file := file_data;
             contract_wizard_file_name := file_name |} in
        let current_index := index_or_0 step STEPS in
        if String.eqb step "method" then
          match cleaned_data with
          | MethodData m =>
              if String.eqb m "template"
              then Ok (st, session', RedirectStep "name")
              else Ok (st, session', RedirectStep "upload")
          | _ => Ok (st, session', RedirectStep "upload")
          end
        else if (current_index <? length STEPS - 1)%nat then
          let next_step := nth (S current_index) STEPS "method" in
          if String.eqb next_step "upload" && method_is_template wizard_data'
          then Ok (st, session', RedirectStep "name")
          else Ok (st, session', RedirectStep next_step)
        else
          ContractCreateWizardView__save_contract now new_id st
            (req_user request) session' wizard_data' false
    | None => Ok (st, session, Render "contracts/contract_form.html" true)
    end.

(** ContractCreateWizardView.dispatch, for a POST *)
Definition ContractCreateWizardView_dispatch (now : DateTime) (new_id : Z)
    (st : Store) (session : Session) (request : WizardRequest)
  : PyResult (Store * Session * Response) :=
  if negb (can_create_contract (Some (req_user request)))
  then Ok (st, session, Redirect "contracts:dashboard" None)
  else ContractCreateWizardView_post now new_id st session request.

End Wizard.

(** ** Properties of stored data *)

(** At most one file of a contract is marked primary. *)
Definition at_most_one_primary (t : gmap Z ContractFile) : Prop :=
  forall k1 k2 f1 f2,
    t !! k1 = Some f1 -> t !! k2 = Some f2 ->
    cf_contract f1 = cf_contract f2 ->
    cf_is_primary f1 = true -> cf_is_primary f2 = true ->
    k1 = k2.

(** The writes that reach the file table when every write runs to its end
    before the next one starts: saving a file, deleting a contract, and
    the writes that neither mark a file primary nor move it to another
    contract (deleting a file, clearing [uploaded_by] when its user goes,
    and every operation on other tables). *)
Inductive files_step : Store -> Store -> Prop :=
| files_step_save st self_pk self :
    files_step st (fst (ContractFile_save st self_pk self))
| files_step_delete st pk :
    files_step st (Contract_delete st pk)
| files_step_other st st' :
    (forall k f', files st' !! k = Some f' ->
       exists f, files st !! k = Some f
         /\ cf_contract f' = cf_contract f
         /\ (cf_is_primary f' = true -> cf_is_primary f = true)) ->
    files_step st st'.

(** The states reached from the empty database by such writes, one at a
    time. *)
Inductive files_reachable : Store -> Prop :=
| files_reachable_empty : files_reachable empty_store
| files_reachable_step st st' :
    files_reachable st -> files_step st st' -> files_reachable st'.

(** The contract a wizard run has gathered in [wizard_data]: each field
    has the value its step left in the session, or its default when the
    step was not taken; [amount] is the amount of the value step as a
    decimal, [status] the status of the commit. The number is the one
    generated for a new contract, the owner the requesting user unless
    the last step named one. *)
Definition gathered_contract (now : DateTime) (new_id : Z) (user : User)
    (wizard_data : gmap string StepData) (amount : option Decimal)
    (status : string) : Contract :=
  let name := wizard_data !! "name" in
  let basic := wizard_data !! "basic" in
  let party := wizard_data !! "party" in
  let dates := wizard_data !! "dates" in
  let value := wizard_data !! "value" in
  let owner_tags := wizard_data !! "owner_tags" in
  {| c_id := new_id;
     c_contract_number :=
       "CNT-" +:+ strftime_Ym now +:+ "-"
         +:+ upper (py_prefix 8 (uuid_str new_id));
     c_title :=
       match name with Some (NameData t) => t | _ => "Untitled Contract" end;
     c_status := status;
     c_category :=
       match basic with Some (BasicData _ _ _ c _) => c | _ => "OTHER" end;
     c_sub_category :=
       match basic with Some (BasicData _ _ _ _ s) => s | _ => "" end;
     c_org_entity :=
       match basic with Some (BasicData o _ _ _ _) => o | _ => "" end;
     c_region_country :=
       match basic with Some (BasicData _ r _ _ _) => r | _ => "" end;
     c_bu_team :=
       match basic with Some (BasicData _ _ b _ _) => b | _ => None end;
     c_customer_or_vendor_name :=
       match party with Some (PartyData n _ _) => n | _ => "" end;
     c_customer_or_vendor_address :=
       match party with Some (PartyData _ a _) => a | _ => "" end;
     c_contract_type :=
       match party with Some (PartyData _ _ t) => t | _ => None end;
     c_value_amount := amount;
     c_currency :=
       match value with Some (ValueData _ c _) => c | _ => "INR" end;
     c_opportunity_id :=
       match value with Some (ValueData _ _ o) => o | _ => "" end;
     c_effective_date :=
       match dates with Some (DatesData e _ _ _) => Some e | _ => None end;
     c_end_date :=
       match dates with Some (DatesData _ e _ _) => e | _ => None end;
     c_auto_renewal :=
       match dates with Some (DatesData _ _ a _) => a | _ => false end;
     c_renewal_notice_date :=
       match dates with Some (DatesData _ _ _ r) => r | _ => None end;
     c_assignment_status := "NOT_ASSIGNED";
     c_owner :=
       match owner_tags with
       | Some (OwnerTagsData (Some o) _ _) => Some o
       | _ => Some (u_pk user)
       end;
     c_is_confidential :=
       match owner_tags with
       | Some (OwnerTagsData _ _ c) => c
       | _ => false
       end;
     c_created_by := Some (u_pk user) |}.

(** The amount the value step kept reads as [amount]: nothing was kept
    and there is no amount, or the text kept is the literal of the
    decimal [amount]. *)
Definition amount_reads (Decimal_of_str : string -> option Decimal)
    (kept : option string) (amount : option Decimal) : Prop :=
  (kept = None \/ kept = Some "") /\ amount = None
  \/ exists text d,
       kept = Some text /\ text <> "" /\ Decimal_of_str text = Some d
       /\ amount = Some d.

(** The file a wizard run keeps in the session: its name and content,
    when both are there and not empty. *)
Definition kept_file (session : Session) : option (string * string) :=
  match contract_wizard_file session, contract_wizard_file_name session with
  | Some file_data, Some file_name =>
      if String.eqb file_data "" || String.eqb file_name "" then None
      else Some (file_name, file_data)
  | _, _ => None
  end.

(** What committing a wizard run makes of the store [st]: the gathered
    contract is stored under the new identifier, with the tags of the
    last step, with the kept file as its primary file, with a first
    version and an audit entry; the other tables stay as they are. *)
Definition wizard_committed (now : DateTime) (new_id : Z) (user : User)
    (session : Session) (wizard_data : gmap string StepData)
    (amount : option Decimal) (status : string) (st st' : Store) : Prop :=
  let contract :=
    gathered_contract now new_id user wizard_data amount status in
  let tags :=
    match wizard_data !! "owner_tags" with
    | Some (OwnerTagsData _ t _) => t
    | _ => []
    end in
  contracts st' = <[new_id := contract]> (contracts st)
  /\ contract_tags st'
     = match tags with
       | [] => contract_tags st
       | _ :: _ =>
           (List.filter (fun r => negb (ct_contract r =? new_id))
              (contract_tags st)
            ++ List.map (fun t => {| ct_contract := new_id; ct_tag := t |})
                 (remove_dups tags))%list
       end
  /\ match kept_file session with
     | Some (file_name, file_data) =>
         let row :=
           {| cf_contract := new_id; cf_original_filename := file_name;
              cf_file_size := Z.of_nat (String.length file_data);
              cf_is_primary := true; cf_description := "";
              cf_uploaded_by := Some (u_pk user) |} in
         exists key,
           files st !! key = None
           /\ files st'
              = <[key := row]> (demote_other_primaries (files st) None row)
     | None => files st' = files st
     end
  /\ versions st'
     = (versions st
        ++ [{| cv_contract := new_id; cv_version_number := 1;
               cv_label := "Initial Version"; cv_has_file := false;
               cv_notes := ""; cv_created_by := Some (u_pk user) |}])%list
  /\ audit_logs st'
     = (audit_logs st
        ++ [{| al_contract := Some new_id; al_action := "CREATE_CONTRACT";
               al_actor := Some (u_pk user);
               al_metadata :=
                 [("title", JStr (c_title contract)); ("status", JStr status)];
               al_created_at := dt_stamp now |}])%list
  /\ shares st' = shares st
  /\ approvals st' = approvals st
  /\ clauses st' = clauses st
  /\ deviations st' = deviations st
  /\ risks st' = risks st
  /\ signatures st' = signatures st.

Definition ascii_is_digit (a : ascii) : bool :=
  let n := N_of_ascii a in ((48 <=? n) && (n <=? 57))%N.

Definition ascii_is_upper_alnum (a : ascii) : bool :=
  let n := N_of_ascii a in
  (((48 <=? n) && (n <=? 57)) || ((65 <=? n) && (n <=? 90)))%N.

Fixpoint string_forall (p : ascii -> bool) (s : string) : bool :=
  match s with
  | EmptyString => true
  | String a rest => p a && string_forall p rest
  end.





(** The shape CNT-<6 digits>-<8 digits or capitals>. *)
Definition contract_number_shape (s : string) : bool :=
  String.eqb (substring 0 4 s) "CNT-"
  && string_forall ascii_is_digit (substring 4 6 s)
  && String.eqb (substring 10 1 s) "-"
  && string_forall ascii_is_upper_alnum (substring 11 8 s)
  && (String.length s =? 19)%nat.

(** ** Sample records *)

Definition no_data : ContractData :=
  {| d_title := None; d_contract_number := None; d_status := None;
     d_category := None; d_sub_category := None; d_org_entity := None;
     d_region_country := None; d_bu_team := None;
     d_customer_or_vendor_name := None; d_customer_or_vendor_address := None;
     d_contract_type := None; d_value_amount := None; d_currency := None;
     d_opportunity_id := None; d_effective_date := None; d_end_date := None;
     d_auto_renewal := None; d_renewal_notice_date := None;
     d_assignment_status := None; d_owner := None; d_is_confidential := None;
     d_created_by := None; d_tags := None |}.

(** [User.objects.create_user]: no role or department attribute, no group. *)
Definition regular_user (pk : Z) : User :=
  {| u_pk := pk; u_is_authenticated := true; u_is_superuser := false;
     u_is_staff := false; u_role := None; u_groups := Some [];
     u_department := None |}.

(** A staff member: resolved to LEGAL_USER. *)
Definition staff_user (pk : Z) : User :=
  {| u_pk := pk; u_is_authenticated := true; u_is_superuser := false;
     u_is_staff := true; u_role := None; u_groups := Some [];
     u_department := None |}.

(** [User.objects.create_superuser] *)
Definition superuser (pk : Z) : User :=
  {| u_pk := pk; u_is_authenticated := true; u_is_superuser := true;
     u_is_staff := true; u_role := None; u_groups := Some [];
     u_department := None |}.

(** django.contrib.auth.models.AnonymousUser *)
Definition AnonymousUser : User :=
  {| u_pk := 0; u_is_authenticated := false; u_is_superuser := false;
     u_is_staff := false; u_role := None; u_groups := Some [];
     u_department := None |}.

(** A contract owned and created by the given users. *)
Definition sample_contract (pk : Z) (status : string) (owner created_by : Z)
    (confidential : bool) : Contract :=
  Contract_setattrs
    {| d_title := Some "Test Contract"; d_contract_number := Some "CNT-202401-00000000";
       d_status := Some status;
       d_category := None; d_sub_category := None; d_org_entity := None;
       d_region_country := None; d_bu_team := None;
       d_customer_or_vendor_name := Some "Test Company";
       d_customer_or_vendor_address := None;
       d_contract_type := None; d_value_amount := None; d_currency := None;
       d_opportunity_id := None; d_effective_date := None; d_end_date := None;
       d_auto_renewal := None; d_renewal_notice_date := None;
       d_assignment_status := None; d_owner := Some (Some owner);
       d_is_confidential := Some confidential;
       d_created_by := Some (Some created_by); d_tags := None |}
    (Contract_init pk no_data).

Definition sample_approval (contract requested_by approver : Z)
    (status : string) : AdditionalApproval :=
  {| aa_contract := contract; aa_requested_by := requested_by;
     aa_approver := approver; aa_status := status; aa_reason := "";
     aa_decided_at := None; aa_decision_comment := "" |}.

Definition sample_now : DateTime :=
  {| dt_year := 2024; dt_month := 1; dt_stamp := 1704067200 |}.

(** A member of the "Finance Viewer" group, in department [dept]. *)
Definition finance_viewer_user (pk dept : Z) : User :=
  {| u_pk := pk; u_is_authenticated := true; u_is_superuser := false;
     u_is_staff := false; u_role := None; u_groups := Some ["Finance Viewer"];
     u_department := Some (Some dept) |}.

(** A store whose only row is approval 1, requested by user 1 from user 2
    on contract 42. *)
Definition store_with_approval : Store :=
  set_approvals {[ 1 := sample_approval 42 1 2 PENDING ]} empty_store.

(** A store whose only row is a VIEW share of contract 42 with user 9. *)
Definition store_with_share : Store :=
  {| contracts := ∅; contract_tags := []; files := ∅; versions := [];
     shares := [{| cs_contract := 42; cs_shared_with_user := Some 9;
                   cs_shared_with_department := None;
                   cs_access_level := "VIEW"; cs_shared_by := Some 1 |}];
     approvals := ∅; clauses := []; deviations := [];
     risks := []; signatures := []; audit_logs := []; sequences := ∅ |}.

(** The dict of the service test: a title, a party and a category. *)
Definition sample_data : ContractData :=
  {| d_title := Some "New Contract"; d_contract_number := None;
     d_status := None; d_category := Some "SALES"; d_sub_category := None;
     d_org_entity := None; d_region_country := None; d_bu_team := None;
     d_customer_or_vendor_name := Some "Test Company";
     d_customer_or_vendor_address := None; d_contract_type := None;
     d_value_amount := None; d_currency := None; d_opportunity_id := None;
     d_effective_date := Some (Some 738886); d_end_date := None;
     d_auto_renewal := None; d_renewal_notice_date := None;
     d_assignment_status := None; d_owner := None; d_is_confidential := None;
     d_created_by := None; d_tags := None |}.

(** The store after user 1 created contract 42 in an empty database. *)
Definition store_after_creation : Store :=
  fst (ContractOperationsService_create_contract sample_now 42 empty_store
         (staff_user 1) sample_data None).

(** Cleaned data of the edit form (ContractForm) for the sample contract,
    with the number field retyped by the user. *)
Definition sample_edit_data : ContractData :=
  {| d_title := Some "Test Contract"; d_contract_number := Some "LEGACY-7";
     d_status := Some ACTIVE; d_category := Some "OTHER";
     d_sub_category := Some ""; d_org_entity := Some "";
     d_region_country := Some ""; d_bu_team := Some None;
     d_customer_or_vendor_name := Some "Test Company";
     d_customer_or_vendor_address := Some ""; d_contract_type := Some None;
     d_value_amount := Some None; d_currency := Some "INR";
     d_opportunity_id := Some ""; d_effective_date := Some None;
     d_end_date := Some None; d_auto_renewal := Some false;
     d_renewal_notice_date := Some None;
     d_assignment_status := Some "NOT_ASSIGNED"; d_owner := Some (Some 1);
     d_is_confidential := Some false; d_created_by := None; d_tags := None |}.

(** The same cleaned data with the number field left blank. *)
Definition sample_blank_edit_data : ContractData :=
  {| d_title := Some "Test Contract"; d_contract_number := Some "";
     d_status := Some ACTIVE; d_category := Some "OTHER";
     d_sub_category := Some ""; d_org_entity := Some "";
     d_region_country := Some ""; d_bu_team := Some None;
     d_customer_or_vendor_name := Some "Test Company";
     d_customer_or_vendor_address := Some ""; d_contract_type := Some None;
     d_value_amount := Some None; d_currency := Some "INR";
     d_opportunity_id := Some ""; d_effective_date := Some None;
     d_end_date := Some None; d_auto_renewal := Some false;
     d_renewal_notice_date := Some None;
     d_assignment_status := Some "NOT_ASSIGNED"; d_owner := Some (Some 1);
     d_is_confidential := Some false; d_created_by := None; d_tags := None |}.

Definition sample_file (contract : Z) (name : string) (primary : bool)
  : ContractFile :=
  {| cf_contract := contract; cf_original_filename := name;
     cf_file_size := 7; cf_is_primary := primary; cf_description := "";
     cf_uploaded_by := Some 1 |}.

(** The store after a first primary file was saved for contract 42. *)
Definition store_with_primary_file : Store :=
  fst (ContractFile_save empty_store None (sample_file 42 "test1.pdf" true)).

(** The session of a wizard run that chose the upload method, named the
    contract, and filled in the category and the effective date. *)
Definition sample_session : Session :=
  {| contract_wizard :=
       Some (<["method" := MethodData "upload"]>
               (<["name" := NameData "NDA Vendor X"]>
                  (<["basic" := BasicData "" "" None "LEGAL" ""]>
                     (<["dates" := DatesData 738886 None false None]> ∅))));
     contract_wizard_file := None;
     contract_wizard_file_name := None |}.

(** A parser of decimal literals that knows the amount 1000.50 and no
    other text. *)
Definition sample_Decimal_of_str (s : string) : option Decimal :=
  if String.eqb s "1000.50" then Some (100050, -2) else None.

(** A post of the value step with the amount [text]. *)
Definition value_step_request (text : string) : WizardRequest :=
  {| req_user := staff_user 1; req_current_step := Some "value";
     req_action := Some "next"; req_value_amount := Some text;
     req_currency := Some "INR"; req_opportunity_id := Some "";
     req_file := None; req_validate := fun _ => None |}.

(** A valid post of the last step: no owner, tags 3 and 4, confidential. *)
Definition owner_tags_request : WizardRequest :=
  {| req_user := staff_user 1; req_current_step := Some "owner_tags";
     req_action := Some "next"; req_value_amount := None;
     req_currency := None; req_opportunity_id := None; req_file := None;
     req_validate := fun _ => Some (OwnerTagsData None [3; 4] true) |}.

(** The sample session after the upload step kept the file contract.pdf
    and the value step kept the amount 1000.50. *)
Definition sample_session_with_file : Session :=
  {| contract_wizard :=
       Some (<["value" := ValueData (Some "1000.50") "USD" "OPP-1"]>
               (default ∅ (contract_wizard sample_session)));
     contract_wizard_file := Some "%PDF-1.4";
     contract_wizard_file_name := Some "contract.pdf" |}.

(** A post of the dates step asking to save as draft. *)
Definition save_draft_request : WizardRequest :=
  {| req_user := staff_user 1; req_current_step := Some "dates";
     req_action := Some "save_draft"; req_value_amount := None;
     req_currency := None; req_opportunity_id := None; req_file := None;
     req_validate := fun _ => None |}.

(** * Further parts of the application *)

(** ** permissions.py: the helpers built on [can_edit_contract] *)

Definition can_upload_files (st : Store) (user : option User)
    (contract : option Contract) : PyResult bool :=
  can_edit_contract st user contract.

Definition can_add_version (st : Store) (user : option User)
    (contract : option Contract) : PyResult bool :=
  can_edit_contract st user contract.

Definition can_manage_clauses (st : Store) (user : option User)
    (contract : option Contract) : PyResult bool :=
  can_edit_contract st user contract.

Definition can_manage_risks (st : Store) (user : option User)
    (contract : option Contract) : PyResult bool :=
  can_edit_contract st user contract.

Definition can_manage_deviations (st : Store) (user : option User)
    (contract : option Contract) : PyResult bool :=
  can_edit_contract st user contract.

Definition can_manage_signatures (st : Store) (user : option User)
    (contract : option Contract) : PyResult bool :=
  can_edit_contract st user contract.

(** ** models.py: the date properties of Contract *)

(** Contract.is_expiring_soon; dates are day numbers, [today] is
    [timezone.now().date()]. *)
Definition Contract_is_expiring_soon (today : Z) (self : Contract) : bool :=
  match c_end_date self with
  | Some end_date =>
      if String.eqb (c_status self) ACTIVE then
        let days_until_expiry := end_date - today in
        (0 <? days_until_expiry) && (days_until_expiry <=? 30)
      else false
  | None => false
  end.

(** Contract.is_expired *)
Definition Contract_is_expired (today : Z) (self : Contract) : bool :=
  match c_end_date self with
  | Some end_date => end_date <? today
  | None => false
  end.

(** ** services.py: queries *)

(** A queryset of contracts is the part of the table it selects; the
    order of its rows is not represented. The services are built for the
    signed-in user of a request: the ORM refuses a query or a row that
    names an anonymous user, so the properties of the services take the
    user to be authenticated. *)

(** The [Q] object of DashboardService._filter_user_accessible_contracts,
    evaluated on one contract. *)
Definition accessible_q (st : Store) (user : User) (c : Contract) : bool :=
  let user_contracts :=
    fk_is (c_owner c) (u_pk user) || fk_is (c_created_by c) (u_pk user) in
  let shared_with_user := exists_ (shares_with_user st c user) in
  let by_department :=
    match user_department user with
    | Some d =>
        exists_ (shares_with_department st c d) || fk_is (c_bu_team c) d
    | None => false
    end in
  let finance :=
    is_finance_viewer (Some user) && negb (c_is_confidential c) in
  let legal :=
    is_legal_user (Some user)
    && (exists_ (List.filter (fun a => aa_approver a =? u_pk user)
                   (contract_approvals st c))
        || exists_ (List.filter (fun a => aa_requested_by a =? u_pk user)
                      (contract_approvals st c))) in
  user_contracts || shared_with_user || by_department || finance || legal.

(** DashboardService._filter_user_accessible_contracts *)
Definition DashboardService__filter_user_accessible_contracts (st : Store)
    (user : User) (queryset : gmap Z Contract) : gmap Z Contract :=
  filter (fun kc => accessible_q st user (snd kc) = true) queryset.

(** ContractQueryService._get_base_queryset *)
Definition ContractQueryService__get_base_queryset (st : Store) (user : User)
  : gmap Z Contract :=
  if negb (is_legal_admin (Some user)) then
    DashboardService__filter_user_accessible_contracts st user (contracts st)
  else contracts st.

(** [approvals__status=PENDING]: the contract has a pending approval. *)
Definition has_pending_approval (st : Store) (c : Contract) : bool :=
  exists_ (List.filter (fun a => String.eqb (aa_status a) PENDING)
             (contract_approvals st c)).

(** ContractQueryService.get_contracts_for_tab, called without filters. *)
Definition ContractQueryService_get_contracts_for_tab (st : Store)
    (user : User) (tab : string) : gmap Z Contract :=
  let queryset := ContractQueryService__get_base_queryset st user in
  if String.eqb tab "draft" then
    filter (fun kc => String.eqb (c_status (snd kc)) DRAFT = true) queryset
  else if String.eqb tab "pending" then
    filter (fun kc => String.eqb (c_status (snd kc)) PENDING
                      || has_pending_approval st (snd kc) = true) queryset
  else if String.eqb tab "repository" then
    filter (fun kc => negb (String.eqb (c_status (snd kc)) DRAFT
                            && has_pending_approval st (snd kc)) = true)
      (filter (fun kc => negb (String.eqb (c_status (snd kc)) DRAFT
                               || String.eqb (c_status (snd kc)) PENDING)
                         = true) queryset)
  else queryset.

(** [order_by('end_date')], by insertion. *)
Fixpoint insert_by_end_date (c : Contract) (sorted : list Contract)
  : list Contract :=
  match sorted with
  | [] => [c]
  | d :: rest =>
      if default 0 (c_end_date c) <=? default 0 (c_end_date d)
      then c :: sorted
      else d :: insert_by_end_date c rest
  end.

Definition order_by_end_date (rows : list Contract) : list Contract :=
  List.fold_right insert_by_end_date [] rows.

(** What DashboardService.get_expiring_contracts returns. *)
Record Expiring : Type := {
  exp_count : nat;
  exp_items : list Contract
}.

(** DashboardService.get_expiring_contracts; [today] is [self.today]. *)
Definition DashboardService_get_expiring_contracts (st : Store) (user : User)
    (today : Z) (days : Z) : Expiring :=
  let expiry_date := today + days in
  let base :=
    filter (fun kc =>
              String.eqb (c_status (snd kc)) ACTIVE
              && match c_end_date (snd kc) with
                 | Some end_date =>
                     (end_date <=? expiry_date) && (today <=? end_date)
                 | None => false
                 end = true)
      (contracts st) in
  let queryset :=
    if negb (is_legal_admin (Some user)) then
      DashboardService__filter_user_accessible_contracts st user base
    else base in
  {| exp_count := size queryset;
     exp_items :=
       firstn 10 (order_by_end_date (List.map snd (map_to_list queryset))) |}.

(** ** services.py: operations *)

(** An object passed to a service together with what [str] shows of it. *)
Record Named : Type := {
  named_pk : Z;
  named_str : string
}.

(** ApprovalService.create_approval_request; the approval starts with no
    decision and no comment ([due_date] goes to a column the rows here do
    not carry). *)
Definition ApprovalService_create_approval_request (now : DateTime)
    (st : Store) (user : User) (contract : Contract) (approver : Named)
    (reason : string) : Store * Z :=
  let pk := next_pk st "contracts_additional_approval" (pks (approvals st)) in
  let approval :=
    {| aa_contract := c_id contract; aa_requested_by := u_pk user;
       aa_approver := named_pk approver; aa_status := PENDING;
       aa_reason := reason; aa_decided_at := None;
       aa_decision_comment := "" |} in
  let st1 :=
    set_approvals (<[pk := approval]> (approvals st))
      (note_pk "contracts_additional_approval" pk st) in
  (AuditLogService_log now st1 (Some (c_id contract)) "CREATE_APPROVAL" user
     [("approval_id", JInt pk); ("approver", JStr (named_str approver));
      ("reason", JStr reason)],
   pk).

Definition set_status (s : string) (c : Contract) : Contract :=
  {| c_id := c_id c;
     c_contract_number := c_contract_number c;
     c_title := c_title c;
     c_status := s;
     c_category := c_category c;
     c_sub_category := c_sub_category c;
     c_org_entity := c_org_entity c;
     c_region_country := c_region_country c;
     c_bu_team := c_bu_team c;
     c_customer_or_vendor_name := c_customer_or_vendor_name c;
     c_customer_or_vendor_address := c_customer_or_vendor_address c;
     c_contract_type := c_contract_type c;
     c_value_amount := c_value_amount c;
     c_currency := c_currency c;
     c_opportunity_id := c_opportunity_id c;
     c_effective_date := c_effective_date c;
     c_end_date := c_end_date c;
     c_auto_renewal := c_auto_renewal c;
     c_renewal_notice_date := c_renewal_notice_date c;
     c_assignment_status := c_assignment_status c;
     c_owner := c_owner c;
     c_is_confidential := c_is_confidential c;
     c_created_by := c_created_by c |}.

(** ContractOperationsService.change_status *)
Definition ContractOperationsService_change_status (now : DateTime)
    (st : Store) (user : User) (contract : Contract) (new_status : string)
    (reason : string) : Store * Contract :=
  let old_status := c_status contract in
  let '(st1, contract') := Contract_save now st (set_status new_status contract) in
  (AuditLogService_log now st1 (Some (c_id contract')) "CHANGE_STATUS" user
     [("old_status", JStr old_status); ("new_status", JStr new_status);
      ("reason", JStr reason)],
   contract').

(** ContractOperationsService.upload_file *)
Definition ContractOperationsService_upload_file (now : DateTime)
    (st : Store) (user : User) (contract : Contract) (file : UploadedFile)
    (is_primary : bool) (description : string) : Store * Z :=
  let '(st1, pk) :=
    ContractOperationsService__create_contract_file st user contract file
      is_primary description in
  (AuditLogService_log now st1 (Some (c_id contract)) "ADD_FILE" user
     [("filename", JStr (uf_name file)); ("is_primary", JBool is_primary)],
   pk).

(** The database refusing a row. *)
Inductive DbError : Type :=
| IntegrityError.

(** The check constraint share_user_or_department of ContractShare. *)
Definition share_user_or_department (s : ContractShare) : bool :=
  match cs_shared_with_user s, cs_shared_with_department s with
  | Some _, None => true
  | None, Some _ => true
  | _, _ => false
  end.

(** ContractOperationsService.share_contract; nothing is stored or logged
    when the row breaks the check constraint. *)
Definition ContractOperationsService_share_contract (now : DateTime)
    (st : Store) (user_ : User) (contract : Contract) (user : option Named)
    (department : option Named) (access_level : string)
  : DbError + Store * ContractShare :=
  let share :=
    {| cs_contract := c_id contract;
       cs_shared_with_user := named_pk <$> user;
       cs_shared_with_department := named_pk <$> department;
       cs_access_level := access_level;
       cs_shared_by := Some (u_pk user_) |} in
  if share_user_or_department share then
    let st1 :=
      {| contracts := contracts st; contract_tags := contract_tags st;
         files := files st; versions := versions st;
         shares := shares st ++ [share]; approvals := approvals st;
         clauses := clauses st; deviations := deviations st;
         risks := risks st; signatures := signatures st;
         audit_logs := audit_logs st; sequences := sequences st |} in
    inr (AuditLogService_log now st1 (Some (c_id contract)) "SHARE" user_
           [("shared_with_user",
             match user with Some n => JStr (named_str n) | None => JNull end);
            ("shared_with_department",
             match department with
             | Some n => JStr (named_str n)
             | None => JNull
             end);
            ("access_level", JStr access_level)],
         share)
  else inl IntegrityError.

(** ** forms.py: the other forms with rules of their own *)

(** ContractFileUploadForm.clean_file (and ContractUploadForm.clean_file,
    which has the same rule) on the file its field has cleaned. *)
Definition ContractFileUploadForm_clean_file (file : option UploadedFile)
  : option UploadedFile + string :=
  match file with
  | Some f =>
      if negb (str_falsy (uf_name f)) && (20 * 1024 * 1024 <? uf_size f)
      then inr "File size must be under 20MB."
      else inl file
  | None => inl file
  end.

(** A posted upload form: the file as the file field has validated it
    ([None] when it refused it), the checkbox, the raw description. *)
Record UploadPost : Type := {
  up_file : option UploadedFile;
  up_is_primary : bool;
  up_description : option string
}.

(** [form.is_valid()] of ContractFileUploadForm, with the cleaned file,
    flag and description. *)
Definition ContractFileUploadForm_is_valid (post : UploadPost)
  : option (UploadedFile * bool * string) :=
  match up_file post, clean_comment_field (up_description post) with
  | Some _, Some description =>
      match ContractFileUploadForm_clean_file (up_file post) with
      | inl (Some f) => Some (f, up_is_primary post, description)
      | _ => None
      end
  | _, _ => None
  end.

(** What the fields of ContractShareForm have cleaned: the raw choice
    fields, and for the two model choices the selected object, [Some None]
    when nothing is selected and [None] when the field refused the value. *)
Record SharePost : Type := {
  sp_share_type : option string;
  sp_shared_with_user : option (option Named);
  sp_shared_with_department : option (option Named);
  sp_access_level : option string
}.

(** [cleaned_data] of ContractShareForm: [None] is a missing key or the
    value [None]. *)
Record ShareCleaned : Type := {
  sc_share_type : option string;
  sc_shared_with_user : option Named;
  sc_shared_with_department : option Named;
  sc_access_level : option string
}.

(** A required ChoiceField. *)
Definition clean_choice_field (choices : list string) (raw : option string)
  : option string :=
  match raw with
  | Some v => if existsb (String.eqb v) choices then Some v else None
  | None => None
  end.

(** ContractShareForm.clean *)
Definition ContractShareForm_clean (cleaned_data : ShareCleaned)
  : ShareCleaned + string :=
  let share_type := sc_share_type cleaned_data in
  let user := sc_shared_with_user cleaned_data in
  let dept := sc_shared_with_department cleaned_data in
  if decision_is share_type "user" && negb (bool_decide (is_Some user))
  then inr "Please select a user to share with."
  else if decision_is share_type "department"
          && negb (bool_decide (is_Some dept))
  then inr "Please select a department to share with."
  else if decision_is share_type "user" then
    inl {| sc_share_type := share_type; sc_shared_with_user := user;
           sc_shared_with_department := None;
           sc_access_level := sc_access_level cleaned_data |}
  else
    inl {| sc_share_type := share_type; sc_shared_with_user := None;
           sc_shared_with_department := dept;
           sc_access_level := sc_access_level cleaned_data |}.

(** [form.is_valid()] of ContractShareForm with its [cleaned_data]. *)
Definition ContractShareForm_is_valid (post : SharePost)
  : option ShareCleaned :=
  let share_type := clean_choice_field ["user"; "department"] (sp_share_type post) in
  let access_level := clean_choice_field ["VIEW"; "EDIT"] (sp_access_level post) in
  let cleaned :=
    {| sc_share_type := share_type;
       sc_shared_with_user := mjoin (sp_shared_with_user post);
       sc_shared_with_department := mjoin (sp_shared_with_department post);
       sc_access_level := access_level |} in
  match ContractShareForm_clean cleaned with
  | inl cleaned' =>
      match share_type, access_level, sp_shared_with_user post,
            sp_shared_with_department post with
      | Some _, Some _, Some _, Some _ => Some cleaned'
      | _, _, _, _ => None
      end
  | inr _ => None
  end.

(** The two fields of a posted status form, [None] when absent. *)
Record StatusPost : Type := {
  post_new_status : option string;
  post_reason : option string
}.

(** Contract.Status.choices *)
Definition STATUS_CHOICES : list string :=
  [DRAFT; PENDING; ACTIVE; EXPIRED; TERMINATED; ARCHIVED].

(** [form.is_valid()] of StatusChangeForm with the cleaned status and
    reason. *)
Definition StatusChangeForm_is_valid (post : StatusPost)
  : option (string * string) :=
  match clean_choice_field STATUS_CHOICES (post_new_status post),
        clean_comment_field (post_reason post) with
  | Some new_status, Some reason => Some (new_status, reason)
  | _, _ => None
  end.

(** ** views.py: the views that change a contract *)

(** ContractStatusChangeView.post *)
Definition ContractStatusChangeView_post (now : DateTime) (st : Store)
    (request_user : User) (post : StatusPost) (pk : Z)
  : PyResult (Store * Response) :=
  match contracts st !! pk with
  | None => Raise Http404
  | Some contract =>
      allowed ← can_change_status st (Some request_user) (Some contract);
      if negb allowed then Ok (st, Redirect "contracts:detail" (Some pk))
      else
        match StatusChangeForm_is_valid post with
        | Some (new_status, reason) =>
            Ok (fst (ContractOperationsService_change_status now st
                       request_user contract new_status reason),
                Redirect "contracts:detail" (Some pk))
        | None => Ok (st, Redirect "contracts:detail" (Some pk))
        end
  end.

(** ContractShareCreateView.post; [inl] is an IntegrityError leaving the
    view. *)
Definition ContractShareCreateView_post (now : DateTime) (st : Store)
    (request_user : User) (post : SharePost) (pk : Z)
  : PyResult (DbError + Store * Response) :=
  match contracts st !! pk with
  | None => Raise Http404
  | Some contract =>
      allowed ← can_share_contract (Some request_user) (Some contract);
      if negb allowed then Ok (inr (st, Redirect "contracts:detail" (Some pk)))
      else
        match ContractShareForm_is_valid post with
        | Some cleaned_data =>
            match ContractOperationsService_share_contract now st request_user
                    contract (sc_shared_with_user cleaned_data)
                    (sc_shared_with_department cleaned_data)
                    (default "" (sc_access_level cleaned_data)) with
            | inr (st', _) => Ok (inr (st', Redirect "contracts:detail" (Some pk)))
            | inl e => Ok (inl e)
            end
        | None => Ok (inr (st, Redirect "contracts:detail" (Some pk)))
        end
  end.

(** ContractFileUploadView.post *)
Definition ContractFileUploadView_post (now : DateTime) (st : Store)
    (request_user : User) (post : UploadPost) (pk : Z)
  : PyResult (Store * Response) :=
  match contracts st !! pk with
  | None => Raise Http404
  | Some contract =>
      allowed ← can_upload_files st (Some request_user) (Some contract);
      if negb allowed then Ok (st, Redirect "contracts:detail" (Some pk))
      else
        match ContractFileUploadForm_is_valid post with
        | Some (file, is_primary, description) =>
            Ok (fst (ContractOperationsService_upload_file now st request_user
                       contract file is_primary description),
                Redirect "contracts:detail" (Some pk))
        | None => Ok (st, Redirect "contracts:detail" (Some pk))
        end
  end.

(** ContractVersionCreateView.post; [form] is the cleaned label and notes
    of a valid ContractVersionForm, [file] is [request.FILES.get('file')]. *)
Definition ContractVersionCreateView_post (now : DateTime) (st : Store)
    (request_user : User) (form : option (string * string))
    (file : option UploadedFile) (pk : Z) : PyResult (Store * Response) :=
  match contracts st !! pk with
  | None => Raise Http404
  | Some contract =>
      allowed ← can_add_version st (Some request_user) (Some contract);
      if negb allowed then Ok (st, Redirect "contracts:detail" (Some pk))
      else
        match form with
        | Some (label, notes) =>
            Ok (fst (ContractOperationsService_add_version now st request_user
                       contract label file notes),
                Redirect "contracts:detail" (Some pk))
        | None => Ok (st, Redirect "contracts:detail" (Some pk))
        end
  end.

(** ApprovalRequestCreateView.post; [form] is the cleaned approver and
    reason of a valid AdditionalApprovalRequestForm. *)
Definition ApprovalRequestCreateView_post (now : DateTime) (st : Store)
    (request_user : User) (form : option (Named * string)) (pk : Z)
  : PyResult (Store * Response) :=
  match contracts st !! pk with
  | None => Raise Http404
  | Some contract =>
      allowed ← can_manage_approvals st (Some request_user) (Some contract);
      if negb allowed then Ok (st, Redirect "contracts:detail" (Some pk))
      else
        match form with
        | Some (approver, reason) =>
            Ok (fst (ApprovalService_create_approval_request now st
                       request_user contract approver reason),
                Redirect "contracts:detail" (Some pk))
        | None => Ok (st, Redirect "contracts:detail" (Some pk))
        end
  end.

(** What ApprovalDetailView.get answers. *)
Inductive ApprovalPage : Type :=
| ApprovalsList
| ApprovalDetail (approval : AdditionalApproval) (can_decide : bool).

(** [row.user == request.user] for the user a foreign key column points
    to: an anonymous user is no row of the user table. *)
Definition same_user (fk : Z) (user : User) : bool :=
  u_is_authenticated user && (fk =? u_pk user).

(** ApprovalDetailView.get *)
Definition ApprovalDetailView_get (st : Store) (request_user : User) (pk : Z)
  : PyResult ApprovalPage :=
  match approvals st !! pk with
  | None => Raise Http404
  | Some approval =>
      if negb (is_legal_admin (Some request_user))
         && negb (same_user (aa_approver approval) request_user)
         && negb (same_user (aa_requested_by approval) request_user)
      then Ok ApprovalsList
      else
        allowed ← can_approve_request (Some request_user) (Some approval);
        Ok (ApprovalDetail approval
              (allowed && String.eqb (aa_status approval) "PENDING"))
  end.

(** ** services.py: the approvals of a user *)

(** The [filters] dict of get_approvals_for_user: [None] is an absent
    key. *)
Record ApprovalFilters : Type := {
  flt_status : option string;
  flt_assigned_to_me : option bool;
  flt_requested_by_me : option bool
}.

(** [if filters:] for a dict: it has a key. *)
Definition filters_truthy (filters : option ApprovalFilters) : bool :=
  match filters with
  | Some f =>
      bool_decide (is_Some (flt_status f))
      || bool_decide (is_Some (flt_assigned_to_me f))
      || bool_decide (is_Some (flt_requested_by_me f))
  | None => false
  end.

(** ApprovalService.get_approvals_for_user, as the set of its rows. *)
Definition ApprovalService_get_approvals_for_user (st : Store) (user : User)
    (filters : option ApprovalFilters) : gmap Z AdditionalApproval :=
  let queryset := approvals st in
  let queryset :=
    if negb (is_legal_admin (Some user)) then
      filter (fun ka => (aa_approver (snd ka) =? u_pk user)
                        || (aa_requested_by (snd ka) =? u_pk user) = true)
        queryset
    else queryset in
  if filters_truthy filters then
    let status := filters ≫= flt_status in
    let queryset :=
      match status with
      | Some s =>
          if negb (str_falsy s)
          then filter (fun ka => String.eqb (aa_status (snd ka)) s = true)
                 queryset
          else queryset
      | None => queryset
      end in
    let queryset :=
      if default false (filters ≫= flt_assigned_to_me)
      then filter (fun ka => (aa_approver (snd ka) =? u_pk user) = true)
             queryset
      else queryset in
    let queryset :=
      if default false (filters ≫= flt_requested_by_me)
      then filter (fun ka => (aa_requested_by (snd ka) =? u_pk user) = true)
             queryset
      else queryset in
    queryset
  else queryset.

(** ** views.py: the edit view *)

(** ContractUpdateView, for a POST: [dispatch], then the form handling of
    UpdateView. [form] is the [cleaned_data] of a valid ContractForm,
    [None] when the form is not valid. The form is a ModelForm bound to
    [self.object]: validating it writes the cleaned values onto that
    object, which is the object [form_valid] then hands to the service. *)
Definition ContractUpdateView_post (now : DateTime) (st : Store)
    (request_user : User) (form : option ContractData) (pk : Z)
  : PyResult (Store * Response) :=
  match contracts st !! pk with
  | None => Raise Http404
  | Some object =>
      allowed ← can_edit_contract st (Some request_user) (Some object);
      if negb allowed
      then Ok (st, Redirect "contracts:detail" (Some (c_id object)))
      else
        match form with
        | Some cleaned_data =>
            let object' := Contract_setattrs cleaned_data object in
            Ok (fst (ContractOperationsService_update_contract now st
                       request_user object' cleaned_data),
                Redirect "contracts:detail" (Some (c_id object')))
        | None => Ok (st, Render "contracts/contract_edit.html" true)
        end
  end.

(** ** views.py: clauses and deviations *)

Definition set_clauses (t : list Clause) (st : Store) : Store :=
  {| contracts := contracts st; contract_tags := contract_tags st;
     files := files st; versions := versions st; shares := shares st;
     approvals := approvals st; clauses := t; deviations := deviations st;
     risks := risks st; signatures := signatures st;
     audit_logs := audit_logs st; sequences := sequences st |}.

Definition set_deviations (t : list Deviation) (st : Store) : Store :=
  {| contracts := contracts st; contract_tags := contract_tags st;
     files := files st; versions := versions st; shares := shares st;
     approvals := approvals st; clauses := clauses st; deviations := t;
     risks := risks st; signatures := signatures st;
     audit_logs := audit_logs st; sequences := sequences st |}.

(** ClauseCreateView.post; [form] is the cleaned label of a valid
    ClauseForm, [None] when the form is not valid (its other fields go to
    columns the rows here do not carry). *)
Definition ClauseCreateView_post (now : DateTime) (st : Store)
    (request_user : User) (form : option string) (pk : Z)
  : PyResult (Store * Response) :=
  match contracts st !! pk with
  | None => Raise Http404
  | Some contract =>
      allowed ← can_edit_contract st (Some request_user) (Some contract);
      if negb allowed then Ok (st, Redirect "contracts:detail" (Some pk))
      else
        match form with
        | Some label =>
            let clause_id :=
              next_pk st "contracts_clause" (List.map cl_pk (clauses st)) in
            let st1 :=
              set_clauses
                (clauses st ++ [{| cl_pk := clause_id;
                                   cl_contract := c_id contract;
                                   cl_label := label |}])
                (note_pk "contracts_clause" clause_id st) in
            Ok (AuditLogService_log now st1 (Some (c_id contract)) "ADD_CLAUSE"
                  request_user
                  [("clause_id", JInt clause_id); ("label", JStr label)],
                Redirect "contracts:detail" (Some pk))
        | None => Ok (st, Redirect "contracts:detail" (Some pk))
        end
  end.

(** The clause field of [DeviationForm(request.POST, contract=contract)]:
    a choice, not required, among [Clause.objects.filter(contract=contract)];
    [raw] is the posted key, if any. [Some None] is no clause, [None] a
    choice the field refuses. *)
Definition DeviationForm_clean_clause (st : Store) (contract : Contract)
    (raw : option Z) : option (option Z) :=
  match raw with
  | None => Some None
  | Some k =>
      if existsb (fun cl => (cl_pk cl =? k) && (cl_contract cl =? c_id contract))
           (clauses st)
      then Some (Some k)
      else None
  end.

(** A posted deviation form: the key chosen for the clause, and the
    description and risk level as their fields have cleaned them ([None]
    when one of them is refused). *)
Record DeviationPost : Type := {
  dp_clause : option Z;
  dp_fields : option (string * string)
}.

(** DeviationCreateView.post *)
Definition DeviationCreateView_post (now : DateTime) (st : Store)
    (request_user : User) (post : DeviationPost) (pk : Z)
  : PyResult (Store * Response) :=
  match contracts st !! pk with
  | None => Raise Http404
  | Some contract =>
      allowed ← can_edit_contract st (Some request_user) (Some contract);
      if negb allowed then Ok (st, Redirect "contracts:detail" (Some pk))
      else
        match DeviationForm_clean_clause st contract (dp_clause post),
              dp_fields post with
        | Some clause, Some (description, risk_level) =>
            let st1 :=
              set_deviations
                (deviations st ++ [{| dv_contract := c_id contract;
                                      dv_clause := clause;
                                      dv_description := description |}])
                st in
            Ok (AuditLogService_log now st1 (Some (c_id contract))
                  "ADD_DEVIATION" request_user
                  [("risk_level", JStr risk_level)],
                Redirect "contracts:detail" (Some pk))
        | _, _ => Ok (st, Redirect "contracts:detail" (Some pk))
        end
  end.

(** Clauses have keys of their own, and the clause a deviation refers to
    is a stored clause of the deviation's contract. *)
Definition deviations_within_contract (st : Store) : Prop :=
  NoDup (List.map cl_pk (clauses st))
  /\ forall d k,
       In d (deviations st) ->
       dv_clause d = Some k ->
       exists cl,
         In cl (clauses st) /\ cl_pk cl = k /\ cl_contract cl = dv_contract d.

(** ** views.py: the views that read a contract *)

(** ContractDetailView.get; the address and the agent of the request go
    to columns of the audit entry that the rows here do not carry. *)
Definition ContractDetailView_get (now : DateTime) (st : Store)
    (request_user : User) (pk : Z) : PyResult (Store * Response) :=
  match contracts st !! pk with
  | None => Raise Http404
  | Some contract =>
      allowed ← can_view_contract st (Some request_user) (Some contract);
      if negb allowed then Ok (st, Redirect "contracts:list" None)
      else
        Ok (AuditLogService_log now st (Some (c_id contract)) "VIEW"
              request_user [],
            Render "contracts/contract_detail.html" false)
  end.

(** What ContractFileDownloadView.get answers. *)
Inductive DownloadResponse : Type :=
| HttpResponseForbidden
| FileResponse (filename : string).

(** ContractFileDownloadView.get *)
Definition ContractFileDownloadView_get (now : DateTime) (st : Store)
    (request_user : User) (pk file_id : Z)
  : PyResult (Store * DownloadResponse) :=
  match contracts st !! pk with
  | None => Raise Http404
  | Some contract =>
      allowed ← can_view_contract st (Some request_user) (Some contract);
      if negb allowed then Ok (st, HttpResponseForbidden)
      else
        match files st !! file_id with
        | Some contract_file =>
            if cf_contract contract_file =? c_id contract then
              Ok (AuditLogService_log now st (Some (c_id contract)) "DOWNLOAD"
                    request_user
                    [("filename", JStr (cf_original_filename contract_file))],
                  FileResponse (cf_original_filename contract_file))
            else Raise Http404
        | None => Raise Http404
        end
  end.

(** ** services.py: the client address of an audit entry *)

(** The two request headers AuditLogService._get_client_ip reads. *)
Record RequestMeta : Type := {
  HTTP_X_FORWARDED_FOR : option string;
  REMOTE_ADDR : option string
}.

(** [s.split(',')[0]] *)
Fixpoint before_comma (s : string) : string :=
  match s with
  | EmptyString => EmptyString
  | String a rest =>
      if Ascii.eqb a "," then EmptyString else String a (before_comma rest)
  end.

(** AuditLogService._get_client_ip *)
Definition AuditLogService__get_client_ip (meta : RequestMeta)
  : option string :=
  match HTTP_X_FORWARDED_FOR meta with
  | Some x_forwarded_for =>
      if str_falsy x_forwarded_for then REMOTE_ADDR meta
      else Some (strip (before_comma x_forwarded_for))
  | None => REMOTE_ADDR meta
  end.

(** ** middleware.py *)

(** MockUserMiddleware.get_mock_user.  [cache] is [self._mock_user],
    [users] the user table by username, [new_pk] the key the database
    gives a new user; a user fetched or created by the manager is an
    authenticated user of the stock user model. Returns the cache, the
    table and the user. *)
Definition MockUserMiddleware_get_mock_user (cache : option User)
    (users : gmap string User) (new_pk : Z)
  : option User * gmap string User * User :=
  match cache with
  | Some u => (cache, users, u)
  | None =>
      match users !! "demo_user" with
      | Some u => (Some u, users, u)
      | None =>
          let u :=
            {| u_pk := new_pk; u_is_authenticated := true;
               u_is_superuser := true; u_is_staff := true; u_role := None;
               u_groups := Some []; u_department := None |} in
          (Some u, <["demo_user" := u]> users, u)
      end
  end.

(** MockUserMiddleware.__call__, up to the call of the view: the cache,
    the user table and the [request.user] the view will see. *)
Definition MockUserMiddleware_call (cache : option User)
    (users : gmap string User) (new_pk : Z) (request_user : User)
  : option User * gmap string User * User :=
  if negb (u_is_authenticated request_user)
  then MockUserMiddleware_get_mock_user cache users new_pk
  else (cache, users, request_user).

(** ** templatetags/contracts_extras.py *)

(** [len(s)]: the number of characters of [s]. *)
Definition py_len (s : string) : Z := Z.of_nat (String.length s).

(** [s[:k]] for any integer [k]. *)
Definition slice_to (k : Z) (s : string) : string :=
  let stop := if k <? 0 then Z.max (py_len s + k) 0 else Z.min k (py_len s) in
  substring 0 (Z.to_nat stop) s.

(** [s[j:]] for any integer [j]. *)
Definition slice_from (j : Z) (s : string) : string :=
  let start := if j <? 0 then Z.max (py_len s + j) 0 else Z.min j (py_len s) in
  substring (Z.to_nat start) (Z.to_nat (py_len s - start)) s.

(** truncate_middle *)
Definition truncate_middle (value : string) (length : Z) : string :=
  if str_falsy value || (py_len value <=? length) then value
  else
    let half := (length - 3) / 2 in
    slice_to half value +:+ "..." +:+ slice_from (- half) value.

(** days_until; [today] is [timezone.now().date()]. *)
Definition days_until (today : Z) (date : option Z) : option Z :=
  match date with
  | Some d => Some (d - today)
  | None => None
  end.

(** The template filter is_expiring_soon. *)
Definition is_expiring_soon (today : Z) (date : option Z) (days : Z) : bool :=
  match date with
  | Some d => (today <=? d) && (d <=? today + days)
  | None => false
  end.

(** expiry_class *)
Definition expiry_class (today : Z) (date : option Z) : string :=
  match date with
  | None => ""
  | Some _ =>
      match days_until today date with
      | None => ""
      | Some days =>
          if days <? 0 then "text-danger fw-bold"
          else if days <=? 7 then "text-danger"
          else if days <=? 30 then "text-warning"
          else "text-muted"
      end
  end.

(** ** Further sample records *)

Definition sample_user_2 : Named := {| named_pk := 2; named_str := "other" |}.

Definition sample_department_5 : Named := {| named_pk := 5; named_str := "Finance" |}.

(** A store holding the sample contract 42, a draft owned and created by
    user 1. *)
Definition store_with_contract : Store :=
  set_contracts {[ 42 := sample_contract 42 DRAFT 1 1 false ]} empty_store.

(** The store [store_with_share] together with the contract its share is
    about: the confidential active contract 42 of user 1, shared with
    user 9 for viewing. *)
Definition store_with_shared_contract : Store :=
  set_contracts {[ 42 := sample_contract 42 ACTIVE 1 1 true ]} store_with_share.

(** ** The audit trail *)

(** The audit table of [after] is the one of [before] with one entry
    more, at its end: [action] on [contract] by [actor], stamped [now]. *)
Definition logs_one (now : DateTime) (before after : Store) (contract : Z)
    (action : string) (actor : User) : Prop :=
  exists metadata,
    audit_logs after
    = (audit_logs before
         ++ [{| al_contract := Some contract; al_action := action;
                al_actor := Some (u_pk actor); al_metadata := metadata;
                al_created_at := dt_stamp now |}])%list.

(** A store holding contract 42 of user 1 in status ARCHIVED. *)
Definition store_with_archived_contract : Store :=
  set_contracts {[ 42 := sample_contract 42 ARCHIVED 1 1 false ]} empty_store.

(** A session in which the method step chose the template. *)
Definition template_session : Session :=
  {| contract_wizard := Some (<["method" := MethodData "template"]> ∅);
     contract_wizard_file := None;
     contract_wizard_file_name := None |}.

(** A post of the name step asking to go back. *)
Definition back_from_name_request : WizardRequest :=
  {| req_user := staff_user 1; req_current_step := Some "name";
     req_action := Some "back"; req_value_amount := None;
     req_currency := None; req_opportunity_id := None; req_file := None;
     req_validate := fun _ => None |}.

(** A valid post of the name step. *)
Definition next_from_name_request : WizardRequest :=
  {| req_user := staff_user 1; req_current_step := Some "name";
     req_action := Some "next"; req_value_amount := None;
     req_currency := None; req_opportunity_id := None; req_file := None;
     req_validate := fun _ => Some (NameData "NDA Vendor X") |}.

(** The session [template_session] after that post. *)
Definition session_after_name : Session :=
  {| contract_wizard :=
       Some (<["name" := NameData "NDA Vendor X"]>
               (<["method" := MethodData "template"]> ∅));
     contract_wizard_file := None;
     contract_wizard_file_name := None |}.

(** A post of the basic step asking to go back. *)
Definition back_from_basic_request : WizardRequest :=
  {| req_user := staff_user 1; req_current_step := Some "basic";
     req_action := Some "back"; req_value_amount := None;
     req_currency := None; req_opportunity_id := None; req_file := None;
     req_validate := fun _ => None |}.

(** The active contract 42 of user 1 with end date 738886. *)
Definition contract_ending_738886 : Contract :=
  Contract_setattrs
    {| d_title := None; d_contract_number := None; d_status := None;
       d_category := None; d_sub_category := None; d_org_entity := None;
       d_region_country := None; d_bu_team := None;
       d_customer_or_vendor_name := None;
       d_customer_or_vendor_address := None; d_contract_type := None;
       d_value_amount := None; d_currency := None; d_opportunity_id := None;
       d_effective_date := None; d_end_date := Some (Some 738886);
       d_auto_renewal := None; d_renewal_notice_date := None;
       d_assignment_status := None; d_owner := None;
       d_is_confidential := None; d_created_by := None; d_tags := None |}
    (sample_contract 42 ACTIVE 1 1 false).

(** A store whose only contract is [contract_ending_738886]. *)
Definition store_with_expiring_contract : Store :=
  set_contracts {[ 42 := contract_ending_738886 ]} empty_store.

(** Rows in ascending order of end date: each row ends no later than the
    rows after it. *)
Fixpoint ordered_by_end_date (rows : list Contract) : Prop :=
  match rows with
  | [] => True
  | c :: rest =>
      List.Forall
        (fun d => default 0 (c_end_date c) <= default 0 (c_end_date d)) rest
      /\ ordered_by_end_date rest
  end.

(** A posted upload of the file test1.pdf, to be the primary file. *)
Definition sample_upload : UploadPost :=
  {| up_file := Some {| uf_name := "test1.pdf"; uf_size := 7;
                        uf_content := "" |};
     up_is_primary := true;
     up_description := None |}.

(** The store [store_with_contract] with one clause of contract 42. *)
Definition store_with_clause : Store :=
  set_clauses [{| cl_pk := 0; cl_contract := 42; cl_label := "Liability" |}]
    store_with_contract.

(** * Properties *)

(** ** Bridging lemmas between queries and rows *)

Lemma fk_is_true (fk : option Z) (pk : Z) : fk_is fk pk = true <-> fk = Some pk.
Proof.
  destruct fk as [k|]; simpl.
  - rewrite Z.eqb_eq. split; congruence.
  - split; discriminate.
Qed.

Lemma fk_is_false (fk : option Z) (pk : Z) : fk_is fk pk = false <-> fk <> Some pk.
Proof.
  rewrite <- fk_is_true. destruct (fk_is fk pk); split; congruence.
Qed.

Lemma exists_filter_false {A : Type} (p : A -> bool) (l : list A) :
  exists_ (List.filter p l) = false <-> forall x, In x l -> p x = false.
Proof.
  induction l as [|a l IH]; simpl.
  - split; [tauto | reflexivity].
  - destruct (p a) eqn:Hp; simpl.
    + split; [discriminate |]. intros H. rewrite (H a) in Hp; [discriminate | auto].
    + rewrite IH. split.
      * intros H x [<- | Hx]; auto.
      * intros H x Hx. apply H. auto.
Qed.

Lemma exists_filter_true {A : Type} (p : A -> bool) (l : list A) :
  exists_ (List.filter p l) = true <-> exists x, In x l /\ p x = true.
Proof.
  induction l as [|a l IH]; simpl.
  - split; [discriminate | intros (x & [] & _)].
  - destruct (p a) eqn:Hp; simpl.
    + split; [eauto | reflexivity].
    + rewrite IH. split.
      * intros (x & Hx & Hpx). eauto.
      * intros (x & [<- | Hx] & Hpx); [congruence | eauto].
Qed.

Lemma in_contract_approvals (st : Store) (c : Contract) (a : AdditionalApproval) :
  In a (contract_approvals st c) <->
  (exists k, approvals st !! k = Some a) /\ aa_contract a = c_id c.
Proof.
  unfold contract_approvals. rewrite filter_In, in_map_iff, Z.eqb_eq.
  split.
  - intros [([k a'] & <- & Hin) Hc]. split; [| exact Hc].
    exists k. apply elem_of_map_to_list. apply list_elem_of_In. exact Hin.
  - intros [[k Hk] Hc]. split; [| exact Hc].
    exists (k, a). split; [reflexivity |].
    apply list_elem_of_In. apply elem_of_map_to_list. exact Hk.
Qed.

Lemma unauthenticated_no_role (user : option User) :
  not_authenticated user = true -> get_user_role user = None.
Proof.
  destruct user as [u|]; simpl; [| reflexivity].
  intros ->. reflexivity.
Qed.

(** ** Permission predicates (permissions.py) *)

Section Permissions.

Variable st : Store.

(** Past the guard a predicate reads the contract: with no contract to
    read, an authenticated user makes it raise. *)
Example authenticated_user_without_contract_raises :
  can_edit_contract st (Some (regular_user 1)) None = Raise AttributeError.
Proof. reflexivity. Qed.

(** C10. Each permission predicate answers [False], and raises nothing,
    whenever the acting user is [None] or is not authenticated, whatever
    the contract or approval argument is (even [None]). *)
Theorem unauthenticated_user_is_denied
    (user : option User) (contract : option Contract)
    (approval : option AdditionalApproval) :
  not_authenticated user = true ->
  can_view_contract st user contract = Ok false
  /\ can_edit_contract st user contract = Ok false
  /\ can_delete_contract user contract = Ok false
  /\ can_share_contract user contract = Ok false
  /\ can_change_status st user contract = Ok false
  /\ can_manage_approvals st user contract = Ok false
  /\ can_approve_request user approval = Ok false.
Proof.
  intros Hna.
  unfold can_view_contract, can_edit_contract, can_delete_contract,
    can_share_contract, can_change_status, can_manage_approvals,
    can_approve_request.
  destruct user as [u|]; simpl in Hna.
  - rewrite Hna. repeat split; reflexivity.
  - repeat split; reflexivity.
Qed.

(** What [can_edit_contract] computes for an authenticated user. *)
Lemma can_edit_contract_authenticated (u : User) (c : Contract) :
  u_is_authenticated u = true ->
  can_edit_contract st (Some u) (Some c) =
  Ok (is_legal_admin (Some u)
      || fk_is (c_owner c) (u_pk u)
      || exists_ (edit_level (shares_with_user st c u))
      || match user_department u with
         | Some d => exists_ (edit_level (shares_with_department st c d))
         | None => false
         end).
Proof.
  intros Hauth. unfold can_edit_contract. rewrite Hauth. simpl.
  destruct (is_legal_admin (Some u)); [reflexivity |].
  destruct (fk_is (c_owner c) (u_pk u)); [reflexivity |].
  destruct (exists_ (edit_level (shares_with_user st c u))); [reflexivity |].
  simpl.
  destruct (match user_department u with
            | Some d => exists_ (edit_level (shares_with_department st c d))
            | None => false
            end); reflexivity.
Qed.

(** A user holds an EDIT share of a contract when a share row of the
    contract with access level EDIT names the user or the user's
    department. *)
Lemma edit_share_iff (u : User) (c : Contract) :
  exists_ (edit_level (shares_with_user st c u))
  || match user_department u with
     | Some d => exists_ (edit_level (shares_with_department st c d))
     | None => false
     end = true
  <-> exists s, In s (shares st) /\ cs_contract s = c_id c
        /\ cs_access_level s = "EDIT"
        /\ (cs_shared_with_user s = Some (u_pk u)
            \/ exists d, user_department u = Some d
                 /\ cs_shared_with_department s = Some d).
Proof.
  rewrite orb_true_iff. unfold edit_level, shares_with_user,
    shares_with_department.
  split.
  - intros [Huser | Hdept].
    + apply exists_filter_true in Huser as (s & Hin & Hedit).
      apply filter_In in Hin as [Hin Hcond].
      apply andb_true_iff in Hcond as [Hc Hu].
      exists s. rewrite Z.eqb_eq in Hc. rewrite fk_is_true in Hu.
      rewrite String.eqb_eq in Hedit. auto.
    + destruct (user_department u) as [d|]; [| discriminate].
      apply exists_filter_true in Hdept as (s & Hin & Hedit).
      apply filter_In in Hin as [Hin Hcond].
      apply andb_true_iff in Hcond as [Hc Hd].
      exists s. rewrite Z.eqb_eq in Hc. rewrite fk_is_true in Hd.
      rewrite String.eqb_eq in Hedit. eauto 8.
  - intros (s & Hin & Hc & Hedit & [Hu | (d & Hd & Hs)]).
    + left. apply exists_filter_true. exists s.
      rewrite filter_In, andb_true_iff, Z.eqb_eq, fk_is_true, String.eqb_eq.
      auto.
    + right. rewrite Hd. apply exists_filter_true. exists s.
      rewrite filter_In, andb_true_iff, Z.eqb_eq, fk_is_true, String.eqb_eq.
      auto.
Qed.

(** C2, as the code has it. The creator of a contract may view it.
    Editing and changing the status are granted to an authenticated user
    exactly when the user is an administrator, the owner, or holds an
    EDIT share (directly or through the department), and sharing exactly
    when the user is an administrator or the owner: being the creator
    grants none of the three. *)
Theorem creator_may_view_owner_may_edit (u : User) (c : Contract) :
  u_is_authenticated u = true ->
  c_created_by c = Some (u_pk u) ->
  let may_edit :=
    is_legal_admin (Some u) = true
    \/ c_owner c = Some (u_pk u)
    \/ exists s, In s (shares st) /\ cs_contract s = c_id c
         /\ cs_access_level s = "EDIT"
         /\ (cs_shared_with_user s = Some (u_pk u)
             \/ exists d, user_department u = Some d
                  /\ cs_shared_with_department s = Some d) in
  let may_share :=
    is_legal_admin (Some u) = true \/ c_owner c = Some (u_pk u) in
  can_view_contract st (Some u) (Some c) = Ok true
  /\ (can_edit_contract st (Some u) (Some c) = Ok true <-> may_edit)
  /\ (can_change_status st (Some u) (Some c) = Ok true <-> may_edit)
  /\ (can_share_contract (Some u) (Some c) = Ok true <-> may_share)
  /\ (~ may_edit ->
      can_edit_contract st (Some u) (Some c) = Ok false
      /\ can_change_status st (Some u) (Some c) = Ok false)
  /\ (~ may_share -> can_share_contract (Some u) (Some c) = Ok false).
Proof.
  intros Hauth Hcreator may_edit may_share.
  assert (Hview : can_view_contract st (Some u) (Some c) = Ok true).
  { apply fk_is_true in Hcreator.
    unfold can_view_contract. rewrite Hauth. simpl.
    destruct (is_legal_admin (Some u)); [reflexivity |].
    rewrite Hcreator, orb_true_r. reflexivity. }
  assert (Hstatus : can_change_status st (Some u) (Some c)
                    = can_edit_contract st (Some u) (Some c)).
  { rewrite (can_edit_contract_authenticated u c Hauth).
    unfold can_change_status. rewrite Hauth.
    cbn -[can_edit_contract is_legal_admin].
    destruct (is_legal_admin (Some u)) eqn:Hadmin; [reflexivity |].
    destruct (fk_is (c_owner c) (u_pk u)) eqn:Howner; [reflexivity |].
    rewrite (can_edit_contract_authenticated u c Hauth), Hadmin, Howner.
    reflexivity. }
  assert (Hedit : forall b,
            can_edit_contract st (Some u) (Some c) = Ok b ->
            (b = true <-> may_edit)).
  { intros b. rewrite (can_edit_contract_authenticated u c Hauth).
    intros [= <-]. unfold may_edit.
    rewrite <- edit_share_iff, <- fk_is_true, <- orb_assoc, !orb_true_iff.
    tauto. }
  assert (Hshare : can_share_contract (Some u) (Some c)
                   = Ok (is_legal_admin (Some u) || fk_is (c_owner c) (u_pk u))).
  { unfold can_share_contract. rewrite Hauth. simpl.
    destruct (is_legal_admin (Some u)); [reflexivity |].
    destruct (fk_is (c_owner c) (u_pk u)); reflexivity. }
  assert (Hshare' : is_legal_admin (Some u) || fk_is (c_owner c) (u_pk u) = true
                    <-> may_share).
  { unfold may_share. rewrite orb_true_iff, fk_is_true. tauto. }
  rewrite Hstatus, Hshare.
  destruct (can_edit_contract st (Some u) (Some c)) as [b | e] eqn:Hcall;
    [| rewrite (can_edit_contract_authenticated u c Hauth) in Hcall;
       discriminate Hcall].
  specialize (Hedit b eq_refl).
  split; [exact Hview |].
  assert (Hok : Ok b = Ok true <-> b = true)
    by (split; [intros [= ->]; reflexivity | intros ->; reflexivity]).
  split; [rewrite Hok; exact Hedit |].
  split; [rewrite Hok; exact Hedit |].
  split.
  { rewrite <- Hshare'. split; [intros [= ->]; reflexivity | intros ->; reflexivity]. }
  split.
  - intros Hno. destruct b; [exfalso; apply Hno, Hedit; reflexivity |].
    split; reflexivity.
  - intros Hno. destruct (is_legal_admin (Some u) || fk_is (c_owner c) (u_pk u));
      [exfalso; apply Hno, Hshare'; reflexivity | reflexivity].
Qed.

(** C1, as the code has it. An authenticated user who is not an
    administrator, is neither owner nor creator, is the target of no
    share of the contract (personally or through the department), whose
    department is not the contract's business unit, and who is not tied
    to an approval request of the contract while holding the LEGAL_USER
    role, cannot view a confidential contract, and can view a
    non-confidential one exactly when holding the FINANCE_VIEWER role. *)
Theorem outsider_views_only_as_finance_viewer (u : User) (c : Contract) :
  u_is_authenticated u = true ->
  is_legal_admin (Some u) = false ->
  c_owner c <> Some (u_pk u) ->
  c_created_by c <> Some (u_pk u) ->
  (forall s, In s (shares st) -> cs_contract s = c_id c ->
     cs_shared_with_user s <> Some (u_pk u)
     /\ forall d, user_department u = Some d ->
          cs_shared_with_department s <> Some d) ->
  (forall d, user_department u = Some d -> c_bu_team c <> Some d) ->
  (is_legal_user (Some u) = true ->
   forall k a, approvals st !! k = Some a -> aa_contract a = c_id c ->
     aa_approver a <> u_pk u /\ aa_requested_by a <> u_pk u) ->
  (c_is_confidential c = true ->
     can_view_contract st (Some u) (Some c) = Ok false)
  /\ (c_is_confidential c = false ->
        can_view_contract st (Some u) (Some c)
        = Ok (is_finance_viewer (Some u))).
Proof.
  intros Hauth Hadmin Howner Hcreator Hshares Hdept Happr.
  apply fk_is_false in Howner, Hcreator.
  assert (Huser : exists_ (shares_with_user st c u) = false).
  { apply exists_filter_false. intros s Hin.
    destruct (cs_contract s =? c_id c) eqn:Hc; [| reflexivity].
    apply Z.eqb_eq in Hc. destruct (Hshares s Hin Hc) as [Hs _].
    simpl. apply fk_is_false, Hs. }
  assert (Hdshare : match user_department u with
                    | Some d => exists_ (shares_with_department st c d)
                    | None => false
                    end = false).
  { destruct (user_department u) as [d|] eqn:Hd; [| reflexivity].
    apply exists_filter_false. intros s Hin.
    destruct (cs_contract s =? c_id c) eqn:Hc; [| reflexivity].
    apply Z.eqb_eq in Hc. destruct (Hshares s Hin Hc) as [_ Hs].
    simpl. apply fk_is_false, Hs. reflexivity. }
  assert (Hbu : match user_department u, c_bu_team c with
                | Some d, Some bu => d =? bu
                | _, _ => false
                end = false).
  { destruct (user_department u) as [d|] eqn:Hd; [| reflexivity].
    destruct (c_bu_team c) as [bu|] eqn:Hb; [| reflexivity].
    apply Z.eqb_neq. intros ->. exact (Hdept bu eq_refl eq_refl). }
  assert (Hrule6 :
    is_legal_user (Some u)
    && (exists_ (List.filter (fun a => aa_approver a =? u_pk u)
                   (contract_approvals st c))
        || exists_ (List.filter (fun a => aa_requested_by a =? u_pk u)
                      (contract_approvals st c))) = false).
  { destruct (is_legal_user (Some u)) eqn:Hlu; [| reflexivity].
    simpl. apply orb_false_iff. split; apply exists_filter_false;
      intros a Hin; apply in_contract_approvals in Hin as [[k Hk] Hc];
      apply Z.eqb_neq; apply (Happr eq_refl k a Hk Hc). }
  unfold can_view_contract. rewrite Hauth, Hadmin. simpl.
  rewrite Howner, Hcreator, Huser, Hdshare, Hbu, Hrule6. simpl.
  split; intros ->.
  - rewrite andb_false_r. reflexivity.
  - rewrite andb_true_r. destruct (is_finance_viewer (Some u)); reflexivity.
Qed.

End Permissions.

(** C5, as the code has it. For an authenticated owner who is not an
    administrator, [can_delete_contract] is true exactly when the contract
    is a draft; in particular it is false for an active contract. *)
Theorem owner_deletes_only_drafts (u : User) (c : Contract) :
  u_is_authenticated u = true ->
  is_legal_admin (Some u) = false ->
  c_owner c = Some (u_pk u) ->
  (can_delete_contract (Some u) (Some c) = Ok true <-> c_status c = DRAFT)
  /\ (c_status c = ACTIVE -> can_delete_contract (Some u) (Some c) = Ok false)
  /\ (c_status c <> DRAFT -> can_delete_contract (Some u) (Some c) = Ok false).
Proof.
  intros Hauth Hadmin Howner. apply fk_is_true in Howner.
  unfold can_delete_contract. rewrite Hauth, Hadmin. simpl. rewrite Howner.
  simpl. unfold DRAFT, ACTIVE.
  destruct (String.eqb_spec (c_status c) "DRAFT") as [Hd | Hd].
  - split; [tauto |]. split; [rewrite Hd; discriminate | congruence].
  - split; [split; [discriminate | congruence] |]. split; reflexivity.
Qed.

Lemma unauthenticated_user_is_denied_witness :
  not_authenticated (Some AnonymousUser) = true
  /\ can_view_contract store_with_share (Some AnonymousUser) None = Ok false
  /\ can_edit_contract store_with_share (Some AnonymousUser) None = Ok false
  /\ can_delete_contract (Some AnonymousUser) None = Ok false
  /\ can_share_contract (Some AnonymousUser) None = Ok false
  /\ can_change_status store_with_share (Some AnonymousUser) None = Ok false
  /\ can_manage_approvals store_with_share (Some AnonymousUser) None = Ok false
  /\ can_approve_request (Some AnonymousUser) None = Ok false.
Proof.
  split; [reflexivity |].
  apply (unauthenticated_user_is_denied store_with_share (Some AnonymousUser)
           None None).
  reflexivity.
Defined.

(** C2 fails as stated: a creator who is not the owner, not an
    administrator and holds no share is refused by [can_edit_contract]. *)
Lemma creator_alone_cannot_edit :
  ~ (forall (st : Store) (u : User) (c : Contract),
       u_is_authenticated u = true ->
       c_created_by c = Some (u_pk u) ->
       can_view_contract st (Some u) (Some c) = Ok true
       /\ can_edit_contract st (Some u) (Some c) = Ok true
       /\ can_change_status st (Some u) (Some c) = Ok true
       /\ can_share_contract (Some u) (Some c) = Ok true).
Proof.
  intros H.
  destruct (H empty_store (regular_user 2) (sample_contract 42 DRAFT 1 2 false)
              eq_refl eq_refl) as (_ & Hedit & _).
  vm_compute in Hedit. discriminate Hedit.
Qed.

Lemma creator_may_view_owner_may_edit_witness :
  can_view_contract empty_store (Some (regular_user 2))
    (Some (sample_contract 42 DRAFT 1 2 false)) = Ok true
  /\ can_edit_contract empty_store (Some (regular_user 2))
       (Some (sample_contract 42 DRAFT 1 2 false)) = Ok false
  /\ can_change_status empty_store (Some (regular_user 2))
       (Some (sample_contract 42 DRAFT 1 2 false)) = Ok false
  /\ can_share_contract (Some (regular_user 2))
       (Some (sample_contract 42 DRAFT 1 2 false)) = Ok false.
Proof.
  destruct (creator_may_view_owner_may_edit empty_store (regular_user 2)
              (sample_contract 42 DRAFT 1 2 false) eq_refl eq_refl)
    as (Hview & _ & _ & _ & Hedit & Hshare).
  split; [exact Hview |].
  destruct Hedit as [Hedit Hstatus].
  - intros [Hadmin | [Howner | (s & [] & _)]]; discriminate.
  - split; [exact Hedit |]. split; [exact Hstatus |].
    apply Hshare. intros [Hadmin | Howner]; discriminate.
Defined.

(** C1 fails as stated: a LEGAL_USER named approver of an approval request
    of the contract views it, confidential or not, without any share,
    department match or FINANCE_VIEWER role. *)
Lemma approver_views_confidential_contract :
  ~ (forall (st : Store) (u : User) (c : Contract),
       u_is_authenticated u = true ->
       is_legal_admin (Some u) = false ->
       c_owner c <> Some (u_pk u) ->
       c_created_by c <> Some (u_pk u) ->
       (forall s, In s (shares st) -> cs_contract s = c_id c ->
          cs_shared_with_user s <> Some (u_pk u)
          /\ forall d, user_department u = Some d ->
               cs_shared_with_department s <> Some d) ->
       (forall d, user_department u = Some d -> c_bu_team c <> Some d) ->
       (c_is_confidential c = true ->
          can_view_contract st (Some u) (Some c) = Ok false)
       /\ (c_is_confidential c = false ->
             can_view_contract st (Some u) (Some c) = Ok true ->
             is_finance_viewer (Some u) = true)).
Proof.
  intros H.
  destruct (H store_with_approval (staff_user 2)
              (sample_contract 42 ACTIVE 1 1 true)) as [Hconf _].
  - reflexivity.
  - reflexivity.
  - discriminate.
  - discriminate.
  - intros s [].
  - discriminate.
  - specialize (Hconf eq_refl). vm_compute in Hconf. discriminate Hconf.
Qed.

Lemma outsider_views_only_as_finance_viewer_witness :
  can_view_contract store_with_share (Some (finance_viewer_user 2 5))
    (Some (sample_contract 42 ACTIVE 1 1 false)) = Ok true
  /\ can_view_contract store_with_share (Some (finance_viewer_user 2 5))
       (Some (sample_contract 42 ACTIVE 1 1 true)) = Ok false.
Proof.
  split.
  - apply (outsider_views_only_as_finance_viewer store_with_share
             (finance_viewer_user 2 5) (sample_contract 42 ACTIVE 1 1 false)).
    + reflexivity.
    + reflexivity.
    + discriminate.
    + discriminate.
    + intros s [<- | []] _. split; [discriminate |].
      intros d _. discriminate.
    + intros d _. discriminate.
    + discriminate.
    + reflexivity.
  - apply (outsider_views_only_as_finance_viewer store_with_share
             (finance_viewer_user 2 5) (sample_contract 42 ACTIVE 1 1 true)).
    + reflexivity.
    + reflexivity.
    + discriminate.
    + discriminate.
    + intros s [<- | []] _. split; [discriminate |].
      intros d _. discriminate.
    + intros d _. discriminate.
    + discriminate.
    + reflexivity.
Defined.

(** C5 fails as stated: an owner who is an administrator may delete the
    contract in any status, an active one included. *)
Lemma administrator_owner_deletes_active_contract :
  ~ (forall (u : User) (c : Contract),
       u_is_authenticated u = true ->
       c_owner c = Some (u_pk u) ->
       (can_delete_contract (Some u) (Some c) = Ok true <-> c_status c = DRAFT)).
Proof.
  intros H.
  destruct (H (superuser 1) (sample_contract 42 ACTIVE 1 1 false)
              eq_refl eq_refl) as [Hdraft _].
  specialize (Hdraft eq_refl). vm_compute in Hdraft. discriminate Hdraft.
Qed.

Lemma owner_deletes_only_drafts_witness :
  (can_delete_contract (Some (regular_user 1))
     (Some (sample_contract 42 DRAFT 1 1 false)) = Ok true
   <-> c_status (sample_contract 42 DRAFT 1 1 false) = DRAFT)
  /\ can_delete_contract (Some (regular_user 1))
       (Some (sample_contract 42 ACTIVE 1 1 false)) = Ok false.
Proof.
  split.
  - apply (owner_deletes_only_drafts (regular_user 1)
             (sample_contract 42 DRAFT 1 1 false)); reflexivity.
  - apply (proj1 (proj2 (owner_deletes_only_drafts (regular_user 1)
                           (sample_contract 42 ACTIVE 1 1 false)
                           eq_refl eq_refl eq_refl))).
    reflexivity.
Defined.

(** ** Approval decisions (forms.py, services.py, views.py) *)

Example comment_defaults_to_empty :
  clean_comment_field None = Some ""
  /\ clean_comment_field (Some "") = Some ""
  /\ clean_comment_field (Some "   ") = Some ""
  /\ clean_comment_field (Some " Looks good ") = Some "Looks good"
  /\ clean_comment_field (Some (String (ascii_of_N 160) "")) = Some "".
Proof. repeat split; reflexivity. Qed.

(** A comment made of a no-break space (U+00A0) is no comment: the
    rejection is refused. *)
Example rejection_with_no_break_space_is_refused :
  ApprovalDetailView_post sample_now store_with_approval (regular_user 2)
    {| post_decision := Some REJECTED;
       post_comment := Some (String (ascii_of_N 160) "") |} 1
  = Ok (store_with_approval, Render "contracts/approval_detail.html" true).
Proof. reflexivity. Qed.

(** The test of the decision endpoint the specification describes: the
    approver of a pending request posts a rejection with no comment and
    gets the form back, the store untouched. *)
Example rejection_without_comment_is_refused :
  ApprovalDetailView_post sample_now store_with_approval (regular_user 2)
    {| post_decision := Some REJECTED; post_comment := None |} 1
  = Ok (store_with_approval, Render "contracts/approval_detail.html" true).
Proof. reflexivity. Qed.






(** The whitespace characters, by code point. *)
Lemma char_isspace_spec (a : ascii) :
  char_isspace a = true
  <-> In (N_of_ascii a) [9; 10; 11; 12; 13; 28; 29; 30; 31; 32; 133; 160]%N.
Proof.
  unfold char_isspace. cbn [In].
  rewrite !orb_true_iff, !andb_true_iff, !N.leb_le, !N.eqb_eq. lia.
Qed.

















(** ** Deleting a contract (models.py) *)

Lemma fk_among_single (pk : Z) (fk : option Z) :
  fk_among [pk] fk = true <-> fk = Some pk.
Proof.
  destruct fk as [k|]; simpl.
  - rewrite orb_false_r, Z.eqb_eq. split; congruence.
  - split; discriminate.
Qed.

Lemma CASCADE_In {R : Type} (fk : R -> option Z) (pk : Z) (rows : list R)
    (r : R) :
  In r (CASCADE fk [pk] rows) <-> In r rows /\ fk r <> Some pk.
Proof.
  unfold CASCADE. rewrite filter_In, negb_true_iff.
  rewrite <- fk_among_single. destruct (fk_among [pk] (fk r)); intuition congruence.
Qed.

Lemma CASCADE_keyed_lookup {R : Type} (fk : R -> option Z) (pk : Z)
    (rows : gmap Z R) (k : Z) (r : R) :
  CASCADE_keyed fk [pk] rows !! k = Some r <->
  rows !! k = Some r /\ fk r <> Some pk.
Proof.
  unfold CASCADE_keyed. rewrite map_lookup_filter_Some. simpl.
  rewrite <- fk_among_single. destruct (fk_among [pk] (fk r)); intuition congruence.
Qed.

(** Deleting a contract removes it and every row of a child table that
    points to it; the rows of other contracts stay. *)
Lemma Contract_delete_children (st : Store) (pk : Z) :
  contracts (Contract_delete st pk) !! pk = None
  /\ (forall r, In r (contract_tags (Contract_delete st pk)) <->
        In r (contract_tags st) /\ ct_contract r <> pk)
  /\ (forall k r, files (Contract_delete st pk) !! k = Some r <->
        files st !! k = Some r /\ cf_contract r <> pk)
  /\ (forall r, In r (versions (Contract_delete st pk)) <->
        In r (versions st) /\ cv_contract r <> pk)
  /\ (forall r, In r (shares (Contract_delete st pk)) <->
        In r (shares st) /\ cs_contract r <> pk)
  /\ (forall k r, approvals (Contract_delete st pk) !! k = Some r <->
        approvals st !! k = Some r /\ aa_contract r <> pk)
  /\ (forall r, In r (clauses (Contract_delete st pk)) <->
        In r (clauses st) /\ cl_contract r <> pk)
  /\ (forall r, In r (deviations (Contract_delete st pk)) ->
        dv_contract r <> pk)
  /\ (forall r, In r (risks (Contract_delete st pk)) <->
        In r (risks st) /\ ri_contract r <> pk)
  /\ (forall r, In r (signatures (Contract_delete st pk)) <->
        In r (signatures st) /\ sr_contract r <> pk).
Proof.
  assert (Hsome : forall a b : Z, Some a <> Some b <-> a <> b)
    by (intros a b; split; congruence).
  simpl. split; [apply lookup_delete_eq |].
  repeat match goal with |- _ /\ _ => split end;
    try (intros r; rewrite CASCADE_In, Hsome; tauto);
    try (intros k r; rewrite CASCADE_keyed_lookup, Hsome; tauto).
  intros r Hin. unfold SET_NULL in Hin. apply in_map_iff in Hin as (d & <- & Hd).
  apply CASCADE_In in Hd as [_ Hd].
  destruct (fk_among _ _); simpl; congruence.
Qed.

(** The audit rows of a deleted contract are deleted with it. *)
Lemma Contract_delete_audit_logs (st : Store) (pk : Z) (r : AuditLog) :
  In r (audit_logs (Contract_delete st pk)) <->
  In r (audit_logs st) /\ al_contract r <> Some pk.
Proof. simpl. apply CASCADE_In. Qed.

(** C4, on a contract with an audit trail. Contract 42 has just been
    created through the service, which logged one CREATE_CONTRACT event
    for it; deleting the contract deletes its version row and the audit
    event as well: no audit row is kept with a nulled contract
    reference. *)
Theorem contract_delete_drops_its_audit_trail :
  audit_logs store_after_creation
  = [{| al_contract := Some 42; al_action := "CREATE_CONTRACT";
        al_actor := Some 1;
        al_metadata := [("title", JStr "New Contract"); ("status", JStr "DRAFT")];
        al_created_at := dt_stamp sample_now |}]
  /\ List.map cv_version_number (versions store_after_creation) = [1]
  /\ versions (Contract_delete store_after_creation 42) = []
  /\ audit_logs (Contract_delete store_after_creation 42) = [].
Proof. vm_compute. repeat split; reflexivity. Qed.

(** ** Contract numbers (models.py, services.py) *)

Lemma digit_char_is_digit (d : Z) :
  0 <= d < 10 -> ascii_is_digit (digit_char d) = true.
Proof.
  intros Hd.
  assert (Hcases : d = 0 \/ d = 1 \/ d = 2 \/ d = 3 \/ d = 4 \/ d = 5
                   \/ d = 6 \/ d = 7 \/ d = 8 \/ d = 9) by lia.
  repeat (destruct Hcases as [-> | Hcases]; [reflexivity |]).
  subst d. reflexivity.
Qed.

Lemma upper_hex_char_is_alnum (d : Z) :
  0 <= d < 16 -> ascii_is_upper_alnum (ascii_upper (hex_char d)) = true.
Proof.
  intros Hd.
  assert (Hcases : d = 0 \/ d = 1 \/ d = 2 \/ d = 3 \/ d = 4 \/ d = 5
                   \/ d = 6 \/ d = 7 \/ d = 8 \/ d = 9 \/ d = 10 \/ d = 11
                   \/ d = 12 \/ d = 13 \/ d = 14 \/ d = 15) by lia.
  repeat (destruct Hcases as [-> | Hcases]; [reflexivity |]).
  subst d. reflexivity.
Qed.

Lemma upper_hex_digits_alnum (u : Z) (lo count : nat) :
  string_forall ascii_is_upper_alnum (upper (hex_digits u lo count)) = true.
Proof.
  induction count as [|k IH]; [reflexivity |].
  cbn [hex_digits upper string_forall]. rewrite IH, andb_true_r.
  apply upper_hex_char_is_alnum. apply Z.mod_pos_bound. lia.
Qed.

Lemma length_upper (s : string) : String.length (upper s) = String.length s.
Proof. induction s as [|a s IH]; simpl; congruence. Qed.

Lemma length_hex_digits (u : Z) (lo count : nat) :
  String.length (hex_digits u lo count) = count.
Proof. induction count as [|k IH]; simpl; congruence. Qed.

Lemma py_prefix_app (n : nat) (s t : string) :
  String.length s = n -> py_prefix n (s +:+ t) = s.
Proof.
  revert s. induction n as [|k IH]; intros s Hlen.
  - destruct s; [| discriminate]. reflexivity.
  - destruct s as [|a s]; [discriminate |].
    cbn [String.append py_prefix]. f_equal. apply IH.
    simpl in Hlen. lia.
Qed.

(** The first eight characters of [str(uuid)] are its eight leading hex
    digits. *)
Lemma py_prefix_uuid_str (u : Z) :
  py_prefix 8 (uuid_str u) = hex_digits u 24 8.
Proof. unfold uuid_str. apply py_prefix_app, length_hex_digits. Qed.

Lemma strftime_Ym_digits (now : DateTime) :
  string_forall ascii_is_digit (strftime_Ym now) = true
  /\ String.length (strftime_Ym now) = 6%nat.
Proof.
  split; [| reflexivity].
  unfold strftime_Ym. cbn [string_forall].
  rewrite !digit_char_is_digit; [reflexivity | ..];
    apply Z.mod_pos_bound; lia.
Qed.

Lemma contract_number_shape_intro (ym h : string) :
  String.length ym = 6%nat -> string_forall ascii_is_digit ym = true ->
  String.length h = 8%nat -> string_forall ascii_is_upper_alnum h = true ->
  contract_number_shape ("CNT-" +:+ ym +:+ "-" +:+ h) = true.
Proof.
  intros Hlym Hdym Hlh Hdh.
  destruct ym as [|y1 [|y2 [|y3 [|y4 [|m1 [|m2 [|? ?]]]]]]]; try discriminate.
  destruct h as [|h1 [|h2 [|h3 [|h4 [|h5 [|h6 [|h7 [|h8 [|? ?]]]]]]]]];
    try discriminate.
  unfold contract_number_shape. cbn [string_forall] in Hdym, Hdh. simpl.
  rewrite Hdym, Hdh. reflexivity.
Qed.

Lemma generated_number_shape (now : DateTime) (u : Z) :
  contract_number_shape
    ("CNT-" +:+ strftime_Ym now +:+ "-" +:+ upper (py_prefix 8 (uuid_str u)))
  = true.
Proof.
  destruct (strftime_Ym_digits now) as [Hd Hl].
  rewrite py_prefix_uuid_str.
  apply contract_number_shape_intro.
  - exact Hl.
  - exact Hd.
  - rewrite length_upper. apply length_hex_digits.
  - apply upper_hex_digits_alnum.
Qed.

Lemma str_falsy_true (s : string) : str_falsy s = true <-> s = "".
Proof. unfold str_falsy. apply String.eqb_eq. Qed.

Lemma str_falsy_false (s : string) : str_falsy s = false <-> s <> "".
Proof. unfold str_falsy. apply String.eqb_neq. Qed.

Lemma Contract_save_blank (now : DateTime) (st : Store) (self : Contract) :
  c_contract_number self = "" ->
  let number :=
    "CNT-" +:+ strftime_Ym now +:+ "-"
      +:+ upper (py_prefix 8 (uuid_str (c_id self))) in
  snd (Contract_save now st self) = set_contract_number number self
  /\ contracts (fst (Contract_save now st self)) !! c_id self
     = Some (set_contract_number number self).
Proof.
  intros Hblank number. unfold Contract_save.
  rewrite (proj2 (str_falsy_true _) Hblank). simpl.
  split; [reflexivity |].
  rewrite lookup_alter_eq, lookup_insert_eq. reflexivity.
Qed.

Lemma Contract_save_numbered (now : DateTime) (st : Store) (self : Contract) :
  c_contract_number self <> "" ->
  snd (Contract_save now st self) = self
  /\ contracts (fst (Contract_save now st self)) !! c_id self = Some self.
Proof.
  intros Hnum. unfold Contract_save.
  rewrite (proj2 (str_falsy_false _) Hnum). simpl.
  split; [reflexivity | apply lookup_insert_eq].
Qed.

Lemma update_contract_saves (now : DateTime) (st : Store) (user : User)
    (contract : Contract) (data : ContractData) :
  snd (ContractOperationsService_update_contract now st user contract data)
  = snd (Contract_save now st (Contract_setattrs data contract)).
Proof.
  unfold ContractOperationsService_update_contract.
  destruct (Contract_save now st (Contract_setattrs data contract))
    as [st1 contract'].
  destruct (negb _); reflexivity.
Qed.

Lemma update_contract_stores (now : DateTime) (st : Store) (user : User)
    (contract : Contract) (data : ContractData) :
  contracts
    (fst (ContractOperationsService_update_contract now st user contract data))
  = contracts (fst (Contract_save now st (Contract_setattrs data contract))).
Proof.
  unfold ContractOperationsService_update_contract.
  destruct (Contract_save now st (Contract_setattrs data contract))
    as [st1 contract'].
  destruct (d_tags data); destruct (negb _); reflexivity.
Qed.

(** C6, as the code has it. Saving a contract whose number is still empty
    stores it under CNT-<YYYYMM>-<first eight characters of the UUID, in
    capitals>, which has the shape CNT-<6 digits>-<8 digits or capitals>;
    this is what creation through the service does when the data carry no
    number. [Contract.save] leaves a number that is set as it is. An
    update through the service whose data carry a [contract_number]
    replaces the number: by the number given when that is not empty, and
    by a number generated anew at the time of the update when it is
    empty. An update whose data carry no [contract_number] keeps the
    number. *)
Theorem contract_number_assigned_by_first_save (now : DateTime) (st : Store)
    (self : Contract) :
  1000 <= dt_year now <= 9999 ->
  1 <= dt_month now <= 12 ->
  0 <= c_id self < 2 ^ 128 ->
  let number :=
    "CNT-" +:+ strftime_Ym now +:+ "-"
      +:+ upper (py_prefix 8 (uuid_str (c_id self))) in
  contract_number_shape number = true
  /\ (c_contract_number self = "" ->
      c_contract_number (snd (Contract_save now st self)) = number
      /\ contracts (fst (Contract_save now st self)) !! c_id self
         = Some (snd (Contract_save now st self)))
  /\ (forall user data file,
        d_contract_number data = None ->
        c_contract_number
          (snd (ContractOperationsService_create_contract now (c_id self) st
                  user data file))
        = number)
  /\ (c_contract_number self <> "" ->
      c_contract_number (snd (Contract_save now st self))
      = c_contract_number self
      /\ contracts (fst (Contract_save now st self)) !! c_id self = Some self)
  /\ (forall user data new_number,
        d_contract_number data = Some new_number ->
        let updated :=
          ContractOperationsService_update_contract now st user self data in
        c_contract_number (snd updated)
        = (if String.eqb new_number "" then number else new_number)
        /\ contracts (fst updated) !! c_id self = Some (snd updated))
  /\ (forall user data,
        d_contract_number data = None ->
        c_contract_number self <> "" ->
        let updated :=
          ContractOperationsService_update_contract now st user self data in
        c_contract_number (snd updated) = c_contract_number self
        /\ contracts (fst updated) !! c_id self = Some (snd updated)).
Proof.
  intros _ _ _ number.
  split; [apply generated_number_shape |].
  split; [| split; [| split; [| split]]].
  - intros Hblank.
    destruct (Contract_save_blank now st self Hblank) as [Hself Hrow].
    fold number in Hself, Hrow. rewrite Hself. split; [reflexivity | exact Hrow].
  - intros user data file Hnone.
    unfold ContractOperationsService_create_contract.
    match goal with
    | |- context [Contract_save now st ?i] =>
        pose proof (Contract_save_blank now st i) as Hsave;
        destruct (Contract_save now st i) as [st1 contract] eqn:Hs
    end.
    simpl in Hsave. rewrite Hnone in Hsave.
    destruct (Hsave eq_refl) as [-> _]. reflexivity.
  - intros Hnum.
    destruct (Contract_save_numbered now st self Hnum) as [-> Hrow].
    split; [reflexivity | exact Hrow].
  - intros user data new_number Hdata updated. subst updated.
    rewrite update_contract_saves, update_contract_stores.
    assert (Hnum : c_contract_number (Contract_setattrs data self) = new_number)
      by (simpl; rewrite Hdata; reflexivity).
    change (c_id self) with (c_id (Contract_setattrs data self)) at 1.
    destruct (String.eqb_spec new_number "") as [Hblank | Hne].
    + destruct (Contract_save_blank now st (Contract_setattrs data self))
        as [-> ->]; [congruence |].
      split; reflexivity.
    + destruct (Contract_save_numbered now st (Contract_setattrs data self))
        as [-> ->]; [congruence |].
      split; [exact Hnum | reflexivity].
  - intros user data Hdata Hnum updated. subst updated.
    rewrite update_contract_saves, update_contract_stores.
    assert (Hkept : c_contract_number (Contract_setattrs data self)
                    = c_contract_number self)
      by (simpl; rewrite Hdata; reflexivity).
    change (c_id self) with (c_id (Contract_setattrs data self)) at 1.
    destruct (Contract_save_numbered now st (Contract_setattrs data self))
      as [-> ->]; [congruence |].
    split; [exact Hkept | reflexivity].
Qed.

(** C6 fails as stated: the edit form carries [contract_number], and an
    update stores what the form holds in place of the assigned number. *)
Lemma edit_form_reassigns_contract_number :
  ~ (forall (now : DateTime) (st : Store) (user : User) (c : Contract)
            (data : ContractData),
       c_contract_number c <> "" ->
       c_contract_number
         (snd (ContractOperationsService_update_contract now st user c data))
       = c_contract_number c).
Proof.
  intros H.
  specialize (H sample_now empty_store (staff_user 1)
                (sample_contract 42 ACTIVE 1 1 false) sample_edit_data).
  vm_compute in H. specialize (H ltac:(discriminate)). discriminate H.
Qed.

Lemma contract_number_assigned_by_first_save_witness :
  contract_number_shape "CNT-202401-550E8400" = true
  /\ c_contract_number
       (snd (Contract_save sample_now empty_store
               (Contract_init 0x550e8400e29b41d4a716446655440000 sample_data)))
     = "CNT-202401-550E8400"
  /\ c_contract_number
       (snd (ContractOperationsService_update_contract sample_now empty_store
               (staff_user 1)
               (Contract_init 0x550e8400e29b41d4a716446655440000 sample_data)
               sample_edit_data))
     = "LEGACY-7"
  /\ c_contract_number
       (snd (ContractOperationsService_update_contract sample_now empty_store
               (staff_user 1)
               (Contract_init 0x550e8400e29b41d4a716446655440000 sample_data)
               sample_blank_edit_data))
     = "CNT-202401-550E8400".
Proof.
  destruct (contract_number_assigned_by_first_save sample_now empty_store
              (Contract_init 0x550e8400e29b41d4a716446655440000 sample_data))
    as (Hshape & Hfirst & _ & _ & Hupdate & _).
  - vm_compute. split; discriminate.
  - vm_compute. split; discriminate.
  - vm_compute. split; [discriminate | reflexivity].
  - split; [exact Hshape |]. split.
    + destruct (Hfirst eq_refl) as [Hnumber _]. exact Hnumber.
    + split.
      * apply (Hupdate (staff_user 1) sample_edit_data "LEGACY-7" eq_refl).
      * apply (Hupdate (staff_user 1) sample_blank_edit_data "" eq_refl).
Defined.

(** ** Keys of new rows *)

Lemma max_pk_ge (keys : list Z) (k : Z) : In k keys -> k <= max_pk keys.
Proof.
  induction keys as [|x rest IH]; simpl; [tauto |].
  intros [<- | Hin]; [lia |]. specialize (IH Hin). lia.
Qed.

Lemma max_pk_nonneg (keys : list Z) : 0 <= max_pk keys.
Proof. induction keys as [|x rest IH]; simpl; lia. Qed.

Lemma next_pk_new (st : Store) (table : string) (keys : list Z) :
  ~ In (next_pk st table keys) keys.
Proof.
  intros Hin. apply max_pk_ge in Hin. unfold next_pk in Hin. lia.
Qed.

Lemma next_pk_unused {R : Type} (st : Store) (table : string) (t : gmap Z R) :
  t !! next_pk st table (pks t) = None.
Proof.
  destruct (t !! next_pk st table (pks t)) as [r|] eqn:Hr; [| reflexivity].
  exfalso. apply (next_pk_new st table (pks t)).
  apply list_elem_of_In. unfold pks. apply list_elem_of_fmap.
  exists (next_pk st table (pks t), r). split; [reflexivity |].
  apply elem_of_map_to_list. exact Hr.
Qed.

(** A new key is positive and follows every key given before. *)
Lemma next_pk_follows (st : Store) (table : string) (keys : list Z) :
  0 < next_pk st table keys /\ last_pk st table < next_pk st table keys.
Proof.
  unfold next_pk. pose proof (max_pk_nonneg keys). lia.
Qed.

Lemma note_pk_last (st : Store) (table : string) (k : Z) :
  last_pk (note_pk table k st) table = Z.max (last_pk st table) k.
Proof.
  unfold last_pk at 1. simpl. rewrite lookup_insert_eq. reflexivity.
Qed.

(** ** Primary files (models.py) *)

Section PrimaryFile.

Variables (st : Store) (self_pk : option Z) (self : ContractFile).

Local Abbreviation saved := (files (fst (ContractFile_save st self_pk self))).
Local Abbreviation key := (snd (ContractFile_save st self_pk self)).
Local Abbreviation demoted := (demote_other_primaries (files st) self_pk self).

Lemma saved_unfold : saved = <[key := self]> demoted.
Proof. reflexivity. Qed.

Lemma demoted_lookup (k : Z) (g : ContractFile) :
  demoted !! k = Some g ->
  exists f, files st !! k = Some f
    /\ cf_contract g = cf_contract f
    /\ (cf_is_primary g = true -> g = f)
    /\ (cf_is_primary self = true -> cf_contract g = cf_contract self ->
        cf_is_primary g = true -> self_pk = Some k).
Proof.
  unfold demote_other_primaries. destruct (cf_is_primary self) eqn:Hprimary.
  - rewrite map_lookup_imap.
    destruct (files st !! k) as [f|] eqn:Hf; [| discriminate]. simpl.
    intros [= <-]. exists f. split; [reflexivity |].
    destruct ((cf_contract f =? cf_contract self) && cf_is_primary f
              && negb (is_pk self_pk k)) eqn:Hcond.
    + repeat split; simpl; intros; discriminate.
    + repeat split. intros _ Hc Hp.
      apply Z.eqb_eq in Hc. rewrite Hc, Hp in Hcond. simpl in Hcond.
      apply negb_false_iff in Hcond. unfold is_pk in Hcond.
      destruct self_pk as [p|]; [| discriminate].
      apply Z.eqb_eq in Hcond. congruence.
  - intros Hg. exists g. repeat split; auto. discriminate.
Qed.

Lemma demoted_previous (k : Z) (f : ContractFile) :
  cf_is_primary self = true ->
  files st !! k = Some f ->
  cf_contract f = cf_contract self ->
  cf_is_primary f = true ->
  self_pk <> Some k ->
  demoted !! k = Some (set_is_primary false f).
Proof.
  intros Hprimary Hf Hc Hp Hne. unfold demote_other_primaries. rewrite Hprimary.
  rewrite map_lookup_imap, Hf. simpl.
  rewrite Hc, Z.eqb_refl, Hp.
  assert (His : is_pk self_pk k = false).
  { destruct self_pk as [p|]; simpl; [| reflexivity].
    apply Z.eqb_neq. congruence. }
  rewrite His. reflexivity.
Qed.

Lemma key_of_self_pk (k : Z) : self_pk = Some k -> key = k.
Proof. intros ->. reflexivity. Qed.

(** A row stored before the save keeps its key apart from the saved one
    unless it is the saved row itself. *)
Lemma other_key (k : Z) :
  is_Some (demoted !! k) -> self_pk <> Some k -> k <> key.
Proof.
  intros Hin Hne. unfold ContractFile_save. simpl.
  destruct self_pk as [p|]; [congruence |].
  intros ->. rewrite next_pk_unused in Hin. destruct Hin as [f Hf].
  discriminate Hf.
Qed.

Lemma ContractFile_save_keeps_invariant :
  at_most_one_primary (files st) -> at_most_one_primary saved.
Proof.
  intros Hinv k1 k2 f1 f2. rewrite saved_unfold.
  rewrite !lookup_insert.
  repeat case_decide; subst; intros H1 H2 Hc Hp1 Hp2; try congruence.
  - injection H1 as <-.
    destruct (demoted_lookup k2 f2 H2) as (f & _ & _ & _ & Hself).
    apply key_of_self_pk. auto.
  - injection H2 as <-.
    destruct (demoted_lookup k1 f1 H1) as (f & _ & _ & _ & Hself).
    symmetry. apply key_of_self_pk. auto.
  - destruct (demoted_lookup k1 f1 H1) as (g1 & Hg1 & _ & He1 & _).
    destruct (demoted_lookup k2 f2 H2) as (g2 & Hg2 & _ & He2 & _).
    rewrite <- (He1 Hp1) in Hg1. rewrite <- (He2 Hp2) in Hg2.
    exact (Hinv k1 k2 f1 f2 Hg1 Hg2 Hc Hp1 Hp2).
Qed.

Lemma ContractFile_save_demotes :
  cf_is_primary self = true ->
  saved !! key = Some self
  /\ (forall k f, files st !! k = Some f -> self_pk <> Some k ->
        cf_contract f = cf_contract self -> cf_is_primary f = true ->
        saved !! k = Some (set_is_primary false f))
  /\ (forall k f', saved !! k = Some f' -> k <> key ->
        cf_contract f' = cf_contract self -> cf_is_primary f' = false).
Proof.
  intros Hprimary. rewrite saved_unfold. split; [apply lookup_insert_eq |].
  split.
  - intros k f Hf Hne Hc Hp.
    pose proof (demoted_previous k f Hprimary Hf Hc Hp Hne) as Hd.
    rewrite lookup_insert_ne; [exact Hd |].
    intros Heq. symmetry in Heq. revert Heq. apply other_key; eauto.
  - intros k f' Hk Hne Hc. rewrite lookup_insert_ne in Hk by congruence.
    destruct (demoted_lookup k f' Hk) as (f & _ & _ & _ & Hself).
    destruct (cf_is_primary f') eqn:Hp; [| reflexivity].
    exfalso. apply Hne. symmetry. apply key_of_self_pk. auto.
Qed.

End PrimaryFile.

Lemma Contract_delete_keeps_invariant (st : Store) (pk : Z) :
  at_most_one_primary (files st) ->
  at_most_one_primary (files (Contract_delete st pk)).
Proof.
  intros Hinv k1 k2 f1 f2 H1 H2. simpl in H1, H2.
  apply CASCADE_keyed_lookup in H1 as [H1 _], H2 as [H2 _].
  exact (Hinv k1 k2 f1 f2 H1 H2).
Qed.

(** C7. ContractFile.save does not keep the rule of one primary file by
    itself. When two requests save a new primary file each for the same
    contract and the second runs the first statement of the method before
    the first request has written its row, both rows are stored, under
    two keys, and both are marked primary: the file table then holds two
    primary files of one contract. *)
Theorem interleaved_saves_leave_two_primary_files (st : Store)
    (a b : ContractFile) :
  cf_is_primary a = true ->
  cf_is_primary b = true ->
  cf_contract a = cf_contract b ->
  let '(st', key_a, key_b) := interleaved_saves st a b in
  key_a <> key_b
  /\ files st' !! key_a = Some a
  /\ files st' !! key_b = Some b
  /\ ~ at_most_one_primary (files st').
Proof.
  intros Ha Hb Hc. unfold interleaved_saves.
  set (st2 := ContractFile_save_update (ContractFile_save_update st None a)
                None b).
  unfold ContractFile_save_super.
  set (ka := next_pk st2 "contracts_contract_file" (pks (files st2))).
  set (st3 := set_files (<[ka := a]> (files st2))
                (note_pk "contracts_contract_file" ka st2)).
  set (kb := next_pk st3 "contracts_contract_file" (pks (files st3))).
  assert (Hlt : ka < kb).
  { destruct (next_pk_follows st3 "contracts_contract_file" (pks (files st3)))
      as [_ Hlast]. fold kb in Hlast.
    assert (Hnoted : last_pk st3 "contracts_contract_file"
                     = Z.max (last_pk st2 "contracts_contract_file") ka)
      by apply note_pk_last.
    lia. }
  assert (Hka : <[kb := b]> (files st3) !! ka = Some a).
  { rewrite lookup_insert_ne by lia. apply lookup_insert_eq. }
  assert (Hkb : <[kb := b]> (files st3) !! kb = Some b)
    by apply lookup_insert_eq.
  cbn [files set_files].
  split; [lia |]. split; [exact Hka |]. split; [exact Hkb |].
  intros Hone. specialize (Hone ka kb a b Hka Hkb Hc Ha Hb). lia.
Qed.

(** X29. When every write runs to its end before the next one starts, at
    most one file of a contract is marked primary in every state the
    application reaches; and in such a state, saving a file marked
    primary stores it and leaves every other file of its contract
    non-primary, the file that was primary before included. *)
Theorem one_primary_file_per_contract (st : Store) :
  files_reachable st ->
  at_most_one_primary (files st)
  /\ forall (self_pk : option Z) (self : ContractFile),
       cf_is_primary self = true ->
       let st' := fst (ContractFile_save st self_pk self) in
       let key := snd (ContractFile_save st self_pk self) in
       at_most_one_primary (files st')
       /\ files st' !! key = Some self
       /\ (forall k f, files st !! k = Some f -> self_pk <> Some k ->
             cf_contract f = cf_contract self -> cf_is_primary f = true ->
             files st' !! k = Some (set_is_primary false f))
       /\ (forall k f', files st' !! k = Some f' -> k <> key ->
             cf_contract f' = cf_contract self -> cf_is_primary f' = false).
Proof.
  intros Hreach.
  assert (Hinv : at_most_one_primary (files st)).
  { induction Hreach as [| st st' _ IH Hstep].
    - intros k1 k2 f1 f2 H1. simpl in H1. rewrite lookup_empty in H1. discriminate.
    - destruct Hstep as [st self_pk self | st pk | st st' Hsame].
      + apply ContractFile_save_keeps_invariant, IH.
      + apply Contract_delete_keeps_invariant, IH.
      + intros k1 k2 f1 f2 H1 H2 Hc Hp1 Hp2.
        destruct (Hsame k1 f1 H1) as (g1 & Hg1 & Hc1 & Hq1).
        destruct (Hsame k2 f2 H2) as (g2 & Hg2 & Hc2 & Hq2).
        apply (IH k1 k2 g1 g2 Hg1 Hg2); auto. congruence. }
  split; [exact Hinv |].
  intros self_pk self Hprimary st' key.
  split; [apply ContractFile_save_keeps_invariant, Hinv |].
  apply ContractFile_save_demotes, Hprimary.
Qed.

(** ** Version numbers (services.py) *)

Lemma last_version_nil (rows : list ContractVersion) :
  last_version rows = None <-> rows = [].
Proof.
  destruct rows as [|v rest]; simpl; [tauto |].
  split; [| discriminate].
  destruct (last_version rest) as [w|]; [| discriminate].
  destruct (cv_version_number v <? cv_version_number w); discriminate.
Qed.

Lemma last_version_greatest (rows : list ContractVersion) (w : ContractVersion) :
  last_version rows = Some w ->
  In w rows /\ forall v, In v rows -> cv_version_number v <= cv_version_number w.
Proof.
  revert w. induction rows as [|x rest IH]; intros w; simpl; [discriminate |].
  destruct (last_version rest) as [m|] eqn:Hm.
  - destruct (IH m eq_refl) as [Hin Hmax].
    destruct (Z.ltb_spec (cv_version_number x) (cv_version_number m));
      intros [= <-]; (split; [auto |]); intros v [<- | Hv];
      try lia; specialize (Hmax v Hv); lia.
  - apply last_version_nil in Hm as ->. intros [= <-].
    split; [auto |]. intros v [<- | []]. lia.
Qed.

Lemma AuditLogService_log_versions (now : DateTime) (st : Store)
    (contract : option Z) (action : string) (actor : User)
    (metadata : list (string * Json)) :
  versions (AuditLogService_log now st contract action actor metadata)
  = versions st.
Proof. reflexivity. Qed.

Lemma contract_versions_append (st : Store) (v : ContractVersion) (contract : Z) :
  contract_versions (set_versions (versions st ++ [v]) st) contract
  = (contract_versions st contract
     ++ (if cv_contract v =? contract then [v] else []))%list.
Proof.
  unfold contract_versions. simpl. rewrite List.filter_app. simpl.
  destruct (cv_contract v =? contract); reflexivity.
Qed.

Lemma create_contract_versions (now : DateTime) (new_id : Z) (st : Store)
    (user : User) (data : ContractData) (file : option UploadedFile) :
  c_id (snd (ContractOperationsService_create_contract now new_id st user
               data file)) = new_id
  /\ versions (fst (ContractOperationsService_create_contract now new_id st
                      user data file))
     = (versions st
        ++ [{| cv_contract := new_id; cv_version_number := 1;
               cv_label := "Initial Version"; cv_has_file := false;
               cv_notes := ""; cv_created_by := Some (u_pk user) |}])%list.
Proof.
  unfold ContractOperationsService_create_contract, Contract_save.
  destruct (str_falsy _); simpl;
    destruct (default [] (d_tags data)); simpl;
    destruct file as [f|]; simpl; try destruct (str_falsy (uf_name f));
    simpl; split; reflexivity.
Qed.

Lemma filter_none {A : Type} (p : A -> bool) (l : list A) :
  (forall x, In x l -> p x = false) -> List.filter p l = [].
Proof.
  induction l as [|a l IH]; intros Hall; [reflexivity |]. simpl.
  rewrite (Hall a (or_introl eq_refl)). apply IH.
  intros x Hx. apply Hall. right. exact Hx.
Qed.

Lemma seq_from_one_snoc (n : nat) :
  List.map Z.of_nat (seq 1 (S n))
  = (List.map Z.of_nat (seq 1 n) ++ [Z.of_nat n + 1])%list.
Proof.
  rewrite seq_S, List.map_app. simpl. f_equal. f_equal. lia.
Qed.

(** C8. Creating a contract leaves it with exactly one version, numbered 1
    and labelled 'Initial Version'. [add_version] appends a version whose
    number is 1 when the contract has none and the greatest number so far
    plus one otherwise, so it exceeds every earlier one; when the numbers
    so far are 1..n, they are 1..n+1 afterwards. *)
Theorem version_numbers_count_from_one (now : DateTime) (st : Store)
    (user : User) :
  (forall new_id data file,
     (forall v, In v (versions st) -> cv_contract v <> new_id) ->
     let created :=
       ContractOperationsService_create_contract now new_id st user data file in
     c_id (snd created) = new_id
     /\ contract_versions (fst created) new_id
        = [{| cv_contract := new_id; cv_version_number := 1;
              cv_label := "Initial Version"; cv_has_file := false;
              cv_notes := ""; cv_created_by := Some (u_pk user) |}])
  /\ (forall contract label file notes,
        let rows := contract_versions st (c_id contract) in
        let added :=
          ContractOperationsService_add_version now st user contract label
            file notes in
        contract_versions (fst added) (c_id contract)
        = (rows ++ [snd added])%list
        /\ cv_label (snd added) = label
        /\ (rows = [] -> cv_version_number (snd added) = 1)
        /\ (rows <> [] ->
            exists w, In w rows
              /\ (forall v, In v rows ->
                    cv_version_number v <= cv_version_number w)
              /\ cv_version_number (snd added) = cv_version_number w + 1)
        /\ (forall v, In v rows ->
              cv_version_number v < cv_version_number (snd added))
        /\ (forall n : nat,
              List.map cv_version_number rows = List.map Z.of_nat (seq 1 n) ->
              List.map cv_version_number (rows ++ [snd added])%list
              = List.map Z.of_nat (seq 1 (S n)))).
Proof.
  split.
  - intros new_id data file Hfresh created.
    destruct (create_contract_versions now new_id st user data file)
      as [Hid Hversions].
    split; [exact Hid |].
    unfold contract_versions. subst created. rewrite Hversions.
    rewrite List.filter_app. simpl. rewrite Z.eqb_refl.
    rewrite filter_none; [reflexivity |].
    intros v Hv. apply Z.eqb_neq, Hfresh, Hv.
  - intros contract label file notes rows added.
    unfold ContractOperationsService_add_version in added.
    fold rows in added.
    assert (Hrows : contract_versions (fst added) (c_id contract)
                    = (rows ++ [snd added])%list).
    { subst added. simpl fst. simpl snd.
      unfold contract_versions at 1. rewrite AuditLogService_log_versions.
      fold (contract_versions
              (set_versions (versions st ++ [
                 {| cv_contract := c_id contract;
                    cv_version_number :=
                      match last_version rows with
                      | Some lv => cv_version_number lv + 1
                      | None => 1
                      end;
                    cv_label := label;
                    cv_has_file := bool_decide (is_Some file);
                    cv_notes := notes;
                    cv_created_by := Some (u_pk user) |}]) st)
              (c_id contract)).
      rewrite contract_versions_append. simpl. rewrite Z.eqb_refl.
      reflexivity. }
    assert (Hnumber : cv_version_number (snd added)
                      = match last_version rows with
                        | Some lv => cv_version_number lv + 1
                        | None => 1
                        end) by reflexivity.
    split; [exact Hrows |]. split; [reflexivity |].
    destruct (last_version rows) as [w|] eqn:Hlast.
    + destruct (last_version_greatest rows w Hlast) as [Hin Hmax].
      split; [intros ->; destruct Hin |].
      split; [intros _; exists w; auto |].
      split; [intros v Hv; specialize (Hmax v Hv); lia |].
      intros n Hn. rewrite List.map_app, Hn, seq_from_one_snoc.
      cbn [List.map]. rewrite Hnumber. f_equal. f_equal.
      assert (Hw : In (cv_version_number w) (List.map Z.of_nat (seq 1 n)))
        by (rewrite <- Hn; apply in_map; exact Hin).
      apply in_map_iff in Hw as (i & Hi & Hseq). apply in_seq in Hseq.
      assert (Htop : In (Z.of_nat n) (List.map cv_version_number rows)).
      { rewrite Hn. apply in_map. apply in_seq. lia. }
      apply in_map_iff in Htop as (t & Ht & Htin).
      specialize (Hmax t Htin). lia.
    + apply last_version_nil in Hlast.
      split; [intros _; exact Hnumber |].
      split; [intros Hne; contradiction |].
      split; [rewrite Hlast; intros v [] |].
      intros n Hn. rewrite Hlast in Hn |- *. destruct n; [| discriminate].
      cbn [List.map app seq]. rewrite Hnumber. reflexivity.
Qed.

(** ** The creation wizard (views.py) *)

Lemma create_contract_result (now : DateTime) (new_id : Z) (st : Store)
    (user : User) (data : ContractData) (file : option UploadedFile) :
  d_contract_number data = None ->
  let created :=
    ContractOperationsService_create_contract now new_id st user data file in
  contracts (fst created) !! new_id = Some (snd created)
  /\ c_id (snd created) = new_id
  /\ c_status (snd created) = default DRAFT (d_status data)
  /\ c_title (snd created) = default "" (d_title data)
  /\ c_category (snd created) = default "OTHER" (d_category data)
  /\ c_created_by (snd created) = Some (u_pk user)
  /\ c_is_confidential (snd created) = default false (d_is_confidential data)
  /\ audit_logs (fst created)
     = (audit_logs st
        ++ [{| al_contract := Some new_id; al_action := "CREATE_CONTRACT";
               al_actor := Some (u_pk user);
               al_metadata :=
                 [("title", JStr (default "" (d_title data)));
                  ("status", JStr (default DRAFT (d_status data)))];
               al_created_at := dt_stamp now |}])%list.
Proof.
  intros Hnone created. subst created.
  unfold ContractOperationsService_create_contract, Contract_save.
  cbn [c_contract_number Contract_setattrs Contract_init d_contract_number
       from_option].
  rewrite Hnone. cbn [from_option]. unfold id at 1 2.
  change (str_falsy "") with true. cbv iota.
  destruct (default [] (d_tags data)); destruct file as [f|];
    try destruct (str_falsy (uf_name f)); simpl;
    rewrite lookup_alter_eq, lookup_insert_eq; repeat split; reflexivity.
Qed.

Lemma final_step_is_owner_tags (step : string) :
  String.eqb step "method" = false ->
  (index_or_0 step STEPS <? length STEPS - 1)%nat = false ->
  step = "owner_tags".
Proof.
  intros Hmethod. unfold STEPS. simpl. rewrite Hmethod.
  repeat match goal with
         | |- context [String.eqb step ?s] =>
             destruct (String.eqb_spec step s); simpl; try discriminate
         end; auto.
Qed.

Lemma demote_other_primaries_unused (t : gmap Z ContractFile)
    (self_pk : option Z) (self : ContractFile) (k : Z) :
  demote_other_primaries t self_pk self !! k = None -> t !! k = None.
Proof.
  unfold demote_other_primaries.
  destruct (cf_is_primary self); [| auto].
  rewrite map_lookup_imap. destruct (t !! k); [discriminate | reflexivity].
Qed.

(** A file created through the service is a new row of the file table,
    written after the other primary files of its contract are demoted;
    no other table changes. *)
Lemma create_contract_file_new (st : Store) (user : User)
    (contract : Contract) (file : UploadedFile) (is_primary : bool)
    (description : string) :
  let row :=
    {| cf_contract := c_id contract; cf_original_filename := uf_name file;
       cf_file_size := uf_size file; cf_is_primary := is_primary;
       cf_description := description; cf_uploaded_by := Some (u_pk user) |} in
  let st' :=
    fst (ContractOperationsService__create_contract_file st user contract
           file is_primary description) in
  (exists key,
     files st !! key = None
     /\ files st' = <[key := row]> (demote_other_primaries (files st) None row))
  /\ contracts st' = contracts st
  /\ contract_tags st' = contract_tags st
  /\ versions st' = versions st
  /\ audit_logs st' = audit_logs st
  /\ shares st' = shares st
  /\ approvals st' = approvals st
  /\ clauses st' = clauses st
  /\ deviations st' = deviations st
  /\ risks st' = risks st
  /\ signatures st' = signatures st.
Proof.
  intros row st'. split; [| repeat split; reflexivity].
  exists (snd (ContractOperationsService__create_contract_file st user
                 contract file is_primary description)).
  split; [| reflexivity].
  apply (demote_other_primaries_unused (files st) None row).
  apply (next_pk_unused (ContractFile_save_update st None row)).
Qed.

Section WizardCommit.

Variable Decimal_of_str : string -> option Decimal.

(** [_save_contract] creates the contract from what the session holds,
  under the status its flag selects, whenever the stored amount (if any)
  is a decimal literal. *)
Lemma save_contract_creates (now : DateTime) (new_id : Z) (st : Store)
  (user : User) (session : Session) (wizard_data : gmap string StepData)
  (as_draft : bool) (amount : option Decimal) :
ContractCreateWizardView__parse_decimal Decimal_of_str
  match wizard_data !! "value" with
  | Some (ValueData v _ _) => v
  | _ => None
  end = Ok amount ->
exists st' c,
  ContractCreateWizardView__save_contract Decimal_of_str now new_id st user
    session wizard_data as_draft
  = Ok (st',
        {| contract_wizard := None; contract_wizard_file := None;
           contract_wizard_file_name := None |},
        Redirect "contracts:detail" (Some new_id))
  /\ contracts st' !! new_id = Some c
  /\ c_id c = new_id
  /\ c_status c = (if as_draft then DRAFT else PENDING)
  /\ c_title c = match wizard_data !! "name" with
                 | Some (NameData t) => t
                 | _ => "Untitled Contract"
                 end
  /\ c_value_amount c = amount
  /\ c_created_by c = Some (u_pk user)
  /\ c_is_confidential c = match wizard_data !! "owner_tags" with
                           | Some (OwnerTagsData _ _ confidential) =>
                               confidential
                           | _ => false
                           end
  /\ contract_versions st' new_id
     = (contract_versions st new_id
        ++ [{| cv_contract := new_id; cv_version_number := 1;
               cv_label := "Initial Version"; cv_has_file := false;
               cv_notes := ""; cv_created_by := Some (u_pk user) |}])%list
  /\ List.map al_action (audit_logs st')
     = (List.map al_action (audit_logs st) ++ ["CREATE_CONTRACT"])%list.
Proof.
intros Hparse. unfold ContractCreateWizardView__save_contract.
rewrite Hparse. cbn [mbind PyResult_bind].
match goal with
| |- context [ContractOperationsService_create_contract now new_id st user
                ?data ?file] =>
    pose proof (create_contract_result now new_id st user data file eq_refl)
      as Hcreated;
    pose proof (create_contract_versions now new_id st user data file)
      as Hversions;
    destruct (ContractOperationsService_create_contract now new_id st user
                data file) as [st' c] eqn:Hcall
end.
cbn [fst snd d_status d_title d_is_confidential from_option]
  in Hcreated, Hversions.
unfold id in Hcreated.
destruct Hcreated
  as (Hrow & Hid & Hstatus & Htitle & _ & Hby & Hconf & Hlogs).
destruct Hversions as [_ Hversions].
exists st', c.
split; [rewrite Hid; reflexivity |]. split; [exact Hrow |].
split; [exact Hid |].
split; [exact Hstatus |]. split; [exact Htitle |].
split.
{ apply (f_equal snd) in Hcall. simpl in Hcall. rewrite <- Hcall.
  unfold ContractOperationsService_create_contract, Contract_save.
  simpl. reflexivity. }
split; [exact Hby |]. split; [exact Hconf |]. split.
- unfold contract_versions. rewrite Hversions, List.filter_app. simpl.
  rewrite Z.eqb_refl. reflexivity.
- rewrite Hlogs, List.map_app. reflexivity.
Qed.

Lemma save_contract_inv (now : DateTime) (new_id : Z) (st : Store)
  (user : User) (session : Session) (wizard_data : gmap string StepData)
  (as_draft : bool) (st' : Store) (session' : Session) (resp : Response) :
ContractCreateWizardView__save_contract Decimal_of_str now new_id st user
  session wizard_data as_draft = Ok (st', session', resp) ->
resp = Redirect "contracts:detail" (Some new_id)
/\ exists c, contracts st' !! new_id = Some c
     /\ c_status c = (if as_draft then DRAFT else PENDING).
Proof.
intros Hsave.
destruct (ContractCreateWizardView__parse_decimal Decimal_of_str
            match wizard_data !! "value" with
            | Some (ValueData v _ _) => v
            | _ => None
            end) as [amount | e] eqn:Hparse.
- destruct (save_contract_creates now new_id st user session wizard_data
              as_draft amount Hparse)
    as (st1 & c & Hcall & Hrow & _ & Hstatus & _).
  rewrite Hcall in Hsave. injection Hsave as <- _ <-.
  split; [reflexivity |]. exists c. auto.
- unfold ContractCreateWizardView__save_contract in Hsave.
  rewrite Hparse in Hsave. discriminate Hsave.
Qed.

Lemma save_contract_commits (now : DateTime) (new_id : Z) (st : Store)
  (user : User) (session : Session) (wizard_data : gmap string StepData)
  (as_draft : bool) (amount : option Decimal) :
ContractCreateWizardView__parse_decimal Decimal_of_str
  match wizard_data !! "value" with
  | Some (ValueData v _ _) => v
  | _ => None
  end = Ok amount ->
exists st',
  ContractCreateWizardView__save_contract Decimal_of_str now new_id st user
    session wizard_data as_draft
  = Ok (st',
        {| contract_wizard := None; contract_wizard_file := None;
           contract_wizard_file_name := None |},
        Redirect "contracts:detail" (Some new_id))
  /\ wizard_committed now new_id user session wizard_data amount
       (if as_draft then DRAFT else PENDING) st st'.
Proof.
intros Hparse. unfold ContractCreateWizardView__save_contract.
rewrite Hparse. cbn [mbind PyResult_bind].
unfold ContractOperationsService_create_contract, Contract_save,
  wizard_committed, kept_file, gathered_contract, str_falsy.
destruct (contract_wizard_file session) as [file_data|];
  [destruct (contract_wizard_file_name session) as [file_name|];
   [destruct (String.eqb file_data ""); cbn [orb];
    [| destruct (String.eqb file_name "") eqn:Hname] |] |];
  (destruct (wizard_data !! "owner_tags") as [[| | | | | | | [owner|] tags ? |]|];
   try destruct tags as [|tag tags];
   cbn -[String.append upper strftime_Ym uuid_str py_prefix remove_dups
         ContractOperationsService__create_contract_file];
   eexists; (split; [reflexivity |])).
all: cbn -[String.append upper strftime_Ym uuid_str py_prefix remove_dups
           ContractOperationsService__create_contract_file].
all: try rewrite Hname.
all: try match goal with
         | |- context [fst (ContractOperationsService__create_contract_file
                              ?s ?u ?c ?f ?p ?d)] =>
             destruct (create_contract_file_new s u c f p d)
               as ((key & Hfresh & Hfiles) & -> & -> & -> & -> & -> & -> & ->
                   & -> & -> & ->)
         end.
all: rewrite alter_insert_eq.
all: repeat split; try reflexivity.
all: try (exists key; split; [exact Hfresh | exact Hfiles]).
Qed.

Lemma parse_decimal_reads (kept : option string) (amount : option Decimal) :
amount_reads Decimal_of_str kept amount ->
ContractCreateWizardView__parse_decimal Decimal_of_str kept = Ok amount.
Proof.
unfold amount_reads, ContractCreateWizardView__parse_decimal.
intros [[[-> | ->] ->] | (text & d & -> & Htext & Hd & ->)];
  [reflexivity | reflexivity |].
rewrite (proj2 (String.eqb_neq _ _) Htext), Hd. reflexivity.
Qed.

Lemma parse_decimal_raises (text : string) :
text <> "" ->
Decimal_of_str text = None ->
ContractCreateWizardView__parse_decimal Decimal_of_str (Some text)
= Raise InvalidOperation.
Proof.
intros Htext Hd. unfold ContractCreateWizardView__parse_decimal.
rewrite (proj2 (String.eqb_neq _ _) Htext), Hd. reflexivity.
Qed.

Lemma save_contract_raises (now : DateTime) (new_id : Z) (st : Store)
  (user : User) (session : Session) (wizard_data : gmap string StepData)
  (as_draft : bool) (text currency opportunity_id : string) :
text <> "" ->
Decimal_of_str text = None ->
wizard_data !! "value" = Some (ValueData (Some text) currency opportunity_id) ->
ContractCreateWizardView__save_contract Decimal_of_str now new_id st user
  session wizard_data as_draft = Raise InvalidOperation.
Proof.
intros Htext Hd Hvalue. unfold ContractCreateWizardView__save_contract.
rewrite Hvalue, (parse_decimal_raises text Htext Hd). reflexivity.
Qed.

(** C9. A commit of the wizard does not always create the contract. The
  value step keeps the posted amount as it is, whatever the text. When
  the session holds an amount that is not empty and not a decimal
  literal, a post that asks to save as draft, at whatever step, raises
  decimal.InvalidOperation, and so does a valid post of the last step
  (owner_tags): no contract is created, as Draft or as Pending, and the
  data gathered so far are not committed. *)
Theorem unparsable_amount_aborts_the_commit (now : DateTime) (new_id : Z)
  (st : Store) (session : Session) (request : WizardRequest) (text : string) :
text <> "" ->
Decimal_of_str text = None ->
let step := default "method" (req_current_step request) in
let action := default "next" (req_action request) in
let wizard_data := default ∅ (contract_wizard session) in
let response :=
  ContractCreateWizardView_post Decimal_of_str now new_id st session request in
(action <> "back" -> action <> "save_draft" -> step = "value" ->
 req_value_amount request = Some text ->
 exists wizard_data',
   response
   = Ok (st,
         {| contract_wizard := Some wizard_data';
            contract_wizard_file := contract_wizard_file session;
            contract_wizard_file_name := contract_wizard_file_name session |},
         RedirectStep "owner_tags")
   /\ wizard_data' !! "value"
      = Some (ValueData (Some text) (default "INR" (req_currency request))
                (default "" (req_opportunity_id request)))
   /\ forall key, key <> "value" -> wizard_data' !! key = wizard_data !! key)
/\ (forall currency opportunity_id,
      wizard_data !! "value"
      = Some (ValueData (Some text) currency opportunity_id) ->
      (action = "save_draft" -> response = Raise InvalidOperation)
      /\ (action <> "back" -> action <> "save_draft" ->
          step = "owner_tags" ->
          forall cleaned,
            req_validate request "ContractOwnerTagsForm" = Some cleaned ->
            response = Raise InvalidOperation)).
Proof.
intros Htext Hd step action wizard_data response.
unfold ContractCreateWizardView_post in response.
fold step action wizard_data in response.
split.
- intros Hback Hdraft Hstep Hamount. subst response.
  rewrite (proj2 (String.eqb_neq _ _) Hback).
  rewrite (proj2 (String.eqb_neq _ _) Hdraft).
  rewrite Hstep, Hamount. cbn [String.eqb Ascii.eqb Bool.eqb from_option].
  unfold id. rewrite (proj2 (str_falsy_false text) Htext).
  eexists. split; [reflexivity |].
  split; [apply lookup_insert_eq |].
  intros key Hkey. apply lookup_insert_ne. congruence.
- intros currency opportunity_id Hvalue. split.
  + intros Haction. subst response. rewrite Haction. simpl.
    apply (save_contract_raises now new_id st (req_user request) session
             wizard_data true text currency opportunity_id Htext Hd Hvalue).
  + intros Hback Hdraft Hstep cleaned Hvalid. subst response.
    rewrite (proj2 (String.eqb_neq _ _) Hback).
    rewrite (proj2 (String.eqb_neq _ _) Hdraft).
    rewrite Hstep. cbn [String.eqb Ascii.eqb Bool.eqb STEP_FORMS].
    rewrite Hvalid.
    assert (Hkept : <["owner_tags" := cleaned]> wizard_data !! "value"
                    = Some (ValueData (Some text) currency opportunity_id))
      by (rewrite lookup_insert_ne by discriminate; exact Hvalue).
    destruct (req_file request) as [f|]; cbv zeta iota beta;
      change (index_or_0 "owner_tags" STEPS <? length STEPS - 1)%nat with false;
      cbv iota;
      match goal with
      | |- ContractCreateWizardView__save_contract _ _ _ _ ?u ?s _ _ = _ =>
          apply (save_contract_raises now new_id st u s
                   (<["owner_tags" := cleaned]> wizard_data) false text
                   currency opportunity_id Htext Hd Hkept)
      end.
Qed.

(** X30. What a commit of the wizard stores, when the amount kept from the
  value step (if any) is a decimal literal. A post that asks to save as
  draft, at whatever step, stores the contract gathered in the session
  with status Draft; a valid post of the last step (owner_tags) stores
  the contract gathered in the session and in this post with status
  Pending. The stored contract has every field of the steps taken and
  the default of every other field, the amount as a decimal, the
  requesting user as creator and, unless the last step names another,
  as owner; with it go the tags of the last step, the file kept by the
  upload step as its primary file, version 1 and one CREATE_CONTRACT
  audit entry; the other tables stay as they are and the session is
  cleared. A post creates a contract in these two cases only. *)
Theorem wizard_commit_stores_the_gathered_data (now : DateTime) (new_id : Z)
  (st : Store) (session : Session) (request : WizardRequest) :
let step := default "method" (req_current_step request) in
let action := default "next" (req_action request) in
let wizard_data := default ∅ (contract_wizard session) in
let stored_amount :=
  match wizard_data !! "value" with
  | Some (ValueData v _ _) => v
  | _ => None
  end in
let cleared :=
  {| contract_wizard := None; contract_wizard_file := None;
     contract_wizard_file_name := None |} in
let response :=
  ContractCreateWizardView_post Decimal_of_str now new_id st session request in
(action = "save_draft" ->
 forall amount,
   amount_reads Decimal_of_str stored_amount amount ->
   exists st',
     response = Ok (st', cleared, Redirect "contracts:detail" (Some new_id))
     /\ wizard_committed now new_id (req_user request) session wizard_data
          amount DRAFT st st')
/\ (action <> "back" -> action <> "save_draft" -> step = "owner_tags" ->
    forall cleaned amount,
      req_validate request "ContractOwnerTagsForm" = Some cleaned ->
      amount_reads Decimal_of_str stored_amount amount ->
      exists st',
        response = Ok (st', cleared, Redirect "contracts:detail" (Some new_id))
        /\ wizard_committed now new_id (req_user request) session
             (<["owner_tags" := cleaned]> wizard_data) amount PENDING st st')
/\ (forall st' session' name pk,
      response = Ok (st', session', Redirect name pk) ->
      name = "contracts:detail" /\ pk = Some new_id
      /\ exists c, contracts st' !! new_id = Some c
           /\ (action = "save_draft" /\ c_status c = DRAFT
               \/ action <> "save_draft" /\ step = "owner_tags"
                  /\ c_status c = PENDING)).
Proof.
intros step action wizard_data stored_amount cleared response.
unfold ContractCreateWizardView_post in response.
fold step action wizard_data in response.
split; [| split].
- intros Haction amount Hreads. subst response. rewrite Haction. simpl.
  apply save_contract_commits, parse_decimal_reads, Hreads.
- intros Hback Hdraft Hstep cleaned amount Hvalid Hreads. subst response.
  rewrite (proj2 (String.eqb_neq _ _) Hback).
  rewrite (proj2 (String.eqb_neq _ _) Hdraft).
  rewrite Hstep. cbn [String.eqb Ascii.eqb Bool.eqb STEP_FORMS].
  rewrite Hvalid.
  set (wizard_data' := <["owner_tags" := cleaned]> wizard_data).
  assert (Hamount : match wizard_data' !! "value" with
                    | Some (ValueData v _ _) => v
                    | _ => None
                    end = stored_amount)
    by (unfold wizard_data'; rewrite lookup_insert_ne by discriminate;
        reflexivity).
  apply parse_decimal_reads in Hreads. rewrite <- Hamount in Hreads.
  destruct (req_file request) as [f|]; cbv zeta iota beta;
    change (index_or_0 "owner_tags" STEPS <? length STEPS - 1)%nat with false;
    cbv iota;
    match goal with
    | |- context [ContractCreateWizardView__save_contract _ _ _ _ ?u ?s _ _] =>
        destruct (save_contract_commits now new_id st u s wizard_data' false
                    amount Hreads) as (st' & Hcall & Hcommitted)
    end;
    exists st'; (split; [exact Hcall | exact Hcommitted]).
- intros st' session' name pk Hresp. subst response.
  destruct (String.eqb_spec action "back") as [Hback | Hback].
  { destruct (index_or_0 step STEPS) as [|prev];
      [discriminate Hresp |].
    destruct (_ && _); discriminate Hresp. }
  destruct (String.eqb_spec action "save_draft") as [Hdraft | Hdraft].
  { apply save_contract_inv in Hresp as [[= -> ->] (c & Hrow & Hstatus)].
    split; [reflexivity |]. split; [reflexivity |]. exists c. auto. }
  destruct (String.eqb_spec step "value") as [Hvalue | Hvalue];
    [discriminate Hresp |].
  destruct (req_validate request (STEP_FORMS step)) as [cleaned|];
    [| discriminate Hresp].
  destruct (match req_file request with
            | Some f =>
                if String.eqb step "upload" then
                  (<["uploaded_file" := UploadedFileInfo (uf_name f) (uf_size f)]>
                     (<[step := cleaned]> wizard_data),
                   Some (uf_content f), Some (uf_name f))
                else (<[step := cleaned]> wizard_data,
                      contract_wizard_file session,
                      contract_wizard_file_name session)
            | None => (<[step := cleaned]> wizard_data,
                       contract_wizard_file session,
                       contract_wizard_file_name session)
            end) as [[wizard_data' file_data] file_name].
  destruct (String.eqb step "method") eqn:Hmethod.
  { destruct cleaned; try discriminate Hresp.
    destruct (String.eqb method "template"); discriminate Hresp. }
  destruct (index_or_0 step STEPS <? length STEPS - 1)%nat eqn:Hindex.
  { destruct (_ && _); discriminate Hresp. }
  apply save_contract_inv in Hresp as [[= -> ->] (c & Hrow & Hstatus)].
  split; [reflexivity |]. split; [reflexivity |]. exists c.
  split; [exact Hrow |]. right.
  split; [exact Hdraft |]. split; [| exact Hstatus].
  apply final_step_is_owner_tags; assumption.
Qed.

End WizardCommit.

Lemma unparsable_amount_aborts_the_commit_witness :
  exists session',
    ContractCreateWizardView_post sample_Decimal_of_str sample_now 42
      empty_store sample_session (value_step_request "abc")
    = Ok (empty_store, session', RedirectStep "owner_tags")
    /\ ContractCreateWizardView_post sample_Decimal_of_str sample_now 42
         empty_store session' save_draft_request
       = Raise InvalidOperation
    /\ ContractCreateWizardView_post sample_Decimal_of_str sample_now 42
         empty_store session' owner_tags_request
       = Raise InvalidOperation.
Proof.
  destruct (unparsable_amount_aborts_the_commit sample_Decimal_of_str
              sample_now 42 empty_store sample_session
              (value_step_request "abc") "abc") as [Hkeeps _];
    [discriminate | reflexivity |].
  destruct Hkeeps as (wizard_data' & Hpost & Hvalue & _);
    [discriminate | discriminate | reflexivity | reflexivity |].
  eexists. split; [exact Hpost |]. split.
  - destruct (unparsable_amount_aborts_the_commit sample_Decimal_of_str
                sample_now 42 empty_store
                {| contract_wizard := Some wizard_data';
                   contract_wizard_file := None;
                   contract_wizard_file_name := None |}
                save_draft_request "abc") as [_ Hraises];
      [discriminate | reflexivity |].
    destruct (Hraises "INR" "" Hvalue) as [Hdraft _].
    exact (Hdraft eq_refl).
  - destruct (unparsable_amount_aborts_the_commit sample_Decimal_of_str
                sample_now 42 empty_store
                {| contract_wizard := Some wizard_data';
                   contract_wizard_file := None;
                   contract_wizard_file_name := None |}
                owner_tags_request "abc") as [_ Hraises];
      [discriminate | reflexivity |].
    destruct (Hraises "INR" "" Hvalue) as [_ Hfinal].
    apply (Hfinal ltac:(discriminate) ltac:(discriminate) eq_refl
             (OwnerTagsData None [3; 4] true) eq_refl).
Defined.

Lemma wizard_commit_stores_the_gathered_data_witness :
  exists st',
    ContractCreateWizardView_post sample_Decimal_of_str sample_now 42
      empty_store sample_session_with_file owner_tags_request
    = Ok (st',
          {| contract_wizard := None; contract_wizard_file := None;
             contract_wizard_file_name := None |},
          Redirect "contracts:detail" (Some 42))
    /\ wizard_committed sample_now 42 (staff_user 1) sample_session_with_file
         (<["owner_tags" := OwnerTagsData None [3; 4] true]>
            (default ∅ (contract_wizard sample_session_with_file)))
         (Some (100050, -2)) PENDING empty_store st'.
Proof.
  destruct (wizard_commit_stores_the_gathered_data sample_Decimal_of_str
              sample_now 42 empty_store sample_session_with_file
              owner_tags_request) as (_ & Hfinal & _).
  apply (Hfinal ltac:(discriminate) ltac:(discriminate) eq_refl
           (OwnerTagsData None [3; 4] true) (Some (100050, -2)) eq_refl).
  right. exists "1000.50", (100050, -2).
  split; [reflexivity |]. split; [discriminate |].
  split; reflexivity.
Defined.

Lemma interleaved_saves_leave_two_primary_files_witness :
  interleaved_saves empty_store (sample_file 42 "test1.pdf" true)
    (sample_file 42 "test2.pdf" true)
  = (set_sequences {[ "contracts_contract_file" := 2 ]}
       (set_files {[ 1 := sample_file 42 "test1.pdf" true;
                     2 := sample_file 42 "test2.pdf" true ]} empty_store),
     1, 2)
  /\ ~ at_most_one_primary
        {[ 1 := sample_file 42 "test1.pdf" true;
           2 := sample_file 42 "test2.pdf" true ]}.
Proof.
  split; [reflexivity |].
  exact (proj2 (proj2 (proj2
           (interleaved_saves_leave_two_primary_files empty_store
              (sample_file 42 "test1.pdf" true)
              (sample_file 42 "test2.pdf" true) eq_refl eq_refl eq_refl)))).
Defined.

Lemma one_primary_file_per_contract_witness :
  files_reachable store_with_primary_file
  /\ files (fst (ContractFile_save store_with_primary_file None
                   (sample_file 42 "test2.pdf" true))) !! 1
     = Some (sample_file 42 "test1.pdf" false)
  /\ files (fst (ContractFile_save store_with_primary_file None
                   (sample_file 42 "test2.pdf" true))) !! 2
     = Some (sample_file 42 "test2.pdf" true).
Proof.
  assert (Hreach : files_reachable store_with_primary_file).
  { eapply files_reachable_step; [apply files_reachable_empty |].
    apply files_step_save. }
  split; [exact Hreach |].
  destruct (one_primary_file_per_contract store_with_primary_file Hreach)
    as [_ Hsave].
  destruct (Hsave None (sample_file 42 "test2.pdf" true) eq_refl)
    as (_ & Hself & Hprevious & _).
  split.
  - apply (Hprevious 1 (sample_file 42 "test1.pdf" true)).
    + reflexivity.
    + discriminate.
    + reflexivity.
    + reflexivity.
  - exact Hself.
Defined.

Lemma version_numbers_count_from_one_witness :
  List.map cv_version_number (contract_versions store_after_creation 42) = [1]
  /\ List.map cv_version_number
       (contract_versions
          (fst (ContractOperationsService_add_version sample_now
                  store_after_creation (staff_user 1)
                  (Contract_init 42 sample_data) "Signed copy" None ""))
          42)
     = [1; 2].
Proof.
  split.
  - destruct (version_numbers_count_from_one sample_now empty_store
                (staff_user 1)) as [Hcreate _].
    destruct (Hcreate 42 sample_data None) as [_ Hrows].
    + intros v [].
    + unfold store_after_creation. rewrite Hrows. reflexivity.
  - destruct (version_numbers_count_from_one sample_now store_after_creation
                (staff_user 1)) as [_ Hadd].
    destruct (Hadd (Contract_init 42 sample_data) "Signed copy" None "")
      as (Hrows & _ & _ & _ & _ & Hseq).
    change (c_id (Contract_init 42 sample_data)) with 42 in Hrows, Hseq.
    rewrite Hrows. exact (Hseq 1%nat eq_refl).
Defined.

(** * Further properties *)

(** ** Permissions *)

Lemma exists_filter_weaken {A : Type} (p : A -> bool) (l : list A) :
  exists_ (List.filter p l) = true -> exists_ l = true.
Proof.
  destruct l as [|a l]; [simpl; discriminate | reflexivity].
Qed.

Lemma is_legal_admin_authenticated (u : User) :
  is_legal_admin (Some u) = true -> u_is_authenticated u = true.
Proof.
  unfold is_legal_admin, get_user_role.
  destruct (u_is_authenticated u); [reflexivity | discriminate].
Qed.

(** X1. An administrator is granted everything: each of the six contract
    predicates answers [True] whatever the contract argument (even
    [None]), and [can_approve_request] answers [True] for every
    approval. *)
Theorem administrator_is_granted_everything (st : Store) (u : User)
    (contract : option Contract) (approval : AdditionalApproval) :
  is_legal_admin (Some u) = true ->
  can_view_contract st (Some u) contract = Ok true
  /\ can_edit_contract st (Some u) contract = Ok true
  /\ can_delete_contract (Some u) contract = Ok true
  /\ can_share_contract (Some u) contract = Ok true
  /\ can_change_status st (Some u) contract = Ok true
  /\ can_manage_approvals st (Some u) contract = Ok true
  /\ can_approve_request (Some u) (Some approval) = Ok true.
Proof.
  intros Hadmin. pose proof (is_legal_admin_authenticated u Hadmin) as Hauth.
  unfold can_view_contract, can_edit_contract, can_delete_contract,
    can_share_contract, can_change_status, can_manage_approvals,
    can_approve_request.
  rewrite Hauth, Hadmin. simpl.
  repeat split; try reflexivity.
  destruct (aa_approver approval =? u_pk u); reflexivity.
Qed.

Lemma administrator_is_granted_everything_witness :
  can_view_contract empty_store (Some (superuser 1)) None = Ok true
  /\ can_edit_contract empty_store (Some (superuser 1)) None = Ok true
  /\ can_delete_contract (Some (superuser 1)) None = Ok true
  /\ can_share_contract (Some (superuser 1)) None = Ok true
  /\ can_change_status empty_store (Some (superuser 1)) None = Ok true
  /\ can_manage_approvals empty_store (Some (superuser 1)) None = Ok true
  /\ can_approve_request (Some (superuser 1))
       (Some (sample_approval 42 1 2 PENDING)) = Ok true.
Proof.
  apply (administrator_is_granted_everything empty_store (superuser 1) None
           (sample_approval 42 1 2 PENDING)).
  reflexivity.
Defined.

(** X2. The rights are nested: whoever may delete a contract may share
    it, whoever may share it may edit it, and whoever may edit it may view
    it. *)
Theorem delete_share_edit_view_are_nested (st : Store) (user : option User)
    (contract : option Contract) :
  (can_delete_contract user contract = Ok true ->
   can_share_contract user contract = Ok true)
  /\ (can_share_contract user contract = Ok true ->
      can_edit_contract st user contract = Ok true)
  /\ (can_edit_contract st user contract = Ok true ->
      can_view_contract st user contract = Ok true).
Proof.
  unfold can_delete_contract, can_share_contract, can_edit_contract,
    can_view_contract.
  destruct user as [u|]; [| repeat split; discriminate].
  destruct (u_is_authenticated u); simpl; [| repeat split; discriminate].
  destruct (is_legal_admin (Some u)); [repeat split; reflexivity |].
  destruct contract as [c|]; simpl; [| repeat split; discriminate].
  destruct (fk_is (c_owner c) (u_pk u)); simpl.
  - repeat split; try reflexivity.
  - split; [discriminate |]. split; [discriminate |].
    destruct (fk_is (c_created_by c) (u_pk u)); [reflexivity |].
    destruct (exists_ (edit_level (shares_with_user st c u))) eqn:Huser.
    + apply exists_filter_weaken in Huser. rewrite Huser. reflexivity.
    + destruct (exists_ (shares_with_user st c u)); [reflexivity |].
      destruct (user_department u) as [d|]; [| discriminate].
      destruct (exists_ (edit_level (shares_with_department st c d)))
        eqn:Hdept; [| discriminate].
      apply exists_filter_weaken in Hdept. rewrite Hdept. reflexivity.
Qed.

Lemma delete_share_edit_view_are_nested_witness :
  can_delete_contract (Some (regular_user 1))
    (Some (sample_contract 42 DRAFT 1 1 false)) = Ok true
  /\ can_view_contract empty_store (Some (regular_user 1))
       (Some (sample_contract 42 DRAFT 1 1 false)) = Ok true.
Proof.
  split; [reflexivity |].
  destruct (delete_share_edit_view_are_nested empty_store
              (Some (regular_user 1))
              (Some (sample_contract 42 DRAFT 1 1 false)))
    as (Hshare & Hedit & Hview).
  apply Hview, Hedit, Hshare. reflexivity.
Defined.

(** X3. Changing the status, managing approvals, and the six helpers for
    files, versions, clauses, risks, deviations and signatures ask for
    exactly the right to edit: each gives the answer of
    [can_edit_contract] on every input, an exception included. *)
Theorem edit_right_governs_contract_changes (st : Store)
    (user : option User) (contract : option Contract) :
  can_change_status st user contract = can_edit_contract st user contract
  /\ can_manage_approvals st user contract = can_edit_contract st user contract
  /\ can_upload_files st user contract = can_edit_contract st user contract
  /\ can_add_version st user contract = can_edit_contract st user contract
  /\ can_manage_clauses st user contract = can_edit_contract st user contract
  /\ can_manage_risks st user contract = can_edit_contract st user contract
  /\ can_manage_deviations st user contract
     = can_edit_contract st user contract
  /\ can_manage_signatures st user contract
     = can_edit_contract st user contract.
Proof.
  assert (Hsame :
    match user with
    | None => Ok false
    | Some u =>
        if negb (u_is_authenticated u) then Ok false
        else if is_legal_admin user then Ok true
        else
          c ← getattr_of contract;
          if fk_is (c_owner c) (u_pk u) then Ok true
          else can_edit_contract st user contract
    end = can_edit_contract st user contract).
  { unfold can_edit_contract.
    destruct user as [u|]; [| reflexivity].
    destruct (u_is_authenticated u) eqn:Hauth; simpl; [| reflexivity].
    destruct (is_legal_admin (Some u)) eqn:Hadmin; [reflexivity |].
    destruct contract as [c|]; simpl; [| reflexivity].
    destruct (fk_is (c_owner c) (u_pk u)); reflexivity. }
  repeat split; try reflexivity; exact Hsame.
Qed.

(** X4. The roles are nested and exclusive as the helpers read them: an
    administrator counts as a legal user, a finance viewer never does,
    only legal users may create contracts, and a user who is not
    authenticated, or whose role attribute holds none of the roles, is
    none of the three. *)
Theorem roles_are_nested_and_exclusive (user : option User) :
  (is_legal_admin user = true -> is_legal_user user = true)
  /\ (is_finance_viewer user = true -> is_legal_user user = false)
  /\ (can_create_contract user = true ->
      get_user_role user = Some LEGAL_ADMIN
      \/ get_user_role user = Some LEGAL_USER)
  /\ (can_admin_contracts user = true -> can_create_contract user = true)
  /\ (not_authenticated user = true \/
      (exists u role, user = Some u /\ u_is_superuser u = false
         /\ u_role u = Some role
         /\ role <> Some LEGAL_ADMIN /\ role <> Some LEGAL_USER
         /\ role <> Some FINANCE_VIEWER) ->
      is_legal_admin user = false /\ is_legal_user user = false
      /\ is_finance_viewer user = false /\ can_create_contract user = false).
Proof.
  unfold can_admin_contracts, can_create_contract, is_legal_admin,
    is_legal_user, is_finance_viewer.
  assert (Hrole : forall r n, role_is r n = true <-> r = Some n).
  { intros [r|] n; simpl; [rewrite String.eqb_eq | ]; split; congruence. }
  split; [intros ->; reflexivity |].
  split.
  { intros Hf. apply Hrole in Hf. rewrite Hf. reflexivity. }
  split.
  { intros Hc. apply orb_true_iff in Hc. rewrite !Hrole in Hc. exact Hc. }
  split; [intros ->; reflexivity |].
  intros Hnone.
  assert (Hnot : get_user_role user <> Some LEGAL_ADMIN
                 /\ get_user_role user <> Some LEGAL_USER
                 /\ get_user_role user <> Some FINANCE_VIEWER).
  { destruct Hnone as [Hna | (u & role & -> & Hsuper & Hattr & H1 & H2 & H3)].
    - rewrite (unauthenticated_no_role user Hna). repeat split; discriminate.
    - unfold get_user_role. rewrite Hsuper, Hattr.
      destruct (u_is_authenticated u); simpl; repeat split;
        try assumption; discriminate. }
  destruct Hnot as (H1 & H2 & H3).
  assert (Hfalse : forall n, get_user_role user <> Some n ->
                     role_is (get_user_role user) n = false).
  { intros n Hn. destruct (role_is (get_user_role user) n) eqn:Hr;
      [apply Hrole in Hr; contradiction | reflexivity]. }
  rewrite (Hfalse _ H1), (Hfalse _ H2), (Hfalse _ H3). repeat split; reflexivity.
Qed.

Lemma roles_are_nested_and_exclusive_witness :
  is_legal_user (Some (superuser 1)) = true
  /\ is_legal_user (Some (finance_viewer_user 2 5)) = false
  /\ can_create_contract (Some AnonymousUser) = false.
Proof.
  destruct (roles_are_nested_and_exclusive (Some (superuser 1)))
    as (Hadmin & _).
  destruct (roles_are_nested_and_exclusive (Some (finance_viewer_user 2 5)))
    as (_ & Hfinance & _).
  destruct (roles_are_nested_and_exclusive (Some AnonymousUser))
    as (_ & _ & _ & _ & Hanon).
  split; [apply Hadmin; reflexivity |].
  split; [apply Hfinance; reflexivity |].
  apply Hanon. left. reflexivity.
Defined.

(** ** Sharing *)

Lemma exists_app {A : Type} (l1 l2 : list A) :
  exists_ (l1 ++ l2)%list = exists_ l1 || exists_ l2.
Proof. destruct l1; [reflexivity | reflexivity]. Qed.

Lemma share_contract_stores (now : DateTime) (st : Store) (actor : User)
    (contract : Contract) (user department : option Named)
    (access_level : string) (st' : Store) (share : ContractShare) :
  ContractOperationsService_share_contract now st actor contract user
    department access_level = inr (st', share) ->
  share = {| cs_contract := c_id contract;
             cs_shared_with_user := named_pk <$> user;
             cs_shared_with_department := named_pk <$> department;
             cs_access_level := access_level;
             cs_shared_by := Some (u_pk actor) |}
  /\ share_user_or_department share = true
  /\ shares st' = (shares st ++ [share])%list
  /\ approvals st' = approvals st
  /\ contracts st' = contracts st
  /\ files st' = files st
  /\ versions st' = versions st
  /\ audit_logs st'
     = (audit_logs st ++
        [{| al_contract := Some (c_id contract); al_action := "SHARE";
            al_actor := Some (u_pk actor);
            al_metadata :=
              [("shared_with_user",
                match user with
                | Some n => JStr (named_str n)
                | None => JNull
                end);
               ("shared_with_department",
                match department with
                | Some n => JStr (named_str n)
                | None => JNull
                end);
               ("access_level", JStr access_level)];
            al_created_at := dt_stamp now |}])%list.
Proof.
  unfold ContractOperationsService_share_contract.
  destruct (share_user_or_department _) eqn:Hcheck; [| discriminate].
  intros [= <- <-]. repeat split; try reflexivity. exact Hcheck.
Qed.

(** X5. A share made by a signed-in user for a signed-in user: sharing a
    contract with a user, at whatever access level, lets that user view
    it; an EDIT share also lets the user edit it, while a
    share of another level leaves the answer of [can_edit_contract] as it
    was. The same holds for the members of a department the contract is
    shared with, and a share naming both a user and a department, or
    neither, is refused by the database. *)
Theorem share_grants_view_and_edit_only_at_edit_level (now : DateTime)
    (st : Store) (actor : User) (contract : Contract)
    (user department : option Named) (access_level : string) (u : User) :
  u_is_authenticated actor = true ->
  u_is_authenticated u = true ->
  (named_pk <$> user = Some (u_pk u) /\ department = None
   \/ user = None /\ named_pk <$> department = user_department u
      /\ is_Some department) ->
  exists st' share,
    ContractOperationsService_share_contract now st actor contract user
      department access_level = inr (st', share)
    /\ can_view_contract st' (Some u) (Some contract) = Ok true
    /\ (access_level = "EDIT" ->
        can_edit_contract st' (Some u) (Some contract) = Ok true)
    /\ (access_level <> "EDIT" ->
        can_edit_contract st' (Some u) (Some contract)
        = can_edit_contract st (Some u) (Some contract))
    /\ (forall both_user both_department,
          is_Some both_user <-> is_Some both_department ->
          ContractOperationsService_share_contract now st actor contract
            both_user both_department access_level = inl IntegrityError).
Proof.
  intros _ Hauth Htarget.
  assert (Hcheck : share_user_or_department
            {| cs_contract := c_id contract;
               cs_shared_with_user := named_pk <$> user;
               cs_shared_with_department := named_pk <$> department;
               cs_access_level := access_level;
               cs_shared_by := Some (u_pk actor) |} = true).
  { destruct Htarget as [[Hu ->] | (-> & _ & [d ->])].
    - destruct user; [reflexivity | discriminate].
    - reflexivity. }
  destruct (ContractOperationsService_share_contract now st actor contract
              user department access_level) as [e | [st' share]] eqn:Hcall.
  { unfold ContractOperationsService_share_contract in Hcall.
    rewrite Hcheck in Hcall. discriminate Hcall. }
  destruct (share_contract_stores _ _ _ _ _ _ _ _ _ Hcall)
    as (Hshare & _ & Hshares & Happr & _).
  exists st', share. split; [reflexivity |].
  assert (Hmatch :
    (cs_contract share =? c_id contract)
    && fk_is (cs_shared_with_user share) (u_pk u) = true
    \/ exists d, user_department u = Some d
         /\ (cs_contract share =? c_id contract)
            && fk_is (cs_shared_with_department share) d = true).
  { rewrite Hshare. simpl. rewrite Z.eqb_refl. simpl.
    destruct Htarget as [[Hu _] | (_ & Hd & [n ->])].
    - left. apply fk_is_true. exact Hu.
    - right. simpl in Hd. exists (named_pk n). split; [auto |].
      simpl. apply Z.eqb_refl. }
  assert (Hlevel : cs_access_level share = access_level)
    by (rewrite Hshare; reflexivity).
  assert (Huser_shares :
    shares_with_user st' contract u
    = (shares_with_user st contract u
       ++ (if (cs_contract share =? c_id contract)
              && fk_is (cs_shared_with_user share) (u_pk u)
           then [share] else []))%list).
  { unfold shares_with_user. rewrite Hshares, List.filter_app. reflexivity. }
  assert (Hdept_shares : forall d,
    shares_with_department st' contract d
    = (shares_with_department st contract d
       ++ (if (cs_contract share =? c_id contract)
              && fk_is (cs_shared_with_department share) d
           then [share] else []))%list).
  { intros d. unfold shares_with_department.
    rewrite Hshares, List.filter_app. reflexivity. }
  split; [| split; [| split]].
  - unfold can_view_contract. rewrite Hauth. simpl.
    destruct (is_legal_admin (Some u)); [reflexivity |].
    destruct (fk_is (c_owner contract) (u_pk u) ||
              fk_is (c_created_by contract) (u_pk u)); [reflexivity |].
    rewrite Huser_shares, exists_app.
    destruct Hmatch as [-> | (d & Hd & Hm)].
    + rewrite orb_true_r. reflexivity.
    + destruct (exists_ (shares_with_user st contract u) || _);
        [reflexivity |].
      rewrite Hd, Hdept_shares, exists_app, Hm, orb_true_r. reflexivity.
  - intros Hedit. rewrite (can_edit_contract_authenticated st' u contract Hauth).
    f_equal. unfold edit_level.
    rewrite Huser_shares, List.filter_app, exists_app.
    destruct Hmatch as [-> | (d & Hd & Hm)].
    + simpl. rewrite Hlevel, Hedit. simpl. rewrite !orb_true_r. reflexivity.
    + rewrite Hd, Hdept_shares, List.filter_app, exists_app, Hm. simpl.
      rewrite Hlevel, Hedit. simpl. rewrite !orb_true_r. reflexivity.
  - intros Hview.
    rewrite !(can_edit_contract_authenticated _ u contract Hauth).
    f_equal. unfold edit_level.
    assert (Hnot : String.eqb (cs_access_level share) "EDIT" = false)
      by (rewrite Hlevel; apply String.eqb_neq; exact Hview).
    assert (Hdrop : forall b : bool,
              List.filter (fun s => String.eqb (cs_access_level s) "EDIT")
                (if b then [share] else []) = []).
    { intros []; simpl; [rewrite Hnot |]; reflexivity. }
    rewrite Huser_shares, List.filter_app, Hdrop, app_nil_r.
    destruct (user_department u) as [d|]; [| reflexivity].
    rewrite Hdept_shares, List.filter_app, Hdrop, app_nil_r. reflexivity.
  - intros both_user both_department Hboth.
    unfold ContractOperationsService_share_contract.
    destruct both_user as [n|], both_department as [m|]; simpl;
      try reflexivity.
    + destruct Hboth as [Hb _]. destruct (Hb (ex_intro _ n eq_refl)).
      discriminate.
    + destruct Hboth as [_ Hb]. destruct (Hb (ex_intro _ m eq_refl)).
      discriminate.
Qed.

Lemma share_grants_view_and_edit_only_at_edit_level_witness :
  exists st' share,
    ContractOperationsService_share_contract sample_now store_with_contract
      (regular_user 1) (sample_contract 42 DRAFT 1 1 false)
      (Some sample_user_2) None "VIEW" = inr (st', share)
    /\ can_view_contract st' (Some (regular_user 2))
         (Some (sample_contract 42 DRAFT 1 1 false)) = Ok true
    /\ can_edit_contract st' (Some (regular_user 2))
         (Some (sample_contract 42 DRAFT 1 1 false)) = Ok false.
Proof.
  destruct (share_grants_view_and_edit_only_at_edit_level sample_now
              store_with_contract (regular_user 1)
              (sample_contract 42 DRAFT 1 1 false) (Some sample_user_2) None
              "VIEW" (regular_user 2) eq_refl eq_refl
              (or_introl (conj eq_refl eq_refl)))
    as (st' & share & Hcall & Hview & _ & Hedit & _).
  exists st', share. split; [exact Hcall |]. split; [exact Hview |].
  rewrite Hedit by discriminate. reflexivity.
Defined.

Lemma ContractShareForm_is_valid_inv (post : SharePost) (cleaned : ShareCleaned) :
  ContractShareForm_is_valid post = Some cleaned ->
  exists level,
    sc_access_level cleaned = Some level
    /\ (level = "VIEW" \/ level = "EDIT")
    /\ (sc_share_type cleaned = Some "user"
        /\ sp_share_type post = Some "user"
        /\ is_Some (sc_shared_with_user cleaned)
        /\ sp_shared_with_user post = Some (sc_shared_with_user cleaned)
        /\ sc_shared_with_department cleaned = None
        \/ sc_share_type cleaned = Some "department"
           /\ sp_share_type post = Some "department"
           /\ is_Some (sc_shared_with_department cleaned)
           /\ sp_shared_with_department post
              = Some (sc_shared_with_department cleaned)
           /\ sc_shared_with_user cleaned = None).
Proof.
  unfold ContractShareForm_is_valid, ContractShareForm_clean,
    clean_choice_field, decision_is.
  destruct post as [[t|] [[un|]|] [[dn|]|] [l|]]; cbn;
    repeat (match goal with
            | |- context [String.eqb ?a ?b] =>
                destruct (String.eqb_spec a b); subst; cbn
            end);
    try discriminate; intros [= <-]; cbn; eauto 12.
Qed.

Lemma can_share_contract_returns (u : User) (c : Contract) :
  exists b, can_share_contract (Some u) (Some c) = Ok b.
Proof.
  unfold can_share_contract. destruct (u_is_authenticated u); simpl; [| eauto].
  destruct (is_legal_admin (Some u)); [eauto |].
  destruct (fk_is (c_owner c) (u_pk u)); eauto.
Qed.

(** X6. The share view always answers with a redirect to the contract and
    never lets an IntegrityError out: it changes nothing unless the user
    may share the contract, and what it stores is one share of that
    contract, at level VIEW or EDIT, naming a user (and no department)
    when the posted share type is user and a department (and no user)
    when it is department, so the check constraint of the table holds. *)
Theorem share_view_stores_well_formed_shares (now : DateTime) (st : Store)
    (request_user : User) (post : SharePost) (pk : Z) (contract : Contract) :
  contracts st !! pk = Some contract ->
  exists st',
    ContractShareCreateView_post now st request_user post pk
    = Ok (inr (st', Redirect "contracts:detail" (Some pk)))
    /\ (can_share_contract (Some request_user) (Some contract) <> Ok true ->
        st' = st)
    /\ (st' = st
        \/ exists share,
             shares st' = (shares st ++ [share])%list
             /\ share_user_or_department share = true
             /\ cs_contract share = c_id contract
             /\ cs_shared_by share = Some (u_pk request_user)
             /\ (cs_access_level share = "VIEW"
                 \/ cs_access_level share = "EDIT")
             /\ (sp_share_type post = Some "user"
                 /\ is_Some (cs_shared_with_user share)
                 /\ cs_shared_with_department share = None
                 \/ sp_share_type post = Some "department"
                    /\ is_Some (cs_shared_with_department share)
                    /\ cs_shared_with_user share = None)).
Proof.
  intros Hrow. unfold ContractShareCreateView_post. rewrite Hrow.
  destruct (can_share_contract_returns request_user contract) as [b Hb].
  rewrite Hb. cbn [mbind PyResult_bind].
  destruct b; cbn [negb].
  2:{ exists st. split; [reflexivity |]. split; [reflexivity | left; reflexivity]. }
  destruct (ContractShareForm_is_valid post) as [cleaned|] eqn:Hvalid.
  2:{ exists st. split; [reflexivity |]. split; [reflexivity | left; reflexivity]. }
  destruct (ContractShareForm_is_valid_inv post cleaned Hvalid)
    as (level & Hlevel & Hwhich & Htarget).
  rewrite Hlevel. cbn [from_option]. unfold id.
  destruct (ContractOperationsService_share_contract now st request_user
              contract (sc_shared_with_user cleaned)
              (sc_shared_with_department cleaned) level)
    as [e | [st' share]] eqn:Hcall.
  { exfalso. unfold ContractOperationsService_share_contract in Hcall.
    destruct Htarget as [(_ & _ & [n Hn] & _ & Hd) | (_ & _ & [n Hn] & _ & Hu)];
      [rewrite Hn, Hd in Hcall | rewrite Hn, Hu in Hcall];
      discriminate Hcall. }
  destruct (share_contract_stores _ _ _ _ _ _ _ _ _ Hcall)
    as (Hshare & Hcheck & Hshares & _).
  exists st'. split; [reflexivity |]. split; [intros Hno; contradiction |].
  right. exists share. split; [exact Hshares |]. split; [exact Hcheck |].
  rewrite Hshare. cbn [cs_contract cs_shared_by cs_access_level
                       cs_shared_with_user cs_shared_with_department].
  split; [reflexivity |]. split; [reflexivity |]. split; [exact Hwhich |].
  destruct Htarget as [(_ & Ht & [n Hn] & _ & Hd) | (_ & Ht & [n Hn] & _ & Hu)].
  - left. rewrite Hn, Hd. repeat split; eauto.
  - right. rewrite Hn, Hu. repeat split; eauto.
Qed.

Lemma share_view_stores_well_formed_shares_witness :
  exists st',
    ContractShareCreateView_post sample_now store_with_contract
      (regular_user 1)
      {| sp_share_type := Some "department";
         sp_shared_with_user := Some (Some sample_user_2);
         sp_shared_with_department := Some (Some sample_department_5);
         sp_access_level := Some "EDIT" |} 42
    = Ok (inr (st', Redirect "contracts:detail" (Some 42)))
    /\ List.map cs_shared_with_user (shares st') = [None]
    /\ List.map cs_shared_with_department (shares st') = [Some 5].
Proof.
  destruct (share_view_stores_well_formed_shares sample_now
              store_with_contract (regular_user 1)
              {| sp_share_type := Some "department";
                 sp_shared_with_user := Some (Some sample_user_2);
                 sp_shared_with_department := Some (Some sample_department_5);
                 sp_access_level := Some "EDIT" |} 42
              (sample_contract 42 DRAFT 1 1 false) eq_refl)
    as (st' & Hpost & _ & _).
  exists st'. split; [exact Hpost |].
  vm_compute in Hpost. injection Hpost as <-. split; reflexivity.
Defined.

Lemma accessible_q_can_view (st : Store) (user : User) (c : Contract) :
  u_is_authenticated user = true ->
  is_legal_admin (Some user) = false ->
  can_view_contract st (Some user) (Some c) = Ok (accessible_q st user c).
Proof.
  intros Hauth Hadmin. unfold can_view_contract, accessible_q.
  rewrite Hauth, Hadmin. cbn [negb getattr_of mbind PyResult_bind].
  destruct (fk_is (c_owner c) (u_pk user) || fk_is (c_created_by c) (u_pk user));
    [reflexivity |].
  destruct (exists_ (shares_with_user st c user)); [reflexivity |].
  cbn [orb].
  destruct (user_department user) as [d|].
  - destruct (exists_ (shares_with_department st c d)); [reflexivity |].
    cbn [orb]. unfold fk_is. destruct (c_bu_team c) as [bu|].
    + rewrite (Z.eqb_sym d bu). destruct (bu =? d); [reflexivity |].
      cbn [orb].
      destruct (is_finance_viewer (Some user) && negb (c_is_confidential c));
        [reflexivity |].
      cbn [orb]. destruct (is_legal_user (Some user) && _); reflexivity.
    + destruct (is_finance_viewer (Some user) && negb (c_is_confidential c));
        [reflexivity |].
      cbn [orb]. destruct (is_legal_user (Some user) && _); reflexivity.
  - destruct (is_finance_viewer (Some user) && negb (c_is_confidential c));
      [reflexivity |].
    cbn [orb]. destruct (is_legal_user (Some user) && _); reflexivity.
Qed.

(** X7. The contract list agrees with the permission check: for a signed-in
    user the base queryset of ContractQueryService holds exactly the stored
    contracts that can_view_contract lets this user view. *)
Theorem base_queryset_is_what_the_user_may_view (st : Store) (user : User)
    (pk : Z) (c : Contract) :
  u_is_authenticated user = true ->
  ContractQueryService__get_base_queryset st user !! pk = Some c
  <-> contracts st !! pk = Some c
      /\ can_view_contract st (Some user) (Some c) = Ok true.
Proof.
  intros Hauth. unfold ContractQueryService__get_base_queryset,
    DashboardService__filter_user_accessible_contracts.
  destruct (is_legal_admin (Some user)) eqn:Hadmin; cbn [negb].
  - unfold can_view_contract. rewrite Hauth, Hadmin. cbn [negb]. tauto.
  - rewrite map_lookup_filter_Some. cbn [snd].
    rewrite (accessible_q_can_view st user c Hauth Hadmin).
    split; intros [Hrow Hq]; (split; [exact Hrow | congruence]).
Qed.

Lemma base_queryset_is_what_the_user_may_view_witness :
  ContractQueryService__get_base_queryset store_with_shared_contract
    (regular_user 9) !! 42
  = Some (sample_contract 42 ACTIVE 1 1 true).
Proof.
  apply (base_queryset_is_what_the_user_may_view store_with_shared_contract
           (regular_user 9) 42 (sample_contract 42 ACTIVE 1 1 true) eq_refl).
  split; vm_compute; reflexivity.
Defined.

Lemma tab_lookup (st : Store) (user : User) (pk : Z) (c : Contract) :
  (ContractQueryService_get_contracts_for_tab st user "draft" !! pk = Some c
   <-> ContractQueryService__get_base_queryset st user !! pk = Some c
       /\ c_status c = DRAFT)
  /\ (ContractQueryService_get_contracts_for_tab st user "pending" !! pk
      = Some c
      <-> ContractQueryService__get_base_queryset st user !! pk = Some c
          /\ (c_status c = PENDING \/ has_pending_approval st c = true))
  /\ (ContractQueryService_get_contracts_for_tab st user "repository" !! pk
      = Some c
      <-> ContractQueryService__get_base_queryset st user !! pk = Some c
          /\ c_status c <> DRAFT /\ c_status c <> PENDING).
Proof.
  unfold ContractQueryService_get_contracts_for_tab. cbn [String.eqb Ascii.eqb
    Bool.eqb].
  change (String.eqb "draft" "draft") with true.
  change (String.eqb "pending" "draft") with false.
  change (String.eqb "pending" "pending") with true.
  change (String.eqb "repository" "draft") with false.
  change (String.eqb "repository" "pending") with false.
  change (String.eqb "repository" "repository") with true.
  cbv iota.
  rewrite !map_lookup_filter_Some. cbn [snd].
  destruct (String.eqb_spec (c_status c) DRAFT) as [Hd | Hd];
    destruct (String.eqb_spec (c_status c) PENDING) as [Hp | Hp];
    destruct (has_pending_approval st c); cbn;
    try (rewrite Hd in Hp; discriminate Hp);
    intuition congruence.
Qed.

(** X8. The tabs of the contract list, for a signed-in user and any
    contract: the
    draft tab shows the visible contracts in status DRAFT, the pending tab
    those in status PENDING or with a pending approval, the repository tab
    those in neither status (its second exclusion removes nothing more).
    So every visible contract is on at least one of the three tabs, no
    contract is on both the draft and the repository tab, and a tab shows
    only contracts of the base queryset. *)
Theorem tabs_cover_the_visible_contracts (st : Store) (user : User) (pk : Z)
    (c : Contract) :
  u_is_authenticated user = true ->
  let on_tab tab :=
    ContractQueryService_get_contracts_for_tab st user tab !! pk = Some c in
  let visible :=
    ContractQueryService__get_base_queryset st user !! pk = Some c in
  (on_tab "draft" <-> visible /\ c_status c = DRAFT)
  /\ (on_tab "pending"
      <-> visible /\ (c_status c = PENDING \/ has_pending_approval st c = true))
  /\ (on_tab "repository"
      <-> visible /\ c_status c <> DRAFT /\ c_status c <> PENDING)
  /\ (visible -> on_tab "draft" \/ on_tab "pending" \/ on_tab "repository")
  /\ ~ (on_tab "draft" /\ on_tab "repository")
  /\ (forall tab, on_tab tab -> visible).
Proof.
  intros _ on_tab visible. subst on_tab visible. cbv beta.
  destruct (tab_lookup st user pk c) as (Hdraft & Hpending & Hrepo).
  split; [exact Hdraft |]. split; [exact Hpending |]. split; [exact Hrepo |].
  split; [| split].
  - intros Hv. rewrite Hdraft, Hpending, Hrepo.
    destruct (String.eqb_spec (c_status c) DRAFT) as [Hd | Hd]; [tauto |].
    destruct (String.eqb_spec (c_status c) PENDING) as [Hp | Hp]; tauto.
  - rewrite Hdraft, Hrepo. tauto.
  - intros tab. unfold ContractQueryService_get_contracts_for_tab.
    destruct (String.eqb tab "draft");
      [| destruct (String.eqb tab "pending");
         [| destruct (String.eqb tab "repository")]];
      rewrite ?map_lookup_filter_Some; tauto.
Qed.

Lemma tabs_cover_the_visible_contracts_witness :
  ContractQueryService_get_contracts_for_tab store_with_shared_contract
    (regular_user 9) "repository" !! 42
  = Some (sample_contract 42 ACTIVE 1 1 true).
Proof.
  apply (tabs_cover_the_visible_contracts store_with_shared_contract
           (regular_user 9) 42 (sample_contract 42 ACTIVE 1 1 true) eq_refl).
  split; [vm_compute; reflexivity |]. split; discriminate.
Defined.

Lemma Contract_save_frame (now : DateTime) (st : Store) (self : Contract) :
  audit_logs (fst (Contract_save now st self)) = audit_logs st
  /\ c_id (snd (Contract_save now st self)) = c_id self
  /\ c_status (snd (Contract_save now st self)) = c_status self.
Proof.
  unfold Contract_save. destruct (str_falsy (c_contract_number self));
    repeat split; reflexivity.
Qed.

Lemma ContractFile_save_audit_logs (st : Store) (self_pk : option Z)
    (self : ContractFile) :
  audit_logs (fst (ContractFile_save st self_pk self)) = audit_logs st.
Proof. reflexivity. Qed.

Lemma logs_one_intro (now : DateTime) (st st1 : Store) (contract : Z)
    (action : string) (actor : User) (metadata : list (string * Json)) :
  audit_logs st1 = audit_logs st ->
  logs_one now st (AuditLogService_log now st1 (Some contract) action actor metadata)
    contract action actor.
Proof.
  intros Hsame. exists metadata. unfold AuditLogService_log. cbn.
  rewrite Hsame. reflexivity.
Qed.

(** X9. The audit trail only grows, by one entry for each operation: every
    operation of the services, run for a signed-in user, leaves the earlier audit entries as they
    were and adds, at the end, exactly one entry that names the contract,
    the acting user and the operation: CREATE_CONTRACT for a creation,
    CHANGE_STATUS or UPDATE_CONTRACT for an update, CHANGE_STATUS for a
    status change, ADD_FILE, ADD_VERSION, CREATE_APPROVAL, APPROVE or
    REJECT for a decision, and SHARE for a share that the database
    accepts. *)
Theorem every_operation_appends_one_audit_entry (now : DateTime)
    (new_id : Z) (st : Store) (user : User) (contract : Contract)
    (data : ContractData) (file : option UploadedFile)
    (upload : UploadedFile) (is_primary : bool)
    (text label notes level : string) (pk : Z)
    (approval : AdditionalApproval) (approver : Named)
    (to_user to_department : option Named) :
  u_is_authenticated user = true ->
  logs_one now st
    (fst (ContractOperationsService_create_contract now new_id st user data file))
    new_id "CREATE_CONTRACT" user
  /\ (exists action,
        (action = "CHANGE_STATUS" \/ action = "UPDATE_CONTRACT")
        /\ logs_one now st
             (fst (ContractOperationsService_update_contract now st user
                     contract data))
             (c_id contract) action user)
  /\ logs_one now st
       (fst (ContractOperationsService_change_status now st user contract
               label text))
       (c_id contract) "CHANGE_STATUS" user
  /\ logs_one now st
       (fst (ContractOperationsService_upload_file now st user contract upload
               is_primary text))
       (c_id contract) "ADD_FILE" user
  /\ logs_one now st
       (fst (ContractOperationsService_add_version now st user contract label
               file notes))
       (c_id contract) "ADD_VERSION" user
  /\ logs_one now st
       (fst (ApprovalService_create_approval_request now st user contract
               approver text))
       (c_id contract) "CREATE_APPROVAL" user
  /\ (exists action,
        (action = "APPROVE" \/ action = "REJECT")
        /\ logs_one now st
             (fst (ApprovalService_process_decision now st user pk approval
                     label text))
             (aa_contract approval) action user)
  /\ match ContractOperationsService_share_contract now st user contract
             to_user to_department level with
     | inr (st', _) => logs_one now st st' (c_id contract) "SHARE" user
     | inl IntegrityError => True
     end.
Proof.
  intros _.
  repeat match goal with |- _ /\ _ => split end.
  - unfold ContractOperationsService_create_contract.
    destruct (Contract_save now st _) as [st1 saved] eqn:Hsave.
    pose proof (Contract_save_frame now st
      (Contract_setattrs
         {| d_title := None; d_contract_number := None; d_status := None;
            d_category := None; d_sub_category := None; d_org_entity := None;
            d_region_country := None; d_bu_team := None;
            d_customer_or_vendor_name := None;
            d_customer_or_vendor_address := None; d_contract_type := None;
            d_value_amount := None; d_currency := None;
            d_opportunity_id := None; d_effective_date := None;
            d_end_date := None; d_auto_renewal := None;
            d_renewal_notice_date := None; d_assignment_status := None;
            d_owner := Some match d_owner data with
                            | Some (Some o) => Some o
                            | _ => Some (u_pk user)
                            end;
            d_is_confidential := None;
            d_created_by := Some (Some (u_pk user)); d_tags := None |}
         (Contract_init new_id data))) as (Hlogs & Hid & _).
    rewrite Hsave in Hlogs, Hid. cbn [fst snd] in Hlogs, Hid.
    cbn [Contract_setattrs Contract_init c_id] in Hid.
    cbn [fst]. rewrite Hid. apply logs_one_intro.
    rewrite <- Hlogs.
    destruct (default [] (d_tags data)); destruct file as [f|];
      try destruct (str_falsy (uf_name f)); reflexivity.
  - unfold ContractOperationsService_update_contract.
    destruct (Contract_save now st (Contract_setattrs data contract))
      as [st1 saved] eqn:Hsave.
    pose proof (Contract_save_frame now st (Contract_setattrs data contract))
      as (Hlogs & Hid & _).
    rewrite Hsave in Hlogs, Hid. cbn [fst snd] in Hlogs, Hid.
    cbn [Contract_setattrs c_id] in Hid.
    destruct (negb (String.eqb (c_status saved) (c_status contract)));
      [exists "CHANGE_STATUS" | exists "UPDATE_CONTRACT"];
      (split; [tauto |]); cbn [fst]; rewrite Hid; apply logs_one_intro;
      rewrite <- Hlogs; destruct (d_tags data); reflexivity.
  - unfold ContractOperationsService_change_status.
    destruct (Contract_save now st (set_status label contract))
      as [st1 saved] eqn:Hsave.
    pose proof (Contract_save_frame now st (set_status label contract))
      as (Hlogs & Hid & _).
    rewrite Hsave in Hlogs, Hid. cbn [fst snd] in Hlogs, Hid.
    cbn [set_status c_id] in Hid.
    cbn [fst]. rewrite Hid. apply logs_one_intro. exact Hlogs.
  - unfold ContractOperationsService_upload_file,
      ContractOperationsService__create_contract_file.
    destruct (ContractFile_save st None _) as [st1 k] eqn:Hsave.
    cbn [fst]. apply logs_one_intro.
    apply (f_equal fst) in Hsave. cbn [fst] in Hsave. rewrite <- Hsave.
    apply ContractFile_save_audit_logs.
  - unfold ContractOperationsService_add_version. cbn [fst].
    apply logs_one_intro. reflexivity.
  - unfold ApprovalService_create_approval_request. cbn [fst].
    apply logs_one_intro. reflexivity.
  - unfold ApprovalService_process_decision. cbn [fst].
    destruct (String.eqb label "APPROVED");
      [exists "APPROVE" | exists "REJECT"];
      (split; [tauto |]); apply logs_one_intro; reflexivity.
  - unfold ContractOperationsService_share_contract.
    destruct (share_user_or_department _); [| exact I].
    apply logs_one_intro. reflexivity.
Qed.

Lemma every_operation_appends_one_audit_entry_witness :
  logs_one sample_now store_with_contract
    (fst (ContractOperationsService_change_status sample_now
            store_with_contract (regular_user 1)
            (sample_contract 42 DRAFT 1 1 false) ACTIVE "signed"))
    42 "CHANGE_STATUS" (regular_user 1).
Proof.
  destruct (every_operation_appends_one_audit_entry sample_now 43
              store_with_contract (regular_user 1)
              (sample_contract 42 DRAFT 1 1 false) no_data None
              {| uf_name := "test1.pdf"; uf_size := 7; uf_content := "" |}
              false "signed" ACTIVE "" "VIEW" 1
              (sample_approval 42 1 2 PENDING) sample_user_2
              (Some sample_user_2) None eq_refl)
    as (_ & _ & Hstatus & _).
  exact Hstatus.
Defined.

(** ** The views that change a contract *)

Lemma can_edit_contract_returns (st : Store) (u : User) (c : Contract) :
  exists b, can_edit_contract st (Some u) (Some c) = Ok b.
Proof.
  unfold can_edit_contract. destruct (negb (u_is_authenticated u)); [eauto |].
  destruct (is_legal_admin (Some u)); [eauto |]. cbn.
  repeat match goal with
         | |- context [if ?b then _ else _] => destruct b; [eauto |]
         end.
  eauto.
Qed.

Lemma owner_gate_is_edit (st : Store) (user : option User)
    (contract : option Contract) :
  can_change_status st user contract = can_edit_contract st user contract
  /\ can_manage_approvals st user contract
     = can_edit_contract st user contract.
Proof.
  unfold can_change_status, can_manage_approvals, can_edit_contract.
  destruct user as [u|]; [| split; reflexivity].
  destruct (u_is_authenticated u); simpl; [| split; reflexivity].
  destruct (is_legal_admin (Some u)); [split; reflexivity |].
  destruct contract as [c|]; simpl; [| split; reflexivity].
  destruct (fk_is (c_owner c) (u_pk u)); split; reflexivity.
Qed.

Lemma share_needs_edit (st : Store) (u : User) (c : Contract) :
  can_edit_contract st (Some u) (Some c) = Ok false ->
  can_share_contract (Some u) (Some c) = Ok false.
Proof.
  unfold can_edit_contract, can_share_contract.
  destruct (negb (u_is_authenticated u)); [reflexivity |].
  destruct (is_legal_admin (Some u)); [discriminate |]. cbn.
  destruct (fk_is (c_owner c) (u_pk u)); [discriminate | reflexivity].
Qed.

(** X10. The five views that change a contract (status, share, file
    upload, new version, approval request) raise Http404 when no contract
    has the key, and for a user without the right to edit the contract
    each of them answers with a redirect to the contract page and leaves
    every table as it was, whatever was posted. *)
Theorem contract_views_change_nothing_without_edit_right (now : DateTime)
    (st : Store) (request_user : User) (pk : Z) (status_post : StatusPost)
    (share_post : SharePost) (upload_post : UploadPost)
    (version_form : option (string * string))
    (version_file : option UploadedFile)
    (approval_form : option (Named * string)) :
  (contracts st !! pk = None ->
   ContractStatusChangeView_post now st request_user status_post pk
   = Raise Http404
   /\ ContractShareCreateView_post now st request_user share_post pk
      = Raise Http404
   /\ ContractFileUploadView_post now st request_user upload_post pk
      = Raise Http404
   /\ ContractVersionCreateView_post now st request_user version_form
        version_file pk = Raise Http404
   /\ ApprovalRequestCreateView_post now st request_user approval_form pk
      = Raise Http404)
  /\ (forall contract,
        contracts st !! pk = Some contract ->
        can_edit_contract st (Some request_user) (Some contract) <> Ok true ->
        ContractStatusChangeView_post now st request_user status_post pk
        = Ok (st, Redirect "contracts:detail" (Some pk))
        /\ ContractShareCreateView_post now st request_user share_post pk
           = Ok (inr (st, Redirect "contracts:detail" (Some pk)))
        /\ ContractFileUploadView_post now st request_user upload_post pk
           = Ok (st, Redirect "contracts:detail" (Some pk))
        /\ ContractVersionCreateView_post now st request_user version_form
             version_file pk
           = Ok (st, Redirect "contracts:detail" (Some pk))
        /\ ApprovalRequestCreateView_post now st request_user approval_form pk
           = Ok (st, Redirect "contracts:detail" (Some pk))).
Proof.
  unfold ContractStatusChangeView_post, ContractShareCreateView_post,
    ContractFileUploadView_post, ContractVersionCreateView_post,
    ApprovalRequestCreateView_post, can_upload_files, can_add_version.
  split.
  - intros ->. repeat split; reflexivity.
  - intros contract -> Hno.
    destruct (owner_gate_is_edit st (Some request_user) (Some contract))
      as [-> ->].
    destruct (can_edit_contract_returns st request_user contract) as [b Hb].
    destruct b; [contradiction |].
    rewrite (share_needs_edit st request_user contract Hb), Hb.
    repeat split; reflexivity.
Qed.

Lemma contract_views_change_nothing_without_edit_right_witness :
  ContractStatusChangeView_post sample_now store_with_contract
    (regular_user 7)
    {| post_new_status := Some ACTIVE; post_reason := None |} 42
  = Ok (store_with_contract, Redirect "contracts:detail" (Some 42))
  /\ ContractFileUploadView_post sample_now store_with_contract
       (regular_user 7)
       {| up_file := None; up_is_primary := false; up_description := None |} 43
     = Raise Http404.
Proof.
  destruct (contract_views_change_nothing_without_edit_right sample_now
              store_with_contract (regular_user 7) 42
              {| post_new_status := Some ACTIVE; post_reason := None |}
              {| sp_share_type := None; sp_shared_with_user := None;
                 sp_shared_with_department := None; sp_access_level := None |}
              {| up_file := None; up_is_primary := false;
                 up_description := None |} None None None)
    as (_ & Hdenied).
  destruct (contract_views_change_nothing_without_edit_right sample_now
              store_with_contract (regular_user 7) 43
              {| post_new_status := Some ACTIVE; post_reason := None |}
              {| sp_share_type := None; sp_shared_with_user := None;
                 sp_shared_with_department := None; sp_access_level := None |}
              {| up_file := None; up_is_primary := false;
                 up_description := None |} None None None)
    as (Hmissing & _).
  split.
  - apply (Hdenied (sample_contract 42 DRAFT 1 1 false)); [reflexivity |].
    vm_compute. discriminate.
  - apply Hmissing. reflexivity.
Defined.

Lemma Contract_save_lookup (now : DateTime) (st : Store) (self : Contract) :
  contracts (fst (Contract_save now st self)) !! c_id self
  = Some (snd (Contract_save now st self)).
Proof.
  destruct (String.eqb_spec (c_contract_number self) "") as [Hblank | Hnum].
  - destruct (Contract_save_blank now st self Hblank) as [-> ->]. reflexivity.
  - destruct (Contract_save_numbered now st self Hnum) as [-> ->]. reflexivity.
Qed.

Lemma clean_choice_field_In (choices : list string) (raw : option string)
    (v : string) :
  clean_choice_field choices raw = Some v <-> raw = Some v /\ In v choices.
Proof.
  unfold clean_choice_field. destruct raw as [r|]; [| split; [discriminate | intros [[=] _]]].
  destruct (existsb (String.eqb r) choices) eqn:Hex.
  - apply existsb_exists in Hex. destruct Hex as (x & Hin & Heq).
    apply String.eqb_eq in Heq. subst x.
    split; [intros [= <-]; auto | intros [[= <-] _]; reflexivity].
  - split; [discriminate |]. intros [[= <-] Hin]. exfalso.
    assert (existsb (String.eqb r) choices = true) as Htrue.
    { apply existsb_exists. exists r. split; [exact Hin | apply String.eqb_refl]. }
    congruence.
Qed.

(** X11. The status of a contract may go from any value to any value: a
    user with the right to edit who posts one of the six statuses of the
    model (with a reason free of NUL characters, or none) gets that status
    stored, whatever the status was before; and whenever the status view
    changes the store at all, the posted status was one of the six and is
    the one now stored. *)
Theorem status_view_sets_any_listed_status (now : DateTime) (st : Store)
    (request_user : User) (post : StatusPost) (pk : Z) (contract : Contract) :
  contracts st !! pk = Some contract ->
  c_id contract = pk ->
  exists st',
    ContractStatusChangeView_post now st request_user post pk
    = Ok (st', Redirect "contracts:detail" (Some pk))
    /\ (st' = st
        \/ exists new_status saved,
             can_edit_contract st (Some request_user) (Some contract) = Ok true
             /\ post_new_status post = Some new_status
             /\ In new_status STATUS_CHOICES
             /\ contracts st' !! pk = Some saved
             /\ c_status saved = new_status)
    /\ (forall new_status,
          can_edit_contract st (Some request_user) (Some contract) = Ok true ->
          post_new_status post = Some new_status ->
          In new_status STATUS_CHOICES ->
          contains_nul (default "" (strip <$> post_reason post)) = false ->
          exists saved,
            contracts st' !! pk = Some saved
            /\ c_status saved = new_status
            /\ c_owner saved = c_owner contract
            /\ c_title saved = c_title contract).
Proof.
  intros Hrow Hid. unfold ContractStatusChangeView_post. rewrite Hrow.
  destruct (owner_gate_is_edit st (Some request_user) (Some contract))
    as [-> _].
  destruct (can_edit_contract_returns st request_user contract) as [b Hb].
  rewrite Hb. cbn [mbind PyResult_bind].
  destruct b; cbn [negb].
  2:{ exists st. split; [reflexivity |]. split; [left; reflexivity |].
      intros s [=]. }
  pose proof (Contract_save_lookup now st) as Hlookup.
  pose proof (Contract_save_frame now st) as Hframe.
  assert (Hsaved : forall s reason,
    exists saved,
      contracts (fst (ContractOperationsService_change_status now st
                        request_user contract s reason)) !! pk = Some saved
      /\ c_status saved = s /\ c_owner saved = c_owner contract
      /\ c_title saved = c_title contract).
  { intros s reason. unfold ContractOperationsService_change_status.
    specialize (Hlookup (set_status s contract)).
    specialize (Hframe (set_status s contract)).
    destruct Hframe as (_ & _ & Hstatus).
    assert (Hrest : c_owner (snd (Contract_save now st (set_status s contract)))
                    = c_owner contract
                    /\ c_title (snd (Contract_save now st (set_status s contract)))
                       = c_title contract).
    { unfold Contract_save.
      destruct (str_falsy (c_contract_number (set_status s contract)));
        split; reflexivity. }
    destruct (Contract_save now st (set_status s contract)) as [st1 saved].
    cbn [fst snd set_status c_id c_status] in *.
    exists saved. rewrite <- Hid. tauto. }
  unfold StatusChangeForm_is_valid.
  destruct (clean_choice_field STATUS_CHOICES (post_new_status post))
    as [s|] eqn:Hchoice.
  - apply clean_choice_field_In in Hchoice. destruct Hchoice as [Hpost Hin].
    unfold clean_comment_field.
    replace (match post_reason post with
             | Some s0 => strip s0
             | None => ""
             end) with (default "" (strip <$> post_reason post))
      by (destruct (post_reason post); reflexivity).
    destruct (contains_nul (default "" (strip <$> post_reason post))) eqn:Hnul.
    + exists st. split; [reflexivity |]. split; [left; reflexivity |].
      intros s' _ _ _ [=].
    + eexists. split; [reflexivity |].
      destruct (Hsaved s (default "" (strip <$> post_reason post)))
        as (saved & Hstored & Hstatus & Howner & Htitle).
      split.
      * right. exists s, saved. tauto.
      * intros s' _ Hpost' _ _. rewrite Hpost in Hpost'.
        injection Hpost' as <-. exists saved. tauto.
  - exists st. split; [reflexivity |]. split; [left; reflexivity |].
    intros s _ Hpost Hin _. exfalso.
    assert (clean_choice_field STATUS_CHOICES (post_new_status post) = Some s)
      as Hsome by (apply clean_choice_field_In; tauto).
    congruence.
Qed.

Lemma status_view_sets_any_listed_status_witness :
  exists st' saved,
    ContractStatusChangeView_post sample_now store_with_archived_contract
      (regular_user 1)
      {| post_new_status := Some DRAFT; post_reason := None |} 42
    = Ok (st', Redirect "contracts:detail" (Some 42))
    /\ contracts st' !! 42 = Some saved
    /\ c_status saved = DRAFT.
Proof.
  destruct (status_view_sets_any_listed_status sample_now
              store_with_archived_contract (regular_user 1)
              {| post_new_status := Some DRAFT; post_reason := None |} 42
              (sample_contract 42 ARCHIVED 1 1 false) eq_refl eq_refl)
    as (st' & Hpost & _ & Hset).
  destruct (Hset DRAFT) as (saved & Hstored & Hstatus & _);
    [reflexivity | reflexivity | left; reflexivity | reflexivity |].
  exists st', saved. auto.
Defined.

(** ** Approval requests *)

(** X12. Requesting an approval. A user with the right to edit a contract
    who submits a valid request gets one new approval row, under a key no
    row had, for this contract, requested by this user, PENDING and
    undecided; the other approvals stay as they were. The approval page
    then offers the decision to the named approver. Any other user who is
    not an administrator, the requester included, is not offered it, and
    a decision such a user posts changes nothing. *)
Theorem requested_approval_waits_for_its_approver (now : DateTime)
    (st : Store) (request_user : User) (approver : Named) (reason : string)
    (pk : Z) (contract : Contract) :
  contracts st !! pk = Some contract ->
  can_edit_contract st (Some request_user) (Some contract) = Ok true ->
  exists st' key approval,
    ApprovalRequestCreateView_post now st request_user
      (Some (approver, reason)) pk
    = Ok (st', Redirect "contracts:detail" (Some pk))
    /\ approvals st !! key = None
    /\ approvals st' = <[key := approval]> (approvals st)
    /\ aa_contract approval = c_id contract
    /\ aa_requested_by approval = u_pk request_user
    /\ aa_approver approval = named_pk approver
    /\ aa_status approval = PENDING
    /\ aa_decided_at approval = None
    /\ (forall u,
          u_is_authenticated u = true ->
          u_pk u = named_pk approver ->
          ApprovalDetailView_get st' u key = Ok (ApprovalDetail approval true))
    /\ (forall u later post,
          u_pk u <> named_pk approver ->
          is_legal_admin (Some u) = false ->
          (ApprovalDetailView_get st' u key = Ok ApprovalsList
           \/ ApprovalDetailView_get st' u key
              = Ok (ApprovalDetail approval false))
          /\ ApprovalDetailView_post later st' u post key
             = Ok (st', Redirect "contracts:approvals" None)).
Proof.
  intros Hrow Hedit. unfold ApprovalRequestCreateView_post. rewrite Hrow.
  destruct (owner_gate_is_edit st (Some request_user) (Some contract))
    as [_ ->].
  rewrite Hedit. cbn [mbind PyResult_bind negb].
  unfold ApprovalService_create_approval_request. cbn [fst].
  eexists.
  exists (next_pk st "contracts_additional_approval" (pks (approvals st))).
  eexists.
  split; [reflexivity |].
  split; [apply next_pk_unused |].
  split; [reflexivity |].
  cbn [aa_contract aa_requested_by aa_approver aa_status aa_decided_at].
  repeat match goal with |- _ /\ _ => split end; try reflexivity.
  - intros u Hauth Hpk. unfold ApprovalDetailView_get, AuditLogService_log.
    cbn [approvals set_audit_logs set_approvals].
    rewrite lookup_insert_eq. cbn [aa_approver aa_requested_by aa_status].
    unfold same_user.
    rewrite Hauth, Hpk, Z.eqb_refl, andb_false_r. cbn [negb andb].
    unfold can_approve_request. rewrite Hauth.
    cbn [negb getattr_of mbind PyResult_bind aa_approver].
    rewrite Hpk, Z.eqb_refl. reflexivity.
  - intros u later post Hpk Hadmin.
    assert (Hneq : (named_pk approver =? u_pk u) = false)
      by (apply Z.eqb_neq; congruence).
    unfold ApprovalDetailView_get, ApprovalDetailView_post, AuditLogService_log.
    cbn [approvals set_audit_logs set_approvals].
    rewrite lookup_insert_eq. cbn [aa_approver aa_requested_by aa_status].
    unfold same_user.
    rewrite Hadmin, Hneq. unfold can_approve_request.
    destruct (u_is_authenticated u);
      cbn [negb andb getattr_of mbind PyResult_bind aa_approver];
      rewrite ?Hneq, ?Hadmin;
      (split; [| reflexivity]);
      destruct (u_pk request_user =? u_pk u); cbn; tauto.
Qed.

Lemma requested_approval_waits_for_its_approver_witness :
  exists st' key approval,
    ApprovalRequestCreateView_post sample_now store_with_contract
      (regular_user 1) (Some (sample_user_2, "second opinion")) 42
    = Ok (st', Redirect "contracts:detail" (Some 42))
    /\ approvals st' !! key = Some approval
    /\ ApprovalDetailView_get st' (regular_user 2) key
       = Ok (ApprovalDetail approval true)
    /\ ApprovalDetailView_post sample_now st' (regular_user 1)
         {| post_decision := Some "APPROVED"; post_comment := None |} key
       = Ok (st', Redirect "contracts:approvals" None).
Proof.
  destruct (requested_approval_waits_for_its_approver sample_now
              store_with_contract (regular_user 1) sample_user_2
              "second opinion" 42 (sample_contract 42 DRAFT 1 1 false)
              eq_refl eq_refl)
    as (st' & key & approval & Hpost & _ & Hrows & _ & _ & _ & _ & _
        & Happrover & Hother).
  exists st', key, approval. split; [exact Hpost |].
  split; [rewrite Hrows; apply lookup_insert_eq |].
  split; [apply Happrover; reflexivity |].
  apply Hother; [discriminate | reflexivity].
Defined.

(** X13. The approval page offers the decision exactly when a decision
    would be taken: for a stored approval and a valid decision form, the
    page shows the approval with [can_decide] set if and only if posting
    the form records the decision, which adds one audit entry. *)
Theorem decision_is_offered_exactly_when_it_is_taken (now : DateTime)
    (st : Store) (u : User) (pk : Z) (approval : AdditionalApproval)
    (post : DecisionPost) :
  approvals st !! pk = Some approval ->
  is_Some (ApprovalDecisionForm_is_valid post) ->
  ApprovalDetailView_get st u pk = Ok (ApprovalDetail approval true)
  <-> exists st',
        ApprovalDetailView_post now st u post pk
        = Ok (st', Redirect "contracts:approvals" None)
        /\ length (audit_logs st') = S (length (audit_logs st)).
Proof.
  intros Hrow [cleaned Hvalid].
  unfold ApprovalDetailView_get, ApprovalDetailView_post.
  rewrite Hrow, Hvalid. unfold can_approve_request, same_user.
  assert (Hlonger : forall st1 : Store,
            length (audit_logs st1) <> S (length (audit_logs st1))) by (intros; lia).
  change (String.eqb (aa_status approval) "PENDING")
    with (String.eqb (aa_status approval) PENDING).
  destruct (u_is_authenticated u) eqn:Hauth;
    cbn [negb getattr_of mbind PyResult_bind];
    destruct (is_legal_admin (Some u)) eqn:Hadmin;
    try (apply is_legal_admin_authenticated in Hadmin; congruence);
    destruct (aa_approver approval =? u_pk u);
    destruct (aa_requested_by approval =? u_pk u);
    destruct (String.eqb (aa_status approval) PENDING);
    cbn [negb andb getattr_of mbind PyResult_bind fst];
    (split;
     [ intros Hget;
       first
         [ discriminate Hget
         | eexists; split; [reflexivity |];
           unfold ApprovalService_process_decision, AuditLogService_log;
           cbn [fst audit_logs set_audit_logs set_approvals];
           rewrite length_app; cbn [length]; lia ]
     | intros (st' & Hpost & Hlen);
       first
         [ reflexivity
         | discriminate Hpost
         | injection Hpost as <-; exfalso; exact (Hlonger st Hlen) ] ]).
Qed.

Lemma decision_is_offered_exactly_when_it_is_taken_witness :
  exists st',
    ApprovalDetailView_post sample_now store_with_approval (regular_user 2)
      {| post_decision := Some "APPROVED"; post_comment := None |} 1
    = Ok (st', Redirect "contracts:approvals" None)
    /\ length (audit_logs st') = 1%nat.
Proof.
  apply (decision_is_offered_exactly_when_it_is_taken sample_now
           store_with_approval (regular_user 2) 1
           (sample_approval 42 1 2 PENDING)
           {| post_decision := Some "APPROVED"; post_comment := None |}
           eq_refl).
  - eexists. reflexivity.
  - reflexivity.
Defined.

(** ** The creation wizard between its steps *)

Lemma index_or_0_STEPS_le (step : string) : (index_or_0 step STEPS <= 7)%nat.
Proof.
  unfold STEPS. simpl.
  repeat match goal with
         | |- context [String.eqb step ?s] =>
             destruct (String.eqb step s); simpl; try lia
         end.
Qed.

Lemma nth_STEPS_In (i : nat) : (i <= 7)%nat -> In (nth i STEPS "method") STEPS.
Proof.
  intros Hle. do 8 (destruct i as [|i]; [simpl; tauto |]). lia.
Qed.

Section WizardSteps.

Variable Decimal_of_str : string -> option Decimal.

Lemma save_contract_response (now : DateTime) (new_id : Z) (st : Store)
    (user : User) (session : Session) (wizard_data : gmap string StepData)
    (as_draft : bool) (st' : Store) (session' : Session) (resp : Response) :
  ContractCreateWizardView__save_contract Decimal_of_str now new_id st user
    session wizard_data as_draft = Ok (st', session', resp) ->
  resp = Redirect "contracts:detail" (Some new_id)
  /\ session' = {| contract_wizard := None; contract_wizard_file := None;
                   contract_wizard_file_name := None |}.
Proof.
  intros Hsave.
  destruct (save_contract_inv Decimal_of_str now new_id st user session
              wizard_data as_draft st' session' resp Hsave) as [-> _].
  split; [reflexivity |].
  unfold ContractCreateWizardView__save_contract in Hsave.
  destruct (ContractCreateWizardView__parse_decimal _ _); [| discriminate].
  cbn [mbind PyResult_bind] in Hsave.
  destruct (ContractOperationsService_create_contract _ _ _ _ _ _) in Hsave.
  injection Hsave as _ <- _. reflexivity.
Qed.

(** X14. Between its steps the wizard touches the session only. Whatever
    is posted: a user who may not create contracts is sent to the
    dashboard and nothing changes; a response that sends the user to a
    step leaves the database as it was, names one of the eight steps, and
    never names the upload step once the session records the template
    method; going back, or posting an invalid form, leaves the session as
    it was too; and the only other response is the redirect to the
    created contract, with the wizard's session keys cleared. *)
Theorem wizard_steps_touch_only_the_session (now : DateTime) (new_id : Z)
    (st : Store) (session : Session) (request : WizardRequest) (st' : Store)
    (session' : Session) (response : Response) :
  ContractCreateWizardView_dispatch Decimal_of_str now new_id st session
    request = Ok (st', session', response) ->
  (can_create_contract (Some (req_user request)) = false ->
   st' = st /\ session' = session
   /\ response = Redirect "contracts:dashboard" None)
  /\ (forall step,
        response = RedirectStep step ->
        st' = st
        /\ In step STEPS
        /\ (method_is_template (default ∅ (contract_wizard session')) = true ->
            step <> "upload")
        /\ (req_action request = Some "back" -> session' = session))
  /\ (forall template errors,
        response = Render template errors -> st' = st /\ session' = session)
  /\ (forall name pk,
        response = Redirect name pk ->
        can_create_contract (Some (req_user request)) = true ->
        name = "contracts:detail" /\ pk = Some new_id
        /\ session' = {| contract_wizard := None;
                         contract_wizard_file := None;
                         contract_wizard_file_name := None |}).
Proof.
  unfold ContractCreateWizardView_dispatch.
  destruct (can_create_contract (Some (req_user request))) eqn:Hcreate;
    cbn [negb].
  2:{ intros [= <- <- <-]. split; [auto |].
      split; [intros step [=] |]. split; [intros t e [=] |].
      intros name pk _ [=]. }
  intros Hpost. split; [discriminate |].
  unfold ContractCreateWizardView_post in Hpost.
  set (step := default "method" (req_current_step request)) in *.
  set (action := default "next" (req_action request)) in *.
  set (wizard_data := default ∅ (contract_wizard session)) in *.
  destruct (String.eqb_spec action "back") as [Hback | Hback].
  { assert (Hprev : forall prev, index_or_0 step STEPS = S prev ->
                      In (nth prev STEPS "method") STEPS).
    { intros prev Hindex. apply nth_STEPS_In.
      pose proof (index_or_0_STEPS_le step). lia. }
    destruct (index_or_0 step STEPS) as [|prev] eqn:Hindex.
    - injection Hpost as <- <- <-.
      split; [| split; [intros t e [=] | intros name pk [=]]].
      intros s [= <-]. split; [reflexivity |]. split; [simpl; tauto |].
      split; [discriminate | reflexivity].
    - specialize (Hprev prev eq_refl). fold wizard_data.
      destruct (String.eqb_spec (nth prev STEPS "method") "upload")
        as [Hupload | Hupload];
        destruct (method_is_template wizard_data) eqn:Htemplate;
        cbn [andb] in Hpost; injection Hpost as <- <- <-;
        (split; [| split; [intros t e [=] | intros name pk [=]]]);
        intros s [= <-]; (split; [reflexivity |]);
        (split; [first [exact Hprev | simpl; tauto] |]);
        (split; [| reflexivity]); fold wizard_data; rewrite Htemplate;
        first [discriminate | intros _; exact Hupload]. }
  assert (Hnotback : req_action request <> Some "back").
  { intros Heq. apply Hback. unfold action. rewrite Heq. reflexivity. }
  destruct (String.eqb_spec action "save_draft") as [Hdraft | Hdraft].
  { destruct (save_contract_response _ _ _ _ _ _ _ _ _ _ Hpost) as [-> ->].
    split; [intros s [=] |]. split; [intros t e [=] |].
    intros name pk [= <- <-] _. auto. }
  destruct (String.eqb_spec step "value") as [Hvalue | Hvalue].
  { injection Hpost as <- <- <-.
    split; [| split; [intros t e [=] | intros name pk [=]]].
    intros s [= <-]. split; [reflexivity |]. split; [simpl; tauto |].
    split; [discriminate | contradiction]. }
  destruct (req_validate request (STEP_FORMS step)) as [cleaned_data|].
  2:{ injection Hpost as <- <- <-.
      split; [intros s [=] |]. split; [auto | intros name pk [=]]. }
  set (stored := <[step := cleaned_data]> wizard_data) in *.
  destruct (match req_file request with
            | Some f =>
                if String.eqb step "upload"
                then (<["uploaded_file" := UploadedFileInfo (uf_name f) (uf_size f)]>
                        stored, Some (uf_content f), Some (uf_name f))
                else (stored, contract_wizard_file session,
                      contract_wizard_file_name session)
            | None => (stored, contract_wizard_file session,
                       contract_wizard_file_name session)
            end) as [[wizard_data' file_data] file_name] eqn:Hfile.
  assert (Hmethod : wizard_data' !! "method" = stored !! "method").
  { destruct (req_file request) as [f|];
      [destruct (String.eqb step "upload") |];
      injection Hfile as <- _ _; try reflexivity.
    apply lookup_insert_ne. discriminate. }
  destruct (String.eqb_spec step "method") as [Hstep | Hstep].
  { assert (Hstored : wizard_data' !! "method" = Some cleaned_data).
    { rewrite Hmethod. unfold stored. rewrite Hstep. apply lookup_insert_eq. }
    assert (Hgoal : forall target,
              (method_is_template wizard_data' = true -> target <> "upload") ->
              In target STEPS ->
              Ok (st, {| contract_wizard := Some wizard_data';
                         contract_wizard_file := file_data;
                         contract_wizard_file_name := file_name |},
                  RedirectStep target) = Ok (st', session', response) ->
              (forall s, response = RedirectStep s ->
                 st' = st /\ In s STEPS
                 /\ (method_is_template (default ∅ (contract_wizard session'))
                     = true -> s <> "upload")
                 /\ (req_action request = Some "back" -> session' = session))
              /\ (forall t e, response = Render t e ->
                    st' = st /\ session' = session)
              /\ (forall name pk, response = Redirect name pk -> true = true ->
                    name = "contracts:detail" /\ pk = Some new_id
                    /\ session' = {| contract_wizard := None;
                                     contract_wizard_file := None;
                                     contract_wizard_file_name := None |})).
    { intros target Hskip Hin [= <- <- <-].
      split; [| split; [intros t e [=] | intros name pk [=]]].
      intros s [= <-]. split; [reflexivity |]. split; [exact Hin |].
      split; [exact Hskip | contradiction]. }
    unfold method_is_template in Hgoal. rewrite Hstored in Hgoal.
    destruct cleaned_data as [m| | | | | | | |];
      try (apply (Hgoal "upload"); [discriminate | simpl; tauto | exact Hpost]).
    destruct (String.eqb m "template") eqn:Hm.
    - apply (Hgoal "name"); [discriminate | simpl; tauto | exact Hpost].
    - apply (Hgoal "upload"); [discriminate | simpl; tauto | exact Hpost]. }
  destruct (index_or_0 step STEPS <? length STEPS - 1)%nat eqn:Hlast.
  - apply Nat.ltb_lt in Hlast. cbn [length STEPS] in Hlast.
    assert (Hin : In (nth (S (index_or_0 step STEPS)) STEPS "method") STEPS)
      by (apply nth_STEPS_In; lia).
    destruct (String.eqb_spec (nth (S (index_or_0 step STEPS)) STEPS "method")
                "upload") as [Hupload | Hupload];
      destruct (method_is_template wizard_data') eqn:Htemplate;
      cbn [andb] in Hpost; injection Hpost as <- <- <-;
      (split; [| split; [intros t e [=] | intros name pk [=]]]);
      intros s [= <-]; (split; [reflexivity |]);
      (split; [first [exact Hin | simpl; tauto] |]);
      (split; [| contradiction]); cbn [contract_wizard from_option]; unfold id;
      rewrite Htemplate; first [discriminate | intros _; exact Hupload].
  - destruct (save_contract_response _ _ _ _ _ _ _ _ _ _ Hpost) as [-> ->].
    split; [intros s [=] |]. split; [intros t e [=] |].
    intros name pk [= <- <-] _. auto.
Qed.

(** X15. Back undoes Next. When a post of one of the eight steps sends the
    user on to a next step, a post from that step asking to go back
    returns to the step just left and changes nothing; the one exception
    is the upload step once the session records the template method,
    which Back skips. *)
Theorem back_returns_to_the_step_just_left (now : DateTime) (new_id : Z)
    (st : Store) (session : Session) (request back : WizardRequest)
    (st1 : Store) (session1 : Session) (next_step : string) :
  let step := default "method" (req_current_step request) in
  In step STEPS ->
  req_action request <> Some "back" ->
  ContractCreateWizardView_post Decimal_of_str now new_id st session request
  = Ok (st1, session1, RedirectStep next_step) ->
  ~ (step = "upload"
     /\ method_is_template (default ∅ (contract_wizard session1)) = true) ->
  req_current_step back = Some next_step ->
  req_action back = Some "back" ->
  ContractCreateWizardView_post Decimal_of_str now new_id st1 session1 back
  = Ok (st1, session1, RedirectStep step).
Proof.
  intros step Hin Hnotback Hpost Hskipped Hstep Haction.
  assert (Hback : forall target,
            next_step = target ->
            (match index_or_0 target STEPS with
             | S prev =>
                 if String.eqb (nth prev STEPS "method") "upload"
                    && method_is_template (default ∅ (contract_wizard session1))
                 then "method" else nth prev STEPS "method"
             | O => "method"
             end = step) ->
            ContractCreateWizardView_post Decimal_of_str now new_id st1
              session1 back = Ok (st1, session1, RedirectStep step)).
  { intros target <- Htarget.
    unfold ContractCreateWizardView_post. rewrite Hstep, Haction.
    cbn [from_option]. unfold id at 1 2. cbn [String.eqb Ascii.eqb Bool.eqb].
    destruct (index_or_0 next_step STEPS) as [|prev];
      [rewrite <- Htarget; reflexivity |].
    destruct (String.eqb (nth prev STEPS "method") "upload"
              && method_is_template (default ∅ (contract_wizard session1)));
      rewrite <- Htarget; reflexivity. }
  unfold ContractCreateWizardView_post in Hpost. fold step in Hpost.
  set (action := default "next" (req_action request)) in *.
  set (wizard_data := default ∅ (contract_wizard session)) in *.
  destruct (String.eqb_spec action "back") as [Heq | _].
  { exfalso. unfold action in Heq.
    destruct (req_action request) as [a|]; [| discriminate Heq].
    cbn in Heq. subst a. contradiction. }
  destruct (String.eqb action "save_draft").
  { unfold ContractCreateWizardView__save_contract in Hpost.
    destruct (ContractCreateWizardView__parse_decimal _ _);
      [| discriminate Hpost].
    cbn [mbind PyResult_bind] in Hpost.
    destruct (ContractOperationsService_create_contract _ _ _ _ _ _) in Hpost.
    discriminate Hpost. }
  clearbody step.
  destruct (String.eqb_spec step "value") as [-> | Hvalue].
  { injection Hpost as <- <- <-. apply (Hback "owner_tags"); reflexivity. }
  destruct (req_validate request (STEP_FORMS step)) as [cleaned_data|];
    [| discriminate Hpost].
  set (stored := <[step := cleaned_data]> wizard_data) in *.
  destruct (match req_file request with
            | Some f =>
                if String.eqb step "upload"
                then (<["uploaded_file" := UploadedFileInfo (uf_name f) (uf_size f)]>
                        stored, Some (uf_content f), Some (uf_name f))
                else (stored, contract_wizard_file session,
                      contract_wizard_file_name session)
            | None => (stored, contract_wizard_file session,
                       contract_wizard_file_name session)
            end) as [[wizard_data' file_data] file_name] eqn:Hfile.
  assert (Hmethod : wizard_data' !! "method" = stored !! "method").
  { destruct (req_file request) as [f|];
      [destruct (String.eqb step "upload") |];
      injection Hfile as <- _ _; try reflexivity.
    apply lookup_insert_ne. discriminate. }
  clear Hfile.
  cbn [In STEPS] in Hin.
  destruct Hin as [<- | [<- | [<- | [<- | [<- | [<- | [<- | [<- | []]]]]]]]];
    try (exfalso; apply Hvalue; reflexivity);
    cbn [String.eqb Ascii.eqb Bool.eqb index_or_0 STEPS existsb orb nth
         Nat.ltb Nat.leb length Nat.sub andb] in Hpost.
  - (* method *)
    assert (Hstored : wizard_data' !! "method" = Some cleaned_data)
      by (rewrite Hmethod; apply lookup_insert_eq).
    destruct cleaned_data as [m| | | | | | | |];
      try (injection Hpost as <- <- <-;
           apply (Hback "upload"); reflexivity).
    destruct (String.eqb m "template") eqn:Hm; injection Hpost as <- <- <-.
    + apply (Hback "name"); [reflexivity |].
      cbn [index_or_0 STEPS String.eqb Ascii.eqb Bool.eqb existsb orb nth
           contract_wizard from_option]. unfold id, method_is_template.
      rewrite Hstored, Hm. reflexivity.
    + apply (Hback "upload"); reflexivity.
  - (* upload *)
    injection Hpost as <- <- <-. apply (Hback "name"); [reflexivity |].
    cbn [index_or_0 STEPS String.eqb Ascii.eqb Bool.eqb existsb orb nth].
    destruct (method_is_template _) eqn:Htemplate; [| reflexivity].
    exfalso. apply Hskipped. split; reflexivity.
  - injection Hpost as <- <- <-. apply (Hback "basic"); reflexivity.
  - injection Hpost as <- <- <-. apply (Hback "party"); reflexivity.
  - injection Hpost as <- <- <-. apply (Hback "dates"); reflexivity.
  - injection Hpost as <- <- <-. apply (Hback "value"); reflexivity.
  - (* owner_tags commits *)
    unfold ContractCreateWizardView__save_contract in Hpost.
    destruct (ContractCreateWizardView__parse_decimal _ _);
      [| discriminate Hpost].
    cbn [mbind PyResult_bind] in Hpost.
    destruct (ContractOperationsService_create_contract _ _ _ _ _ _) in Hpost.
    discriminate Hpost.
Qed.

End WizardSteps.

Lemma wizard_steps_touch_only_the_session_witness :
  ContractCreateWizardView_dispatch (fun _ => None) sample_now 42 empty_store
    template_session back_from_name_request
  = Ok (empty_store, template_session, RedirectStep "method")
  /\ In "method" STEPS.
Proof.
  split; [reflexivity |].
  destruct (wizard_steps_touch_only_the_session (fun _ => None) sample_now 42
              empty_store template_session back_from_name_request
              empty_store template_session (RedirectStep "method") eq_refl)
    as (_ & Hstep & _).
  apply (Hstep "method" eq_refl).
Defined.

Lemma back_returns_to_the_step_just_left_witness :
  ContractCreateWizardView_post (fun _ => None) sample_now 42 empty_store
    session_after_name back_from_basic_request
  = Ok (empty_store, session_after_name, RedirectStep "name").
Proof.
  apply (back_returns_to_the_step_just_left (fun _ => None) sample_now 42
           empty_store template_session next_from_name_request
           back_from_basic_request empty_store session_after_name "basic").
  - simpl. tauto.
  - discriminate.
  - reflexivity.
  - intros [Hupload _]. discriminate Hupload.
  - reflexivity.
  - reflexivity.
Defined.

(** ** Dates *)

(** X16. The three notions of expiry, for any contract and any day. A
    contract that the model calls expiring soon is active, not expired,
    and inside the 30-day window of the template filter. The two differ
    on the last day only: an active contract inside the window that the
    model does not call expiring soon ends today, and a contract that
    ends today is neither expiring soon nor expired for the model, while
    the filter has it in the window and [expiry_class] paints it red.
    The model calls a contract expired exactly when [expiry_class] gives
    the bold red class. *)
Theorem expiry_notions_differ_on_the_last_day (today : Z) (c : Contract) :
  (Contract_is_expiring_soon today c = true ->
   c_status c = ACTIVE
   /\ Contract_is_expired today c = false
   /\ is_expiring_soon today (c_end_date c) 30 = true)
  /\ (is_expiring_soon today (c_end_date c) 30 = true ->
      c_status c = ACTIVE ->
      Contract_is_expiring_soon today c = false ->
      c_end_date c = Some today)
  /\ (c_end_date c = Some today ->
      Contract_is_expiring_soon today c = false
      /\ Contract_is_expired today c = false
      /\ is_expiring_soon today (c_end_date c) 30 = true
      /\ expiry_class today (c_end_date c) = "text-danger")
  /\ (Contract_is_expired today c = true
      <-> expiry_class today (c_end_date c) = "text-danger fw-bold").
Proof.
  unfold Contract_is_expiring_soon, Contract_is_expired, is_expiring_soon,
    expiry_class, days_until.
  destruct (c_end_date c) as [end_date|].
  2:{ repeat split; try discriminate. }
  destruct (String.eqb_spec (c_status c) ACTIVE) as [Hactive | Hactive].
  - repeat match goal with |- _ /\ _ => split end.
    + intros Hsoon. split; [exact Hactive |]. split; lia.
    + intros Hwindow _ Hnot. f_equal. lia.
    + intros [= ->]. replace (today - today) with 0 by lia.
      repeat split; try reflexivity; lia.
    + destruct (Z.ltb_spec end_date today);
        destruct (Z.ltb_spec (end_date - today) 0); try lia;
        [split; reflexivity |].
      split; [discriminate |].
      destruct (end_date - today <=? 7); [discriminate |].
      destruct (end_date - today <=? 30); discriminate.
  - repeat match goal with |- _ /\ _ => split end.
    + discriminate.
    + intros _ Hstatus. contradiction.
    + intros [= ->]. replace (today - today) with 0 by lia.
      repeat split; try reflexivity; lia.
    + destruct (Z.ltb_spec end_date today);
        destruct (Z.ltb_spec (end_date - today) 0); try lia;
        [split; reflexivity |].
      split; [discriminate |].
      destruct (end_date - today <=? 7); [discriminate |].
      destruct (end_date - today <=? 30); discriminate.
Qed.

Lemma expiry_notions_differ_on_the_last_day_witness :
  Contract_is_expiring_soon 738886 contract_ending_738886 = false
  /\ Contract_is_expired 738886 contract_ending_738886 = false
  /\ is_expiring_soon 738886 (c_end_date contract_ending_738886) 30 = true
  /\ expiry_class 738886 (c_end_date contract_ending_738886) = "text-danger".
Proof.
  destruct (expiry_notions_differ_on_the_last_day 738886
              contract_ending_738886) as (_ & _ & Htoday & _).
  apply Htoday. reflexivity.
Defined.

Lemma insert_by_end_date_In (c x : Contract) (sorted : list Contract) :
  In x (insert_by_end_date c sorted) <-> x = c \/ In x sorted.
Proof.
  induction sorted as [|d rest IH]; simpl; [intuition congruence |].
  destruct (default 0 (c_end_date c) <=? default 0 (c_end_date d)); simpl;
    [intuition congruence |].
  rewrite IH. intuition congruence.
Qed.

Lemma insert_by_end_date_length (c : Contract) (sorted : list Contract) :
  length (insert_by_end_date c sorted) = S (length sorted).
Proof.
  induction sorted as [|d rest IH]; simpl; [reflexivity |].
  destruct (default 0 (c_end_date c) <=? default 0 (c_end_date d)); simpl;
    [reflexivity | rewrite IH; reflexivity].
Qed.

Lemma insert_by_end_date_sorted (c : Contract) (sorted : list Contract) :
  ordered_by_end_date sorted ->
  ordered_by_end_date (insert_by_end_date c sorted).
Proof.
  induction sorted as [|d rest IH]; simpl.
  - intros _. split; [constructor | exact I].
  - intros [Hall Hsorted].
    destruct (Z.leb_spec (default 0 (c_end_date c)) (default 0 (c_end_date d)))
      as [Hle | Hgt]; simpl.
    + split; [| split; assumption].
      constructor; [exact Hle |].
      rewrite List.Forall_forall in Hall |- *. intros x Hx.
      specialize (Hall x Hx). cbv beta in Hall. lia.
    + split; [| exact (IH Hsorted)].
      rewrite List.Forall_forall in Hall |- *. intros x Hx.
      apply insert_by_end_date_In in Hx. destruct Hx as [-> | Hx];
        [lia | exact (Hall x Hx)].
Qed.

Lemma order_by_end_date_In (x : Contract) (rows : list Contract) :
  In x (order_by_end_date rows) <-> In x rows.
Proof.
  unfold order_by_end_date. induction rows as [|c rows IH]; simpl; [tauto |].
  rewrite insert_by_end_date_In, IH. intuition congruence.
Qed.

Lemma order_by_end_date_length (rows : list Contract) :
  length (order_by_end_date rows) = length rows.
Proof.
  unfold order_by_end_date. induction rows as [|c rows IH]; simpl;
    [reflexivity |].
  rewrite insert_by_end_date_length, IH. reflexivity.
Qed.

Lemma order_by_end_date_sorted (rows : list Contract) :
  ordered_by_end_date (order_by_end_date rows).
Proof.
  unfold order_by_end_date. induction rows as [|c rows IH]; simpl;
    [exact I | apply insert_by_end_date_sorted, IH].
Qed.

Lemma In_firstn {A : Type} (n : nat) (l : list A) (x : A) :
  In x (firstn n l) -> In x l.
Proof.
  revert n. induction l as [|a l IH]; intros [|n]; simpl; try tauto.
  intros [-> | Hx]; [tauto | right; exact (IH n Hx)].
Qed.

Lemma firstn_sorted (n : nat) (rows : list Contract) :
  ordered_by_end_date rows -> ordered_by_end_date (firstn n rows).
Proof.
  revert n. induction rows as [|c rows IH]; intros [|n]; simpl; try tauto.
  intros [Hall Hsorted]. split; [| exact (IH n Hsorted)].
  rewrite List.Forall_forall in Hall |- *. intros x Hx.
  apply Hall. exact (In_firstn _ _ _ Hx).
Qed.

(** X17. The dashboard's list of expiring contracts, for a signed-in user.
    It shows at most ten contracts, ordered by end date; each is a stored
    active contract that ends no earlier than today and no later than
    [days] days from now, and that the user may view. The count beside
    the list is the number of all such contracts, of which the list shows
    ten or, when they are fewer, all. *)
Theorem expiring_contracts_are_visible_and_in_the_window (st : Store)
    (user : User) (today days : Z) :
  u_is_authenticated user = true ->
  let result := DashboardService_get_expiring_contracts st user today days in
  length (exp_items result) = Nat.min 10 (exp_count result)
  /\ ordered_by_end_date (exp_items result)
  /\ (forall c,
        In c (exp_items result) ->
        (exists pk, contracts st !! pk = Some c)
        /\ c_status c = ACTIVE
        /\ (exists end_date,
              c_end_date c = Some end_date
              /\ today <= end_date <= today + days)
        /\ can_view_contract st (Some user) (Some c) = Ok true)
  /\ (forall pk c end_date,
        contracts st !! pk = Some c ->
        c_status c = ACTIVE ->
        c_end_date c = Some end_date ->
        today <= end_date <= today + days ->
        can_view_contract st (Some user) (Some c) = Ok true ->
        (exp_count result <= 10)%nat ->
        In c (exp_items result)).
Proof.
  intros Hauth result. subst result.
  unfold DashboardService_get_expiring_contracts.
  cbn [exp_items exp_count].
  set (in_window := fun kc : Z * Contract =>
         String.eqb (c_status (snd kc)) ACTIVE
         && match c_end_date (snd kc) with
            | Some end_date =>
                (end_date <=? today + days) && (today <=? end_date)
            | None => false
            end = true).
  set (queryset :=
         if negb (is_legal_admin (Some user))
         then DashboardService__filter_user_accessible_contracts st user
                (filter in_window (contracts st))
         else filter in_window (contracts st)).
  assert (Hrows : forall pk c,
            queryset !! pk = Some c
            <-> contracts st !! pk = Some c
                /\ c_status c = ACTIVE
                /\ (exists end_date,
                      c_end_date c = Some end_date
                      /\ today <= end_date <= today + days)
                /\ can_view_contract st (Some user) (Some c) = Ok true).
  { intros pk c.
    assert (Hwindow : in_window (pk, c)
                      <-> c_status c = ACTIVE
                          /\ exists end_date,
                               c_end_date c = Some end_date
                               /\ today <= end_date <= today + days).
    { unfold in_window. cbn [snd]. rewrite andb_true_iff, String.eqb_eq.
      destruct (c_end_date c) as [e|].
      - rewrite andb_true_iff, Z.leb_le, Z.leb_le.
        split; [intros (Hs & H1 & H2); split; [exact Hs |]; exists e;
                split; [reflexivity | lia]
               | intros (Hs & e' & [= <-] & H1); split; [exact Hs | lia]].
      - split; [intros [_ [=]] | intros (_ & e' & [=] & _)]. }
    unfold queryset, DashboardService__filter_user_accessible_contracts.
    destruct (is_legal_admin (Some user)) eqn:Hadmin; cbn [negb].
    - rewrite map_lookup_filter_Some, Hwindow.
      unfold can_view_contract. rewrite Hauth, Hadmin. cbn [negb]. tauto.
    - rewrite !map_lookup_filter_Some, Hwindow. cbn [snd].
      rewrite (accessible_q_can_view st user c Hauth Hadmin).
      split; [intros ((Hrow & Hw) & Hq); repeat split; try tauto; congruence
             | intros (Hrow & Hs & He & Hv); repeat split; try tauto;
               congruence]. }
  assert (Hin : forall c,
            In c (List.map snd (map_to_list queryset))
            <-> exists pk, queryset !! pk = Some c).
  { intros c. rewrite List.in_map_iff. split.
    - intros ([pk c'] & <- & Hx). exists pk.
      apply elem_of_map_to_list. apply list_elem_of_In. exact Hx.
    - intros [pk Hx]. exists (pk, c). split; [reflexivity |].
      apply list_elem_of_In. apply elem_of_map_to_list. exact Hx. }
  assert (Hlen : length (order_by_end_date (List.map snd (map_to_list queryset)))
                 = size queryset).
  { rewrite order_by_end_date_length, List.length_map.
    apply length_map_to_list. }
  split; [rewrite List.length_firstn, Hlen; reflexivity |].
  split; [apply firstn_sorted, order_by_end_date_sorted |].
  split.
  - intros c Hc. apply In_firstn in Hc.
    apply order_by_end_date_In, Hin in Hc. destruct Hc as [pk Hc].
    apply Hrows in Hc. destruct Hc as (Hrow & Hs & He & Hv).
    split; [exists pk; exact Hrow | tauto].
  - intros pk c end_date Hrow Hs He Hw Hv Hfew.
    rewrite List.firstn_all2 by (rewrite Hlen; exact Hfew).
    apply order_by_end_date_In, Hin. exists pk. apply Hrows.
    split; [exact Hrow |]. split; [exact Hs |].
    split; [exists end_date; tauto | exact Hv].
Qed.

Lemma expiring_contracts_are_visible_and_in_the_window_witness :
  In contract_ending_738886
    (exp_items
       (DashboardService_get_expiring_contracts store_with_expiring_contract
          (regular_user 1) 738880 30)).
Proof.
  destruct (expiring_contracts_are_visible_and_in_the_window
              store_with_expiring_contract (regular_user 1) 738880 30 eq_refl)
    as (_ & _ & _ & Hshown).
  apply (Hshown 42 contract_ending_738886 738886).
  - reflexivity.
  - reflexivity.
  - reflexivity.
  - lia.
  - reflexivity.
  - vm_compute. lia.
Defined.

(** ** Template filters *)

Lemma length_append (s t : string) :
  String.length (s +:+ t) = (String.length s + String.length t)%nat.
Proof. induction s as [|a s IH]; simpl; [reflexivity | rewrite IH; reflexivity]. Qed.

Lemma substring_app (s : string) (a m k : nat) :
  substring a (m + k) s = substring a m s +:+ substring (a + m) k s.
Proof.
  revert a m. induction s as [|c s IH]; intros a m.
  - destruct a, m, k; reflexivity.
  - destruct a as [|a]; simpl.
    + destruct m as [|m]; simpl; [reflexivity |].
      rewrite (IH 0%nat m). reflexivity.
    + apply IH.
Qed.

Lemma substring_all (s : string) : substring 0 (String.length s) s = s.
Proof. induction s as [|c s IH]; simpl; [reflexivity | rewrite IH; reflexivity]. Qed.

Lemma length_substring (s : string) (a m : nat) :
  (a + m <= String.length s)%nat -> String.length (substring a m s) = m.
Proof.
  revert a m. induction s as [|c s IH]; intros a m Hle; simpl in Hle.
  - assert (a = 0%nat) by lia. assert (m = 0%nat) by lia. subst. reflexivity.
  - destruct a as [|a]; simpl.
    + destruct m as [|m]; simpl; [reflexivity |].
      rewrite (IH 0%nat m) by lia. reflexivity.
    + apply IH. lia.
Qed.

(** X18. What [truncate_middle] returns. A value no longer than the limit
    comes back as it is. For a longer value and a limit of five or more,
    the value is cut into a head, a middle and a tail, head and tail each
    of (limit - 3) // 2 characters, and the result is the head, three
    dots and the tail, which is one or zero characters short of the
    limit. For a limit of three or four nothing is cut: the result is
    three dots followed by the whole value, longer than the value
    itself. *)
Theorem truncate_middle_replaces_the_middle (value : string) (length : Z) :
  (py_len value <= length -> truncate_middle value length = value)
  /\ (5 <= length < py_len value ->
      exists head middle tail,
        value = head +:+ middle +:+ tail
        /\ truncate_middle value length = head +:+ "..." +:+ tail
        /\ py_len head = (length - 3) / 2
        /\ py_len tail = (length - 3) / 2
        /\ length - 1 <= py_len (truncate_middle value length) <= length)
  /\ (3 <= length <= 4 ->
      length < py_len value ->
      truncate_middle value length = "..." +:+ value).
Proof.
  unfold truncate_middle.
  split; [| split].
  - intros Hshort. apply Z.leb_le in Hshort. rewrite Hshort, orb_true_r.
    reflexivity.
  - intros [Hlimit Hlong].
    assert (Hfalsy : str_falsy value = false).
    { apply str_falsy_false. intros ->. unfold py_len in Hlong. simpl in Hlong.
      lia. }
    rewrite Hfalsy. cbn [orb].
    destruct (Z.leb_spec (py_len value) length) as [Hle | _]; [lia |].
    set (half := (length - 3) / 2).
    assert (Hhalf : 1 <= half /\ 2 * half <= length - 3 /\ length - 4 <= 2 * half).
    { unfold half.
      pose proof (Z.div_mod (length - 3) 2 ltac:(lia)) as Hdiv.
      pose proof (Z.mod_pos_bound (length - 3) 2 ltac:(lia)) as Hmod.
      lia. }
    unfold slice_to, slice_from.
    destruct (Z.ltb_spec half 0) as [Hneg | _]; [lia |].
    destruct (Z.ltb_spec (- half) 0) as [_ | Hpos]; [| lia].
    unfold py_len in *.
    set (len := String.length value) in *.
    rewrite (Z.min_l half (Z.of_nat len)) by lia.
    rewrite (Z.max_l (Z.of_nat len + - half) 0) by lia.
    set (n := Z.to_nat half).
    replace (Z.to_nat (Z.of_nat len + - half)) with (len - n)%nat by lia.
    replace (Z.to_nat (Z.of_nat len - (Z.of_nat len + - half))) with n by lia.
    exists (substring 0 n value), (substring n (len - 2 * n) value),
      (substring (len - n) n value).
    assert (Hhead : String.length (substring 0 n value) = n)
      by (apply length_substring; lia).
    assert (Htail : String.length (substring (len - n) n value) = n)
      by (apply length_substring; lia).
    split.
    { rewrite <- (substring_all value) at 1. fold len.
      replace len with (n + ((len - 2 * n) + n))%nat at 1 by lia.
      rewrite substring_app. f_equal.
      rewrite substring_app. f_equal. f_equal. lia. }
    split; [reflexivity |].
    split; [rewrite Hhead; lia |].
    split; [rewrite Htail; lia |].
    rewrite !length_append, Hhead, Htail. simpl String.length. lia.
  - intros Hlimit Hlong.
    assert (Hfalsy : str_falsy value = false).
    { apply str_falsy_false. intros ->. unfold py_len in Hlong. simpl in Hlong.
      lia. }
    rewrite Hfalsy. cbn [orb].
    destruct (Z.leb_spec (py_len value) length) as [Hle | _]; [lia |].
    assert (Hhalf : (length - 3) / 2 = 0).
    { assert (length = 3 \/ length = 4) as [-> | ->] by lia; reflexivity. }
    rewrite Hhalf. unfold slice_to, slice_from.
    change (- 0) with 0. change (0 <? 0) with false. cbv iota.
    rewrite (Z.min_l 0 (py_len value)) by (unfold py_len; lia).
    replace (Z.to_nat (py_len value - 0)) with (String.length value)
      by (unfold py_len; lia).
    change (Z.to_nat 0) with 0%nat. rewrite substring_all.
    destruct value; reflexivity.
Qed.

Lemma truncate_middle_replaces_the_middle_witness :
  truncate_middle "CNT-202401-550E8400" 3 = "...CNT-202401-550E8400".
Proof.
  destruct (truncate_middle_replaces_the_middle "CNT-202401-550E8400" 3)
    as (_ & _ & Hsmall).
  apply Hsmall; [lia | vm_compute; reflexivity].
Defined.

(** ** The client address of an audit entry *)

Lemma before_comma_no_comma (s : string) :
  string_forall (fun a => negb (Ascii.eqb a ",")) (before_comma s) = true.
Proof.
  induction s as [|a s IH]; simpl; [reflexivity |].
  destruct (Ascii.eqb a ",") eqn:Ha; simpl; [reflexivity |].
  rewrite Ha, IH. reflexivity.
Qed.

Lemma lstrip_forall (p : ascii -> bool) (s : string) :
  string_forall p s = true -> string_forall p (lstrip s) = true.
Proof.
  induction s as [|a s IH]; simpl; [reflexivity |].
  intros Hall. apply andb_true_iff in Hall. destruct Hall as [Ha Hs].
  destruct (char_isspace a); [exact (IH Hs) |].
  simpl. rewrite Ha, Hs. reflexivity.
Qed.

Lemma rstrip_forall (p : ascii -> bool) (s : string) :
  string_forall p s = true -> string_forall p (rstrip s) = true.
Proof.
  induction s as [|a s IH]; simpl; [reflexivity |].
  intros Hall. apply andb_true_iff in Hall. destruct Hall as [Ha Hs].
  specialize (IH Hs). destruct (rstrip s) as [|b r].
  - destruct (char_isspace a); simpl; [reflexivity | rewrite Ha; reflexivity].
  - cbn [string_forall]. rewrite Ha. exact IH.
Qed.

Lemma rstrip_idempotent (s : string) : rstrip (rstrip s) = rstrip s.
Proof.
  induction s as [|a s IH]; simpl; [reflexivity |].
  destruct (rstrip s) as [|b r] eqn:Hr.
  - destruct (char_isspace a) eqn:Ha; simpl; [reflexivity |].
    rewrite Ha. reflexivity.
  - cbn [rstrip]. cbn [rstrip] in IH. rewrite IH. reflexivity.
Qed.

Lemma lstrip_head (s : string) :
  lstrip s = ""
  \/ exists a rest, lstrip s = String a rest /\ char_isspace a = false.
Proof.
  induction s as [|a s IH]; simpl; [left; reflexivity |].
  destruct (char_isspace a) eqn:Ha; [exact IH |].
  right. exists a, s. split; [reflexivity | exact Ha].
Qed.

Lemma strip_idempotent (s : string) : strip (strip s) = strip s.
Proof.
  unfold strip.
  assert (Hl : lstrip (rstrip (lstrip s)) = rstrip (lstrip s)).
  { destruct (lstrip_head s) as [-> | (a & rest & -> & Ha)]; [reflexivity |].
    cbn [rstrip]. destruct (rstrip rest); rewrite ?Ha; cbn [lstrip];
      rewrite Ha; reflexivity. }
  rewrite Hl. apply rstrip_idempotent.
Qed.

(** X19. The address an audit entry records. Without the header
    X-Forwarded-For, or with an empty one, it is REMOTE_ADDR. With any
    other header value REMOTE_ADDR is not read: the address is the text
    before the first comma of the header with the surrounding whitespace
    removed, so it holds no comma and no whitespace at either end; it is
    the empty string when nothing but whitespace precedes the first
    comma. *)
Theorem client_ip_is_first_forwarded_address (meta : RequestMeta) :
  (HTTP_X_FORWARDED_FOR meta = None \/ HTTP_X_FORWARDED_FOR meta = Some "" ->
   AuditLogService__get_client_ip meta = REMOTE_ADDR meta)
  /\ (forall x_forwarded_for,
        HTTP_X_FORWARDED_FOR meta = Some x_forwarded_for ->
        x_forwarded_for <> "" ->
        exists ip,
          AuditLogService__get_client_ip meta = Some ip
          /\ ip = strip (before_comma x_forwarded_for)
          /\ string_forall (fun a => negb (Ascii.eqb a ",")) ip = true
          /\ strip ip = ip
          /\ (strip (before_comma x_forwarded_for) = "" -> ip = "")).
Proof.
  unfold AuditLogService__get_client_ip. split.
  - intros [-> | ->]; reflexivity.
  - intros x -> Hx. rewrite (proj2 (str_falsy_false x) Hx).
    exists (strip (before_comma x)).
    split; [reflexivity |]. split; [reflexivity |].
    split; [apply rstrip_forall, lstrip_forall, before_comma_no_comma |].
    split; [apply strip_idempotent | auto].
Qed.

Lemma client_ip_is_first_forwarded_address_witness :
  AuditLogService__get_client_ip
    {| HTTP_X_FORWARDED_FOR := Some " 203.0.113.7 , 10.0.0.1";
       REMOTE_ADDR := Some "10.0.0.1" |}
  = Some "203.0.113.7".
Proof.
  destruct (client_ip_is_first_forwarded_address
              {| HTTP_X_FORWARDED_FOR := Some " 203.0.113.7 , 10.0.0.1";
                 REMOTE_ADDR := Some "10.0.0.1" |}) as (_ & Hheader).
  destruct (Hheader " 203.0.113.7 , 10.0.0.1" eq_refl)
    as (ip & -> & -> & _); [discriminate |].
  reflexivity.
Defined.

(** ** The demo middleware *)

(** X20. What the demo middleware hands to the views. A signed-in user
    passes through unchanged and nothing is stored. An anonymous request,
    when no demo user exists or is cached, creates the user demo_user,
    who is an administrator: every contract predicate answers [True] for
    this user on every contract. Once the demo user is cached, anonymous
    requests get the cached user without the user table being read, so a
    later change or removal of that row is not seen. *)
Theorem demo_middleware_makes_anonymous_an_administrator
    (cache : option User) (users : gmap string User) (new_pk : Z)
    (request_user : User) :
  (u_is_authenticated request_user = true ->
   MockUserMiddleware_call cache users new_pk request_user
   = (cache, users, request_user))
  /\ (u_is_authenticated request_user = false ->
      cache = None ->
      users !! "demo_user" = None ->
      exists demo,
        MockUserMiddleware_call cache users new_pk request_user
        = (Some demo, <["demo_user" := demo]> users, demo)
        /\ u_pk demo = new_pk
        /\ is_legal_admin (Some demo) = true
        /\ forall st contract,
             can_view_contract st (Some demo) contract = Ok true
             /\ can_edit_contract st (Some demo) contract = Ok true
             /\ can_delete_contract (Some demo) contract = Ok true
             /\ can_share_contract (Some demo) contract = Ok true)
  /\ (u_is_authenticated request_user = false ->
      forall demo,
        cache = Some demo ->
        forall later_users later_pk,
          MockUserMiddleware_call cache later_users later_pk request_user
          = (cache, later_users, demo)).
Proof.
  unfold MockUserMiddleware_call, MockUserMiddleware_get_mock_user.
  split; [intros ->; reflexivity |].
  split.
  - intros -> -> ->. cbn [negb]. eexists. split; [reflexivity |].
    split; [reflexivity |]. split; [reflexivity |].
    intros st contract. repeat split; reflexivity.
  - intros -> demo -> later_users later_pk. reflexivity.
Qed.

Lemma demo_middleware_makes_anonymous_an_administrator_witness :
  exists demo,
    MockUserMiddleware_call None ∅ 1 AnonymousUser
    = (Some demo, {[ "demo_user" := demo ]}, demo)
    /\ can_delete_contract (Some demo)
         (Some (sample_contract 42 ACTIVE 7 7 true)) = Ok true.
Proof.
  destruct (demo_middleware_makes_anonymous_an_administrator None ∅ 1
              AnonymousUser) as (_ & Hanonymous & _).
  destruct (Hanonymous eq_refl eq_refl eq_refl)
    as (demo & Hcall & _ & _ & Hgranted).
  exists demo. split; [exact Hcall |].
  apply (Hgranted empty_store).
Defined.

(** ** Deleting a contract *)

Lemma filter_CASCADE_other {R : Type} (fk : R -> option Z) (pk : Z)
    (p : R -> bool) (rows : list R) :
  (forall r, p r = true -> fk r <> Some pk) ->
  List.filter p (CASCADE fk [pk] rows) = List.filter p rows.
Proof.
  intros Hother. unfold CASCADE.
  induction rows as [|r rows IH]; simpl; [reflexivity |].
  destruct (fk_among [pk] (fk r)) eqn:Hfk; simpl.
  - apply fk_among_single in Hfk.
    destruct (p r) eqn:Hp; [exfalso; exact (Hother r Hp Hfk) | exact IH].
  - rewrite IH. reflexivity.
Qed.

(** X21. Deleting a contract is clean and local. Afterwards the contract
    is gone and no row of any table refers to it, audit entries included,
    and no deviation refers to one of its clauses. For every other
    contract the row, its files, approvals, versions, shares and audit
    entries are as before, in the same order. *)
Theorem contract_delete_is_clean_and_local (st : Store) (pk : Z) :
  let st' := Contract_delete st pk in
  contracts st' !! pk = None
  /\ (forall r, In r (contract_tags st') -> ct_contract r <> pk)
  /\ (forall k r, files st' !! k = Some r -> cf_contract r <> pk)
  /\ (forall r, In r (versions st') -> cv_contract r <> pk)
  /\ (forall r, In r (shares st') -> cs_contract r <> pk)
  /\ (forall k r, approvals st' !! k = Some r -> aa_contract r <> pk)
  /\ (forall r, In r (clauses st') -> cl_contract r <> pk)
  /\ (forall r, In r (deviations st') -> dv_contract r <> pk)
  /\ (forall r, In r (risks st') -> ri_contract r <> pk)
  /\ (forall r, In r (signatures st') -> sr_contract r <> pk)
  /\ (forall r, In r (audit_logs st') -> al_contract r <> Some pk)
  /\ (forall d cl,
        In d (deviations st') ->
        In cl (clauses st) ->
        cl_contract cl = pk ->
        dv_clause d <> Some (cl_pk cl))
  /\ (forall other,
        other <> pk ->
        contracts st' !! other = contracts st !! other
        /\ (forall k r,
              cf_contract r = other ->
              files st' !! k = Some r <-> files st !! k = Some r)
        /\ (forall k r,
              aa_contract r = other ->
              approvals st' !! k = Some r <-> approvals st !! k = Some r)
        /\ contract_versions st' other = contract_versions st other
        /\ List.filter (fun r => cs_contract r =? other) (shares st')
           = List.filter (fun r => cs_contract r =? other) (shares st)
        /\ List.filter (fun r => fk_is (al_contract r) other) (audit_logs st')
           = List.filter (fun r => fk_is (al_contract r) other)
               (audit_logs st)).
Proof.
  intros st'. subst st'.
  destruct (Contract_delete_children st pk)
    as (Hrow & Htags & Hfiles & Hversions & Hshares & Happrovals & Hclauses
        & Hdeviations & Hrisks & Hsignatures).
  split; [exact Hrow |].
  split; [intros r Hr; apply Htags in Hr; tauto |].
  split; [intros k r Hr; apply Hfiles in Hr; tauto |].
  split; [intros r Hr; apply Hversions in Hr; tauto |].
  split; [intros r Hr; apply Hshares in Hr; tauto |].
  split; [intros k r Hr; apply Happrovals in Hr; tauto |].
  split; [intros r Hr; apply Hclauses in Hr; tauto |].
  split; [exact Hdeviations |].
  split; [intros r Hr; apply Hrisks in Hr; tauto |].
  split; [intros r Hr; apply Hsignatures in Hr; tauto |].
  split; [intros r Hr; apply Contract_delete_audit_logs in Hr; tauto |].
  split.
  - intros d cl Hd Hcl Hcontract Href.
    cbn [Contract_delete deviations] in Hd. unfold SET_NULL in Hd.
    apply in_map_iff in Hd. destruct Hd as (d0 & Hd0 & _).
    assert (Hdeleted :
      fk_among
        (List.map cl_pk
           (List.filter (fun cl => cl_contract cl =? pk) (clauses st)))
        (Some (cl_pk cl)) = true).
    { cbn [fk_among]. apply existsb_exists. exists (cl_pk cl).
      split; [| apply Z.eqb_refl].
      apply in_map. apply filter_In. split; [exact Hcl |].
      apply Z.eqb_eq. exact Hcontract. }
    destruct (fk_among _ (dv_clause d0)) eqn:Hfk; subst d.
    + cbn [null_clause dv_clause] in Href. discriminate Href.
    + rewrite Href in Hfk. congruence.
  - intros other Hother.
    split; [cbn [Contract_delete contracts]; apply lookup_delete_ne; congruence |].
    split; [intros k r Hr; rewrite Hfiles; subst other; tauto |].
    split; [intros k r Hr; rewrite Happrovals; subst other; tauto |].
    unfold contract_versions. cbn [Contract_delete versions shares audit_logs].
    split; [| split]; apply filter_CASCADE_other.
    + intros r Hr [= Heq]. apply Z.eqb_eq in Hr. congruence.
    + intros r Hr [= Heq]. apply Z.eqb_eq in Hr. congruence.
    + intros r Hr Heq. rewrite Heq in Hr. cbn [fk_is] in Hr.
      apply Z.eqb_eq in Hr. congruence.
Qed.

(** ** Files *)

Lemma Contract_save_files (now : DateTime) (st : Store) (self : Contract) :
  files (fst (Contract_save now st self)) = files st.
Proof.
  unfold Contract_save. destruct (str_falsy (c_contract_number self));
    reflexivity.
Qed.

(** X22. Every operation of the services, run for a signed-in user,
    keeps the file table in order:
    if no contract has two files marked primary before an operation, none
    has after it. Creating a contract with a file and uploading a file go
    through [ContractFile.save], which demotes the other primary files;
    the other operations do not write files. *)
Theorem operations_keep_one_primary_file (now : DateTime) (new_id : Z)
    (st : Store) (user : User) (contract : Contract) (data : ContractData)
    (file : option UploadedFile) (upload : UploadedFile) (is_primary : bool)
    (text label notes level : string) (pk : Z)
    (approval : AdditionalApproval) (approver : Named)
    (to_user to_department : option Named) :
  u_is_authenticated user = true ->
  at_most_one_primary (files st) ->
  at_most_one_primary
    (files (fst (ContractOperationsService_create_contract now new_id st user
                   data file)))
  /\ at_most_one_primary
       (files (fst (ContractOperationsService_update_contract now st user
                      contract data)))
  /\ at_most_one_primary
       (files (fst (ContractOperationsService_change_status now st user
                      contract label text)))
  /\ at_most_one_primary
       (files (fst (ContractOperationsService_upload_file now st user contract
                      upload is_primary text)))
  /\ at_most_one_primary
       (files (fst (ContractOperationsService_add_version now st user contract
                      label file notes)))
  /\ at_most_one_primary
       (files (fst (ApprovalService_create_approval_request now st user
                      contract approver text)))
  /\ at_most_one_primary
       (files (fst (ApprovalService_process_decision now st user pk approval
                      label text)))
  /\ match ContractOperationsService_share_contract now st user contract
             to_user to_department level with
     | inr (st', _) => at_most_one_primary (files st')
     | inl IntegrityError => True
     end
  /\ at_most_one_primary (files (Contract_delete st pk)).
Proof.
  intros _ Hinv.
  repeat match goal with |- _ /\ _ => split end.
  - unfold ContractOperationsService_create_contract.
    pose proof (Contract_save_files now st) as Hsave.
    destruct (Contract_save now st _) as [st1 saved] eqn:Hcall.
    match type of Hcall with
    | Contract_save now st ?x = _ => specialize (Hsave x)
    end.
    rewrite Hcall in Hsave. cbn [fst] in Hsave.
    set (st2 := match default [] (d_tags data) with
                | [] => st1
                | _ :: _ => tags_set st1 (c_id saved) (default [] (d_tags data))
                end).
    assert (Hst2 : files st2 = files st).
    { unfold st2. destruct (default [] (d_tags data)); exact Hsave. }
    cbn [fst]. unfold AuditLogService_log.
    cbn [files set_audit_logs set_versions].
    destruct file as [f|]; [destruct (str_falsy (uf_name f)) |];
      try (rewrite Hst2; exact Hinv).
    unfold ContractOperationsService__create_contract_file.
    apply ContractFile_save_keeps_invariant. rewrite Hst2. exact Hinv.
  - unfold ContractOperationsService_update_contract.
    pose proof (Contract_save_files now st (Contract_setattrs data contract))
      as Hsave.
    destruct (Contract_save now st (Contract_setattrs data contract))
      as [st1 saved].
    cbn [fst] in Hsave.
    destruct (negb _); cbn [fst]; unfold AuditLogService_log;
      cbn [files set_audit_logs]; destruct (d_tags data);
      cbn [tags_set files set_contract_tags]; rewrite Hsave; exact Hinv.
  - unfold ContractOperationsService_change_status.
    pose proof (Contract_save_files now st (set_status label contract))
      as Hsave.
    destruct (Contract_save now st (set_status label contract)) as [st1 saved].
    cbn [fst] in Hsave. cbn [fst]. unfold AuditLogService_log.
    cbn [files set_audit_logs]. rewrite Hsave. exact Hinv.
  - unfold ContractOperationsService_upload_file,
      ContractOperationsService__create_contract_file.
    pose proof (ContractFile_save_keeps_invariant st None
      {| cf_contract := c_id contract; cf_original_filename := uf_name upload;
         cf_file_size := uf_size upload; cf_is_primary := is_primary;
         cf_description := text; cf_uploaded_by := Some (u_pk user) |} Hinv)
      as Hsaved.
    destruct (ContractFile_save st None _) as [st1 k].
    cbn [fst] in Hsaved. exact Hsaved.
  - exact Hinv.
  - exact Hinv.
  - exact Hinv.
  - unfold ContractOperationsService_share_contract.
    destruct (share_user_or_department _); [exact Hinv | exact I].
  - apply Contract_delete_keeps_invariant. exact Hinv.
Qed.

Lemma operations_keep_one_primary_file_witness :
  at_most_one_primary
    (files (fst (ContractOperationsService_upload_file sample_now
                   store_with_primary_file (regular_user 1)
                   (sample_contract 42 DRAFT 1 1 false)
                   {| uf_name := "signed.pdf"; uf_size := 2048;
                      uf_content := "%PDF" |} true ""))).
Proof.
  assert (Hbefore : at_most_one_primary (files store_with_primary_file)).
  { apply ContractFile_save_keeps_invariant.
    intros k1 k2 f1 f2 H1. discriminate H1. }
  apply (operations_keep_one_primary_file sample_now 0 store_with_primary_file
           (regular_user 1) (sample_contract 42 DRAFT 1 1 false) no_data None
           {| uf_name := "signed.pdf"; uf_size := 2048; uf_content := "%PDF" |}
           true "" "" "" "" 0 (sample_approval 42 1 2 PENDING) sample_user_2
           None None eq_refl Hbefore).
Defined.

Lemma demote_other_primaries_None (t : gmap Z ContractFile)
    (self_pk : option Z) (self : ContractFile) (k : Z) :
  t !! k = None -> demote_other_primaries t self_pk self !! k = None.
Proof.
  intros Hk. unfold demote_other_primaries.
  destruct (cf_is_primary self); [| exact Hk].
  rewrite map_lookup_imap, Hk. reflexivity.
Qed.

Lemma ContractFileUploadForm_is_valid_inv (post : UploadPost)
    (file : UploadedFile) (is_primary : bool) (description : string) :
  ContractFileUploadForm_is_valid post = Some (file, is_primary, description) ->
  up_file post = Some file
  /\ is_primary = up_is_primary post
  /\ (uf_name file = "" \/ uf_size file <= 20 * 1024 * 1024).
Proof.
  unfold ContractFileUploadForm_is_valid, ContractFileUploadForm_clean_file.
  destruct (up_file post) as [f|]; [| discriminate].
  destruct (clean_comment_field (up_description post)); [| discriminate].
  destruct (String.eqb_spec (uf_name f) "") as [Hname | Hname].
  - unfold str_falsy. rewrite (proj2 (String.eqb_eq _ _) Hname). cbn.
    intros [= <- <- _]. auto.
  - unfold str_falsy. rewrite (proj2 (String.eqb_neq _ _) Hname). cbn [negb andb].
    destruct (Z.ltb_spec (20 * 1024 * 1024) (uf_size f)); [discriminate |].
    intros [= <- <- _]. auto.
Qed.

(** X23. What the upload view adds to the file table. Whenever the view
    answers, a file row that was not there before is a file of the
    contract of the request, uploaded by the requesting user, who has the
    right to edit the contract; it carries the name and the size of the
    posted file, and its size is at most 20 MB (20 * 1024 * 1024 bytes)
    unless its name is empty. *)
Theorem upload_view_stores_only_accepted_files (now : DateTime) (st : Store)
    (request_user : User) (post : UploadPost) (pk : Z) (st' : Store)
    (response : Response) (k : Z) (f : ContractFile) :
  ContractFileUploadView_post now st request_user post pk
  = Ok (st', response) ->
  files st !! k = None ->
  files st' !! k = Some f ->
  exists contract file,
    contracts st !! pk = Some contract
    /\ can_edit_contract st (Some request_user) (Some contract) = Ok true
    /\ up_file post = Some file
    /\ cf_contract f = c_id contract
    /\ cf_uploaded_by f = Some (u_pk request_user)
    /\ cf_original_filename f = uf_name file
    /\ cf_file_size f = uf_size file
    /\ cf_is_primary f = up_is_primary post
    /\ (uf_name file = "" \/ uf_size file <= 20 * 1024 * 1024).
Proof.
  unfold ContractFileUploadView_post, can_upload_files.
  intros Hpost Hold Hnew.
  destruct (contracts st !! pk) as [contract|]; [| discriminate Hpost].
  destruct (can_edit_contract_returns st request_user contract) as [b Hb].
  rewrite Hb in Hpost. cbn [mbind PyResult_bind] in Hpost.
  destruct b; cbn [negb] in Hpost;
    [| injection Hpost as <- _; congruence].
  destruct (ContractFileUploadForm_is_valid post)
    as [[[file is_primary] description]|] eqn:Hvalid;
    [| injection Hpost as <- _; congruence].
  apply ContractFileUploadForm_is_valid_inv in Hvalid.
  destruct Hvalid as (Hfile & Hprimary & Hsize).
  injection Hpost as <- _.
  unfold ContractOperationsService_upload_file,
    ContractOperationsService__create_contract_file, ContractFile_save in Hnew.
  cbn -[next_pk] in Hnew.
  match type of Hnew with
  | context [<[?key := _]> _] => destruct (decide (k = key)) as [-> | Hne]
  end.
  - rewrite lookup_insert_eq in Hnew. injection Hnew as <-.
    exists contract, file. cbn. repeat split; auto.
  - rewrite lookup_insert_ne in Hnew by congruence.
    rewrite demote_other_primaries_None in Hnew by exact Hold.
    discriminate Hnew.
Qed.

Lemma upload_view_stores_only_accepted_files_witness :
  exists contract file,
    contracts store_with_contract !! 42 = Some contract
    /\ can_edit_contract store_with_contract (Some (regular_user 1))
         (Some contract) = Ok true
    /\ up_file sample_upload = Some file
    /\ cf_contract (sample_file 42 "test1.pdf" true) = c_id contract
    /\ cf_uploaded_by (sample_file 42 "test1.pdf" true)
       = Some (u_pk (regular_user 1))
    /\ cf_original_filename (sample_file 42 "test1.pdf" true) = uf_name file
    /\ cf_file_size (sample_file 42 "test1.pdf" true) = uf_size file
    /\ cf_is_primary (sample_file 42 "test1.pdf" true)
       = up_is_primary sample_upload
    /\ (uf_name file = "" \/ uf_size file <= 20 * 1024 * 1024).
Proof.
  apply (upload_view_stores_only_accepted_files sample_now store_with_contract
           (regular_user 1) sample_upload 42
           (fst (ContractOperationsService_upload_file sample_now
                   store_with_contract (regular_user 1)
                   (sample_contract 42 DRAFT 1 1 false)
                   {| uf_name := "test1.pdf"; uf_size := 7;
                      uf_content := "" |} true ""))
           (Redirect "contracts:detail" (Some 42)) 1).
  - reflexivity.
  - reflexivity.
  - reflexivity.
Defined.

(** ** A new contract and its creator *)

Lemma Contract_save_keeps (now : DateTime) (st : Store) (self : Contract) :
  c_owner (snd (Contract_save now st self)) = c_owner self
  /\ c_created_by (snd (Contract_save now st self)) = c_created_by self
  /\ c_status (snd (Contract_save now st self)) = c_status self.
Proof.
  unfold Contract_save. destruct (str_falsy (c_contract_number self));
    repeat split; reflexivity.
Qed.

Lemma create_contract_owner (now : DateTime) (new_id : Z) (st : Store)
    (user : User) (data : ContractData) (file : option UploadedFile) :
  let created :=
    snd (ContractOperationsService_create_contract now new_id st user data
           file) in
  c_created_by created = Some (u_pk user)
  /\ c_owner created = Some match d_owner data with
                            | Some (Some o) => o
                            | _ => u_pk user
                            end
  /\ c_status created = default DRAFT (d_status data).
Proof.
  unfold ContractOperationsService_create_contract.
  match goal with
  | |- context [Contract_save now st ?x] =>
      pose proof (Contract_save_keeps now st x) as (Howner & Hby & Hstatus);
      destruct (Contract_save now st x) as [st1 saved]
  end.
  cbn [snd] in *. cbn [Contract_setattrs Contract_init c_owner c_created_by
                       c_status d_owner d_created_by d_status from_option]
    in Howner, Hby, Hstatus.
  unfold id in Howner, Hby, Hstatus.
  split; [exact Hby |]. split; [| exact Hstatus].
  rewrite Howner. destruct (d_owner data) as [[o|]|]; reflexivity.
Qed.

(** X24. The user who creates a contract through the service is recorded
    as its creator, and as its owner unless the data name another owner.
    Whatever the role of a signed-in creator, the new contract can be
    viewed by its creator at once; when no other owner was named the
    creator may also edit and share it, and may delete it exactly when
    the creator is an administrator or the contract was created in status
    DRAFT (the default). *)
Theorem creator_holds_the_rights_over_a_new_contract (now : DateTime)
    (new_id : Z) (st : Store) (user : User) (data : ContractData)
    (file : option UploadedFile) :
  u_is_authenticated user = true ->
  let st' :=
    fst (ContractOperationsService_create_contract now new_id st user data
           file) in
  let created :=
    snd (ContractOperationsService_create_contract now new_id st user data
           file) in
  c_created_by created = Some (u_pk user)
  /\ c_owner created = Some match d_owner data with
                            | Some (Some o) => o
                            | _ => u_pk user
                            end
  /\ can_view_contract st' (Some user) (Some created) = Ok true
  /\ (d_owner data = None \/ d_owner data = Some None
      \/ d_owner data = Some (Some (u_pk user)) ->
      can_edit_contract st' (Some user) (Some created) = Ok true
      /\ can_share_contract (Some user) (Some created) = Ok true
      /\ (can_delete_contract (Some user) (Some created) = Ok true
          <-> is_legal_admin (Some user) = true
              \/ default DRAFT (d_status data) = DRAFT)).
Proof.
  intros Hauth st' created.
  destruct (create_contract_owner now new_id st user data file)
    as (Hby & Howner & Hstatus).
  fold created in Hby, Howner, Hstatus.
  split; [exact Hby |]. split; [exact Howner |].
  assert (Hcreator : fk_is (c_created_by created) (u_pk user) = true)
    by (apply fk_is_true; exact Hby).
  split.
  { unfold can_view_contract. rewrite Hauth. cbn [negb].
    destruct (is_legal_admin (Some user)); [reflexivity |].
    cbn [getattr_of mbind PyResult_bind]. rewrite Hcreator, orb_true_r.
    reflexivity. }
  intros Hself.
  assert (Hown : fk_is (c_owner created) (u_pk user) = true).
  { apply fk_is_true. rewrite Howner.
    destruct Hself as [-> | [-> | ->]]; reflexivity. }
  unfold can_edit_contract, can_share_contract, can_delete_contract.
  rewrite Hauth. cbn [negb].
  destruct (is_legal_admin (Some user)).
  - split; [reflexivity |]. split; [reflexivity |]. tauto.
  - cbn [getattr_of mbind PyResult_bind]. rewrite Hown.
    split; [reflexivity |]. split; [reflexivity |].
    cbn [andb]. rewrite Hstatus.
    change (String.eqb (default DRAFT (d_status data)) "DRAFT")
      with (String.eqb (default DRAFT (d_status data)) DRAFT).
    destruct (String.eqb_spec (default DRAFT (d_status data)) DRAFT);
      split; intros H; try reflexivity; try tauto; try discriminate.
    destruct H as [H | H]; [discriminate | contradiction].
Qed.

Lemma creator_holds_the_rights_over_a_new_contract_witness :
  can_view_contract store_after_creation (Some (staff_user 1))
    (Some (snd (ContractOperationsService_create_contract sample_now 42
                  empty_store (staff_user 1) sample_data None)))
  = Ok true.
Proof.
  destruct (creator_holds_the_rights_over_a_new_contract sample_now 42
              empty_store (staff_user 1) sample_data None eq_refl)
    as (_ & _ & Hview & _).
  exact Hview.
Defined.

(** ** Reading a contract *)

Lemma can_view_contract_returns (st : Store) (u : User) (c : Contract) :
  exists b, can_view_contract st (Some u) (Some c) = Ok b.
Proof.
  unfold can_view_contract. destruct (negb (u_is_authenticated u)); [eauto |].
  destruct (is_legal_admin (Some u)); [eauto |]. cbn.
  repeat match goal with
         | |- context [if ?b then _ else _] => destruct b; [eauto |]
         end.
  eauto.
Qed.

(** X25. Reading is gated by the right to view and leaves a trace. For a
    stored contract, the detail page is rendered exactly for the users
    who may view the contract, and each rendering adds one VIEW entry to
    the audit trail; other users are sent to the list and nothing is
    recorded. A download is answered with a file only for a user who may
    view the contract and only for a file of this very contract, under
    the file's original name, and adds one DOWNLOAD entry; a user who may
    not view the contract gets a Forbidden answer, and a file of another
    contract is not found, both without a trace. *)
Theorem reading_is_gated_and_audited (now : DateTime) (st : Store)
    (request_user : User) (pk file_id : Z) (contract : Contract) :
  contracts st !! pk = Some contract ->
  (can_view_contract st (Some request_user) (Some contract) = Ok true ->
   exists st',
     ContractDetailView_get now st request_user pk
     = Ok (st', Render "contracts/contract_detail.html" false)
     /\ logs_one now st st' (c_id contract) "VIEW" request_user)
  /\ (can_view_contract st (Some request_user) (Some contract) <> Ok true ->
      ContractDetailView_get now st request_user pk
      = Ok (st, Redirect "contracts:list" None)
      /\ ContractFileDownloadView_get now st request_user pk file_id
         = Ok (st, HttpResponseForbidden))
  /\ (forall st' filename,
        ContractFileDownloadView_get now st request_user pk file_id
        = Ok (st', FileResponse filename) ->
        can_view_contract st (Some request_user) (Some contract) = Ok true
        /\ (exists f,
              files st !! file_id = Some f
              /\ cf_contract f = c_id contract
              /\ cf_original_filename f = filename)
        /\ logs_one now st st' (c_id contract) "DOWNLOAD" request_user)
  /\ (forall f,
        files st !! file_id = Some f ->
        cf_contract f <> c_id contract ->
        can_view_contract st (Some request_user) (Some contract) = Ok true ->
        ContractFileDownloadView_get now st request_user pk file_id
        = Raise Http404).
Proof.
  intros Hrow. unfold ContractDetailView_get, ContractFileDownloadView_get.
  rewrite Hrow.
  destruct (can_view_contract_returns st request_user contract) as [b Hb].
  rewrite Hb. cbn [mbind PyResult_bind].
  destruct b; cbn [negb].
  - split.
    { intros _. eexists. split; [reflexivity |].
      apply logs_one_intro. reflexivity. }
    split; [intros Hno; contradiction |].
    split.
    + intros st' filename Hget. split; [reflexivity |].
      destruct (files st !! file_id) as [f|]; [| discriminate Hget].
      destruct (Z.eqb_spec (cf_contract f) (c_id contract)) as [Heq | Hne];
        [| discriminate Hget].
      injection Hget as <- <-.
      split; [exists f; auto |]. apply logs_one_intro. reflexivity.
    + intros f -> Hother _.
      rewrite (proj2 (Z.eqb_neq _ _) Hother). reflexivity.
  - split; [discriminate |].
    split; [intros _; split; reflexivity |].
    split; [intros st' filename [=] | intros f _ _ [=]].
Qed.

Lemma reading_is_gated_and_audited_witness :
  ContractDetailView_get sample_now store_with_shared_contract
    (regular_user 7) 42
  = Ok (store_with_shared_contract, Redirect "contracts:list" None)
  /\ ContractFileDownloadView_get sample_now store_with_shared_contract
       (regular_user 7) 42 0
     = Ok (store_with_shared_contract, HttpResponseForbidden).
Proof.
  destruct (reading_is_gated_and_audited sample_now store_with_shared_contract
              (regular_user 7) 42 0 (sample_contract 42 ACTIVE 1 1 true)
              eq_refl) as (_ & Hdenied & _).
  apply Hdenied. vm_compute. discriminate.
Defined.

(** ** Clauses and deviations *)

Lemma NoDup_cons_In {A : Type} (a : A) (l : list A) :
  NoDup (a :: l) <-> ~ In a l /\ NoDup l.
Proof. rewrite NoDup_cons, list_elem_of_In. reflexivity. Qed.

Lemma NoDup_map_filter {A B : Type} (f : A -> B) (p : A -> bool) (l : list A) :
  NoDup (List.map f l) -> NoDup (List.map f (List.filter p l)).
Proof.
  induction l as [|a l IH]; simpl; [auto |].
  intros Hnodup. apply NoDup_cons_In in Hnodup.
  destruct Hnodup as [Hnew Hrest].
  destruct (p a); simpl; [| exact (IH Hrest)].
  apply NoDup_cons_In. split; [| exact (IH Hrest)].
  intros Hin. apply Hnew. apply in_map_iff in Hin.
  destruct Hin as (x & Hx & Hfilter). apply filter_In in Hfilter.
  apply in_map_iff. exists x. tauto.
Qed.

Lemma NoDup_map_snoc {A B : Type} (f : A -> B) (l : list A) (a : A) :
  NoDup (List.map f l) -> ~ In (f a) (List.map f l) ->
  NoDup (List.map f (l ++ [a])).
Proof.
  induction l as [|b l IH]; simpl.
  - intros _ _. apply NoDup_singleton.
  - intros Hnodup Hnew. apply NoDup_cons_In in Hnodup.
    destruct Hnodup as [Hb Hrest]. apply NoDup_cons_In. split.
    + rewrite List.map_app, in_app_iff. simpl. intros [Hin | [Heq | []]];
        [exact (Hb Hin) | apply Hnew; left; congruence].
    + apply IH; [exact Hrest | tauto].
Qed.

Lemma NoDup_map_same {A B : Type} (f : A -> B) (l : list A) (a b : A) :
  NoDup (List.map f l) -> In a l -> In b l -> f a = f b -> a = b.
Proof.
  induction l as [|c l IH]; simpl; [tauto |].
  intros Hnodup Ha Hb Heq. apply NoDup_cons_In in Hnodup.
  destruct Hnodup as [Hc Hrest].
  destruct Ha as [-> | Ha]; destruct Hb as [-> | Hb]; auto.
  - exfalso. apply Hc. rewrite Heq. apply in_map. exact Hb.
  - exfalso. apply Hc. rewrite <- Heq. apply in_map. exact Ha.
Qed.

Lemma delete_nulls_no_clause (st : Store) (pk : Z) :
  deviations_within_contract st ->
  deviations (Contract_delete st pk)
  = List.filter (fun d => negb (dv_contract d =? pk)) (deviations st).
Proof.
  intros [Hkeys Hrefs]. cbn [Contract_delete deviations]. unfold SET_NULL.
  assert (Hsame : CASCADE (fun r => Some (dv_contract r)) [pk] (deviations st)
                  = List.filter (fun d => negb (dv_contract d =? pk))
                      (deviations st)).
  { unfold CASCADE. apply List.filter_ext. intros d. cbn [fk_among existsb].
    rewrite orb_false_r. reflexivity. }
  rewrite Hsame.
  rewrite <- (List.map_id (List.filter _ (deviations st))) at 2.
  apply List.map_ext_in. intros d Hd. apply filter_In in Hd.
  destruct Hd as [Hd Hother]. apply negb_true_iff, Z.eqb_neq in Hother.
  destruct (fk_among _ (dv_clause d)) eqn:Hfk; [| reflexivity].
  exfalso. destruct (dv_clause d) as [k|] eqn:Hclause; [| discriminate Hfk].
  cbn [fk_among] in Hfk. apply existsb_exists in Hfk.
  destruct Hfk as (k' & Hin & Heq). apply Z.eqb_eq in Heq. subst k'.
  apply in_map_iff in Hin. destruct Hin as (cl' & Hpk & Hcl').
  apply filter_In in Hcl'. destruct Hcl' as [Hcl' Hdeleted].
  apply Z.eqb_eq in Hdeleted.
  destruct (Hrefs d k Hd Hclause) as (cl & Hcl & Hk & Hcontract).
  assert (cl = cl') by (apply (NoDup_map_same cl_pk (clauses st)); congruence).
  subst cl'. congruence.
Qed.

(** X26. A deviation never points outside its contract. Call a store
    well-formed when its clauses have keys of their own and every clause a
    deviation refers to is a stored clause of the deviation's contract.
    The clause view and the deviation view keep a well-formed store
    well-formed (the deviation form accepts only a clause of the contract
    at hand), and so does the deletion of a contract. In a well-formed
    store the deletion of a contract removes its deviations and changes no
    other deviation: the rule that clears the clause of a deviation when
    the clause is deleted never applies. *)
Theorem deviations_stay_within_their_contract (now : DateTime) (st : Store)
    (request_user : User) (pk : Z) (clause_form : option string)
    (deviation_post : DeviationPost) :
  deviations_within_contract st ->
  (forall st' response,
     ClauseCreateView_post now st request_user clause_form pk
     = Ok (st', response) ->
     deviations_within_contract st')
  /\ (forall st' response,
        DeviationCreateView_post now st request_user deviation_post pk
        = Ok (st', response) ->
        deviations_within_contract st')
  /\ deviations_within_contract (Contract_delete st pk)
  /\ deviations (Contract_delete st pk)
     = List.filter (fun d => negb (dv_contract d =? pk)) (deviations st).
Proof.
  intros Hwf. pose proof Hwf as [Hkeys Hrefs].
  split; [| split; [| split]].
  - unfold ClauseCreateView_post. intros st' response Hpost.
    destruct (contracts st !! pk) as [contract|]; [| discriminate Hpost].
    destruct (can_edit_contract_returns st request_user contract) as [b Hb].
    rewrite Hb in Hpost. cbn [mbind PyResult_bind] in Hpost.
    destruct b; cbn [negb] in Hpost; [| injection Hpost as <- _; exact Hwf].
    destruct clause_form as [label|]; injection Hpost as <- _; [| exact Hwf].
    split; cbn [AuditLogService_log set_audit_logs set_clauses clauses
                deviations note_pk set_sequences].
    + apply NoDup_map_snoc; [exact Hkeys | apply next_pk_new].
    + intros d k Hd Hclause.
      destruct (Hrefs d k Hd Hclause) as (cl & Hcl & Hk & Hcontract).
      exists cl. rewrite in_app_iff. tauto.
  - unfold DeviationCreateView_post. intros st' response Hpost.
    destruct (contracts st !! pk) as [contract|]; [| discriminate Hpost].
    destruct (can_edit_contract_returns st request_user contract) as [b Hb].
    rewrite Hb in Hpost. cbn [mbind PyResult_bind] in Hpost.
    destruct b; cbn [negb] in Hpost; [| injection Hpost as <- _; exact Hwf].
    destruct (DeviationForm_clean_clause st contract (dp_clause deviation_post))
      as [clause|] eqn:Hclean; [| injection Hpost as <- _; exact Hwf].
    destruct (dp_fields deviation_post) as [[description risk_level]|];
      injection Hpost as <- _; [| exact Hwf].
    split; cbn [AuditLogService_log set_audit_logs set_deviations clauses
                deviations]; [exact Hkeys |].
    intros d k Hd Hclause. apply in_app_iff in Hd.
    destruct Hd as [Hd | [<- | []]]; [exact (Hrefs d k Hd Hclause) |].
    cbn [dv_clause dv_contract] in *. subst clause.
    unfold DeviationForm_clean_clause in Hclean.
    destruct (dp_clause deviation_post) as [raw|]; [| discriminate Hclean].
    destruct (existsb _ (clauses st)) eqn:Hexists; [| discriminate Hclean].
    injection Hclean as ->. apply existsb_exists in Hexists.
    destruct Hexists as (cl & Hcl & Hmatch).
    apply andb_true_iff in Hmatch. destruct Hmatch as [Hk Hcontract].
    apply Z.eqb_eq in Hk, Hcontract. exists cl. auto.
  - split.
    + cbn [Contract_delete clauses]. unfold CASCADE.
      apply NoDup_map_filter. exact Hkeys.
    + intros d k Hd Hclause.
      rewrite (delete_nulls_no_clause st pk Hwf) in Hd.
      apply filter_In in Hd. destruct Hd as [Hd Hother].
      apply negb_true_iff, Z.eqb_neq in Hother.
      destruct (Hrefs d k Hd Hclause) as (cl & Hcl & Hk & Hcontract).
      exists cl. split; [| auto].
      cbn [Contract_delete clauses]. apply CASCADE_In.
      split; [exact Hcl | congruence].
  - exact (delete_nulls_no_clause st pk Hwf).
Qed.

Lemma deviations_stay_within_their_contract_witness :
  match DeviationCreateView_post sample_now store_with_clause (regular_user 1)
          {| dp_clause := Some 0;
             dp_fields := Some ("cap removed", "HIGH") |} 42 with
  | Ok (st', _) =>
      List.map dv_clause (deviations st') = [Some 0]
      /\ deviations_within_contract st'
  | Raise _ => False
  end.
Proof.
  assert (Hwf : deviations_within_contract store_with_clause).
  { split; [apply NoDup_singleton |]. intros d k []. }
  destruct (deviations_stay_within_their_contract sample_now store_with_clause
              (regular_user 1) 42 None
              {| dp_clause := Some 0;
                 dp_fields := Some ("cap removed", "HIGH") |} Hwf)
    as (_ & Hdeviation & _).
  destruct (DeviationCreateView_post sample_now store_with_clause
              (regular_user 1)
              {| dp_clause := Some 0;
                 dp_fields := Some ("cap removed", "HIGH") |} 42)
    as [[st' response] | e] eqn:Hpost.
  - split; [| exact (Hdeviation st' response eq_refl)].
    vm_compute in Hpost. injection Hpost as <- _. reflexivity.
  - vm_compute in Hpost. discriminate Hpost.
Defined.

(** ** The edit view *)

(** X27. An edit through the edit view is always recorded as
    UPDATE_CONTRACT, a change of status included. The view hands the
    service the object its form has already written the new values to,
    so the service finds the status unchanged; called on the stored
    object with the same data, the service records a change of status as
    CHANGE_STATUS. In both cases the posted status is the one stored. *)
Theorem edit_view_logs_a_status_change_as_update (now : DateTime)
    (st : Store) (request_user : User) (cleaned_data : ContractData)
    (pk : Z) (object : Contract) :
  contracts st !! pk = Some object ->
  can_edit_contract st (Some request_user) (Some object) = Ok true ->
  exists st',
    ContractUpdateView_post now st request_user (Some cleaned_data) pk
    = Ok (st', Redirect "contracts:detail" (Some (c_id object)))
    /\ audit_logs st'
       = (audit_logs st
            ++ [{| al_contract := Some (c_id object);
                   al_action := "UPDATE_CONTRACT";
                   al_actor := Some (u_pk request_user);
                   al_metadata :=
                     [("updated_fields",
                       JStrs (ContractData_keys cleaned_data))];
                   al_created_at := dt_stamp now |}])%list
    /\ (forall new_status,
          d_status cleaned_data = Some new_status ->
          (exists saved,
             contracts st' !! c_id object = Some saved
             /\ c_status saved = new_status)
          /\ (new_status <> c_status object ->
              logs_one now st
                (fst (ContractOperationsService_update_contract now st
                        request_user object cleaned_data))
                (c_id object) "CHANGE_STATUS" request_user)).
Proof.
  intros Hrow Hedit. unfold ContractUpdateView_post. rewrite Hrow, Hedit.
  cbn [mbind PyResult_bind negb].
  assert (Hservice : forall contract,
    let saved :=
      snd (Contract_save now st (Contract_setattrs cleaned_data contract)) in
    exists st1,
      audit_logs st1 = audit_logs st
      /\ contracts st1 !! c_id contract = Some saved
      /\ c_status saved = default (c_status contract) (d_status cleaned_data)
      /\ ContractOperationsService_update_contract now st request_user
           contract cleaned_data
         = if negb (String.eqb (c_status saved) (c_status contract))
           then (AuditLogService_log now st1 (Some (c_id contract))
                   "CHANGE_STATUS" request_user
                   [("old_status", JStr (c_status contract));
                    ("new_status", JStr (c_status saved))], saved)
           else (AuditLogService_log now st1 (Some (c_id contract))
                   "UPDATE_CONTRACT" request_user
                   [("updated_fields",
                     JStrs (ContractData_keys cleaned_data))], saved)).
  { intros contract saved. subst saved.
    unfold ContractOperationsService_update_contract.
    pose proof (Contract_save_frame now st
                  (Contract_setattrs cleaned_data contract))
      as (Hlogs & Hid & Hstatus).
    pose proof (Contract_save_lookup now st
                  (Contract_setattrs cleaned_data contract)) as Hlookup.
    destruct (Contract_save now st (Contract_setattrs cleaned_data contract))
      as [st1 saved].
    cbn [fst snd] in *. cbn [Contract_setattrs c_id c_status] in *.
    rewrite Hid.
    exists (match d_tags cleaned_data with
            | Some ts => tags_set st1 (c_id contract) ts
            | None => st1
            end).
    split; [destruct (d_tags cleaned_data); exact Hlogs |].
    split; [destruct (d_tags cleaned_data); exact Hlookup |].
    split; [exact Hstatus | reflexivity]. }
  destruct (Hservice (Contract_setattrs cleaned_data object))
    as (st1 & Hlogs & Hstored & Hstatus & Hcall).
  cbn [Contract_setattrs c_id c_status] in Hlogs, Hstored, Hstatus, Hcall.
  assert (Hsame :
    String.eqb
      (c_status
         (snd (Contract_save now st
                 (Contract_setattrs cleaned_data
                    (Contract_setattrs cleaned_data object)))))
      (default (c_status object) (d_status cleaned_data)) = true).
  { apply String.eqb_eq. rewrite Hstatus.
    destruct (d_status cleaned_data); reflexivity. }
  rewrite Hsame in Hcall. cbn [negb] in Hcall.
  rewrite Hcall. cbn [fst Contract_setattrs c_id].
  eexists. split; [reflexivity |].
  split; [cbn; rewrite Hlogs; reflexivity |].
  intros new_status Hposted. split.
  - eexists. split; [exact Hstored |]. rewrite Hstatus, Hposted.
    reflexivity.
  - intros Hchanged.
    destruct (Hservice object) as (st2 & Hlogs2 & _ & Hstatus2 & Hcall2).
    cbv zeta in Hstatus2, Hcall2. rewrite Hposted in Hstatus2.
    cbn [from_option] in Hstatus2. unfold id in Hstatus2.
    rewrite Hstatus2 in Hcall2.
    rewrite (proj2 (String.eqb_neq _ _) Hchanged) in Hcall2.
    cbn [negb] in Hcall2. rewrite Hcall2. cbn [fst].
    apply logs_one_intro. exact Hlogs2.
Qed.

Lemma edit_view_logs_a_status_change_as_update_witness :
  exists st',
    ContractUpdateView_post sample_now store_with_contract (regular_user 1)
      (Some sample_edit_data) 42
    = Ok (st', Redirect "contracts:detail" (Some 42))
    /\ List.map al_action (audit_logs st') = ["UPDATE_CONTRACT"].
Proof.
  destruct (edit_view_logs_a_status_change_as_update sample_now
              store_with_contract (regular_user 1) sample_edit_data 42
              (sample_contract 42 DRAFT 1 1 false) eq_refl eq_refl)
    as (st' & Hpost & Hlogs & _).
  exists st'. split; [exact Hpost |]. rewrite Hlogs. reflexivity.
Defined.

(** ** The approvals of a user *)

(** X28. The list of approvals agrees with the approval page, for a
    signed-in user. Without filters the list holds exactly the stored
    approvals whose page this user is shown (administrators: all; others:
    those they are to decide or have requested). Filtered to status
    PENDING and to the approvals assigned to the user, it holds exactly
    the approvals waiting for this user's decision, and the page of each
    offers the decision. *)
Theorem approvals_list_agrees_with_the_approval_page (st : Store)
    (user : User) (pk : Z) (approval : AdditionalApproval) :
  u_is_authenticated user = true ->
  (ApprovalService_get_approvals_for_user st user None !! pk = Some approval
   <-> exists can_decide,
         ApprovalDetailView_get st user pk
         = Ok (ApprovalDetail approval can_decide))
  /\ (ApprovalService_get_approvals_for_user st user
        (Some {| flt_status := Some PENDING;
                 flt_assigned_to_me := Some true;
                 flt_requested_by_me := None |}) !! pk = Some approval
      <-> approvals st !! pk = Some approval
          /\ aa_status approval = PENDING
          /\ aa_approver approval = u_pk user)
  /\ (ApprovalService_get_approvals_for_user st user
        (Some {| flt_status := Some PENDING;
                 flt_assigned_to_me := Some true;
                 flt_requested_by_me := None |}) !! pk = Some approval ->
      ApprovalDetailView_get st user pk = Ok (ApprovalDetail approval true)).
Proof.
  intros Hauth.
  assert (Hfiltered :
    ApprovalService_get_approvals_for_user st user
      (Some {| flt_status := Some PENDING; flt_assigned_to_me := Some true;
               flt_requested_by_me := None |}) !! pk = Some approval
    <-> approvals st !! pk = Some approval
        /\ aa_status approval = PENDING
        /\ aa_approver approval = u_pk user).
  { unfold ApprovalService_get_approvals_for_user. cbn.
    destruct (is_legal_admin (Some user)); cbn [negb];
      rewrite !map_lookup_filter_Some; cbn [snd];
      rewrite ?orb_true_iff, String.eqb_eq, !Z.eqb_eq; tauto. }
  split; [| split; [exact Hfiltered |]].
  - unfold ApprovalService_get_approvals_for_user, ApprovalDetailView_get,
      same_user, can_approve_request.
    cbn [filters_truthy]. rewrite Hauth. cbn [negb andb].
    destruct (is_legal_admin (Some user)) eqn:Hadmin; cbn [negb andb].
    + destruct (approvals st !! pk) as [a|]; split.
      * intros [= ->]. cbn [getattr_of mbind PyResult_bind].
        destruct (aa_approver approval =? u_pk user); eexists; reflexivity.
      * intros [d Hget]. cbn [getattr_of mbind PyResult_bind] in Hget.
        destruct (aa_approver a =? u_pk user); injection Hget as -> _;
          reflexivity.
      * discriminate.
      * intros [d Hget]. discriminate Hget.
    + rewrite map_lookup_filter_Some. cbn [snd].
      destruct (approvals st !! pk) as [a|]; split.
      * intros [[= ->] Hmine]. cbn [getattr_of mbind PyResult_bind].
        destruct (aa_approver approval =? u_pk user);
          destruct (aa_requested_by approval =? u_pk user);
          try discriminate Hmine; cbn; eexists; reflexivity.
      * intros [d Hget]. cbn [getattr_of mbind PyResult_bind] in Hget.
        destruct (aa_approver a =? u_pk user) eqn:Happrover;
          destruct (aa_requested_by a =? u_pk user) eqn:Hrequester;
          cbn in Hget; try discriminate Hget;
          injection Hget as -> _; rewrite ?Happrover, ?Hrequester;
          split; reflexivity.
      * intros [[=] _].
      * intros [d Hget]. discriminate Hget.
  - intros Hlisted. apply Hfiltered in Hlisted.
    destruct Hlisted as (Hrow & Hstatus & Happrover).
    unfold ApprovalDetailView_get, same_user, can_approve_request.
    rewrite Hrow, Hauth. cbn [negb andb getattr_of mbind PyResult_bind].
    rewrite Happrover, Z.eqb_refl, Hstatus, andb_false_r. reflexivity.
Qed.

Lemma approvals_list_agrees_with_the_approval_page_witness :
  ApprovalService_get_approvals_for_user store_with_approval (regular_user 2)
    (Some {| flt_status := Some PENDING; flt_assigned_to_me := Some true;
             flt_requested_by_me := None |}) !! 1
  = Some (sample_approval 42 1 2 PENDING)
  /\ ApprovalDetailView_get store_with_approval (regular_user 2) 1
     = Ok (ApprovalDetail (sample_approval 42 1 2 PENDING) true).
Proof.
  destruct (approvals_list_agrees_with_the_approval_page store_with_approval
              (regular_user 2) 1 (sample_approval 42 1 2 PENDING) eq_refl)
    as (_ & Hfiltered & Hoffered).
  assert (Hlisted :
    ApprovalService_get_approvals_for_user store_with_approval
      (regular_user 2)
      (Some {| flt_status := Some PENDING; flt_assigned_to_me := Some true;
               flt_requested_by_me := None |}) !! 1
    = Some (sample_approval 42 1 2 PENDING)).
  { apply Hfiltered. repeat split; reflexivity. }
  split; [exact Hlisted | exact (Hoffered Hlisted)].
Defined.
